(** * Uber pickups dashboard (Aula_01/app.py): loader and aggregations

    A shallow embedding of [load_data] and of the filter, KPI, chart, table,
    map and export code of the Streamlit script, over a row-major model of a
    pandas DataFrame.  Cells are dynamically typed, as in pandas; float64
    cells are the kernel's binary64 floats. *)

From Stdlib Require Import ZArith String Ascii List Bool Lia PrimFloat Uint63 Sorted.
From Stdlib Require Import Floats.
From stdpp Require Import base list strings pretty.
Import ListNotations.

Local Open Scope Z_scope.

(** ** Python strings, ASCII range

    A [str] is modelled by a [string] of 8-bit characters (the UTF-8 bytes
    of the text).  This module gives the case mappings, the white-space
    class and [repr] of Python on the ASCII range: they are what Python does
    to ASCII text, and they are used for the constant labels of the script
    and by the library of the concrete runs.  On text in general
    [str.strip], [str.lower], [str.upper] and [repr] follow Unicode; there
    they are taken from the library (see [Pandas] below). *)

Module PyStr.

Definition isspace (c : ascii) : bool :=
  let n := nat_of_ascii c in
  ((9 <=? n)%nat && (n <=? 13)%nat) || ((28 <=? n)%nat && (n <=? 32)%nat).

Definition upper_char (c : ascii) : ascii :=
  let n := nat_of_ascii c in
  if ((97 <=? n)%nat && (n <=? 122)%nat) then ascii_of_nat (n - 32) else c.

Definition lower_char (c : ascii) : ascii :=
  let n := nat_of_ascii c in
  if ((65 <=? n)%nat && (n <=? 90)%nat) then ascii_of_nat (n + 32) else c.

Fixpoint map_chars (f : ascii -> ascii) (s : string) : string :=
  match s with
  | EmptyString => EmptyString
  | String c s' => String (f c) (map_chars f s')
  end.

(** [str.upper()] and [str.lower()] *)
Definition upper : string -> string := map_chars upper_char.
Definition lower : string -> string := map_chars lower_char.

Fixpoint lstrip (s : string) : string :=
  match s with
  | EmptyString => EmptyString
  | String c s' => if isspace c then lstrip s' else s
  end.

Fixpoint rstrip (s : string) : string :=
  match s with
  | EmptyString => EmptyString
  | String c s' =>
      match rstrip s' with
      | EmptyString => if isspace c then EmptyString else String c EmptyString
      | r => String c r
      end
  end.

(** [str.strip()] *)
Definition strip (s : string) : string := rstrip (lstrip s).

Fixpoint contains_char (c : ascii) (s : string) : bool :=
  match s with
  | EmptyString => false
  | String d s' => Ascii.eqb c d || contains_char c s'
  end.

Definition squote : ascii := "'"%char.
Definition dquote : ascii := "034"%char.
Definition backslash : ascii := "\"%char.

Definition hex_digit (n : nat) : ascii :=
  if (n <? 10)%nat then ascii_of_nat (48 + n) else ascii_of_nat (87 + n).

(** One character inside [repr(s)], with [q] the quote that delimits it. *)
Definition repr_char (q c : ascii) : string :=
  let n := nat_of_ascii c in
  if Ascii.eqb c q || Ascii.eqb c backslash then String backslash (String c EmptyString)
  else if (n =? 10)%nat then String backslash "n"
  else if (n =? 13)%nat then String backslash "r"
  else if (n =? 9)%nat then String backslash "t"
  else if (n <? 32)%nat || (n =? 127)%nat then
    String backslash (String "x" (String (hex_digit (n / 16)) (String (hex_digit (n mod 16)) EmptyString)))
  else String c EmptyString.

Fixpoint repr_body (q : ascii) (s : string) : string :=
  match s with
  | EmptyString => EmptyString
  | String c s' => repr_char q c +:+ repr_body q s'
  end.

(** [repr(s)]: single quotes, unless the text has a single quote and no
    double quote. *)
Definition repr (s : string) : string :=
  let q := if contains_char squote s && negb (contains_char dquote s)
           then dquote else squote in
  String q (repr_body q s) +:+ String q EmptyString.

Fixpoint join (sep : string) (l : list string) : string :=
  match l with
  | [] => EmptyString
  | [x] => x
  | x :: l' => x +:+ sep +:+ join sep l'
  end.

(** [repr] of a list of [str], as an f-string interpolates it. *)
Definition repr_list (l : list string) : string :=
  "[" +:+ join ", " (map repr l) +:+ "]".

End PyStr.

(** Text of the ASCII range, and text of ASCII white space only *)
Fixpoint is_ascii (s : string) : bool :=
  match s with
  | EmptyString => true
  | String c s' => (nat_of_ascii c <? 128)%nat && is_ascii s'
  end.

Fixpoint blank (s : string) : bool :=
  match s with
  | EmptyString => true
  | String c s' => PyStr.isspace c && blank s'
  end.

(** ** Timestamps and dates

    A [datetime64[ns]] value is its count of nanoseconds since
    1970-01-01T00:00:00 (an int64); a [datetime.date] is its count of days
    since 1970-01-01, so that dates compare as the integers do. *)

Module Calendar.

Definition ns_per_second : Z := 1000000000.
Definition ns_per_hour : Z := 3600 * ns_per_second.
Definition ns_per_day : Z := 24 * ns_per_hour.

(** [Timestamp.date()] *)
Definition date_of (ns : Z) : Z := ns / ns_per_day.

(** [Timestamp.hour] *)
Definition hour_of (ns : Z) : Z := (ns / ns_per_hour) mod 24.

Definition minute_of (ns : Z) : Z := (ns / (60 * ns_per_second)) mod 60.
Definition second_of (ns : Z) : Z := (ns / ns_per_second) mod 60.

(** [Timestamp.day_name()]; 1970-01-01 was a Thursday. *)
Definition day_name (ns : Z) : string :=
  match (date_of ns + 3) mod 7 with
  | 0 => "Monday"
  | 1 => "Tuesday"
  | 2 => "Wednesday"
  | 3 => "Thursday"
  | 4 => "Friday"
  | 5 => "Saturday"
  | _ => "Sunday"
  end.

(** Year, month and day of a day count (proleptic Gregorian calendar). *)
Definition civil_of_days (days : Z) : Z * Z * Z :=
  let z := days + 719468 in
  let era := z / 146097 in
  let doe := z - era * 146097 in
  let yoe := (doe - doe / 1460 + doe / 36524 - doe / 146096) / 365 in
  let doy := doe - (365 * yoe + yoe / 4 - yoe / 100) in
  let mp := (5 * doy + 2) / 153 in
  let d := doy - (153 * mp + 2) / 5 + 1 in
  let m := if mp <? 10 then mp + 3 else mp - 9 in
  let y := yoe + era * 400 + (if m <=? 2 then 1 else 0) in
  (y, m, d).

Definition days_of_civil (y m d : Z) : Z :=
  let y' := if m <=? 2 then y - 1 else y in
  let era := y' / 400 in
  let yoe := y' - era * 400 in
  let doy := (153 * (if 2 <? m then m - 3 else m + 9) + 2) / 5 + d - 1 in
  let doe := yoe * 365 + yoe / 4 - yoe / 100 + doy in
  era * 146097 + doe - 719468.

Definition zero_pad (width : nat) (n : Z) : string :=
  let s := pretty (Z.to_N n) in
  String.concat EmptyString (replicate (width - String.length s) "0") +:+ s.

(** [str(d)] for a [datetime.date]: YYYY-MM-DD *)
Definition str_date (days : Z) : string :=
  let '(y, m, d) := civil_of_days days in
  zero_pad 4 y +:+ "-" +:+ zero_pad 2 m +:+ "-" +:+ zero_pad 2 d.

(** [str(t)] for a [Timestamp]: the date, the time, and the fraction of a
    second when there is one (six digits, or nine below the microsecond). *)
Definition str_timestamp (ns : Z) : string :=
  let frac := ns mod ns_per_second in
  str_date (date_of ns) +:+ " " +:+ zero_pad 2 (hour_of ns) +:+ ":" +:+
  zero_pad 2 (minute_of ns) +:+ ":" +:+ zero_pad 2 (second_of ns) +:+
  (if frac =? 0 then EmptyString
   else if frac mod 1000 =? 0 then "." +:+ zero_pad 6 (frac / 1000)
   else "." +:+ zero_pad 9 frac).

End Calendar.

(** ** Cells, exceptions, results *)

(** What a cell of a DataFrame holds.  A missing value is the float NaN
    (object and float columns) or [NaT] (datetime columns). *)
Inductive value :=
| VStr (s : string)
| VInt (z : Z)
| VFloat (f : float)
| VTimestamp (ns : Z)
| VNaT
| VDate (days : Z).

Definition NaN : value := VFloat nan.

(** [pd.isna] on one cell *)
Definition isna (v : value) : bool :=
  match v with
  | VFloat f => is_nan f
  | VNaT => true
  | _ => false
  end.

(** Exceptions, each with the text [str(e)] gives: for a KeyError that is
    the [repr] of the key, or of the list of keys.  [URLError] stands for
    the class and its subclasses (HTTPError), which the script catches
    first; [OtherError] for an exception of any other class
    (FileNotFoundError, ParserError, ...), which only [except Exception]
    catches. *)
Inductive exn :=
| ValueError (msg : string)
| KeyError (key_repr : string)
| TypeError (msg : string)
| URLError (msg : string)
| OtherError (msg : string).

Definition str_exn (e : exn) : string :=
  match e with
  | ValueError m | KeyError m | TypeError m | URLError m | OtherError m => m
  end.

(** [float(z)] for an integer of the int64 range *)
Definition float_of_Z (z : Z) : float :=
  if z <? 0 then PrimFloat.opp (of_uint63 (Uint63.of_Z (- z)))
  else of_uint63 (Uint63.of_Z z).

Inductive result (A : Type) :=
| Ok (a : A)
| Raise (e : exn).
Arguments Ok {A} a.
Arguments Raise {A} e.

#[global] Instance result_ret : MRet result := @Ok.
#[global] Instance result_bind : MBind result := fun A B f m =>
  match m with
  | Ok a => f a
  | Raise e => Raise e
  end.

Fixpoint traverse {A B} (f : A -> result B) (l : list A) : result (list B) :=
  match l with
  | [] => Ok []
  | x :: l' => y ← f x; ys ← traverse f l'; Ok (y :: ys)
  end.

(** ** DataFrames, row-major

    [columns] are the labels in order; each row lists its cells in the same
    order.  A cell that a row does not have reads as NaN, which is how
    [read_csv] fills a short line.  The row index is the position in
    [data]: [reset_index(drop=True)] renumbers it and changes nothing here. *)

Record DataFrame := mkDF { columns : list string; data : list (list value) }.

Fixpoint col_index (c : string) (cols : list string) : option nat :=
  match cols with
  | [] => None
  | c' :: cols' => if String.eqb c c' then Some 0%nat else S <$> col_index c cols'
  end.

Definition cell (row : list value) (i : nat) : value := default NaN (row !! i).

Definition set_cell (i : nat) (v : value) (row : list value) : list value :=
  <[i := v]> (row ++ replicate (S i - length row) NaN).

(** [c in df.columns] *)
Definition has_column (c : string) (df : DataFrame) : bool :=
  bool_decide (c ∈ columns df).

(** [df[c]]: the cells of one column, top to bottom *)
Definition getitem (df : DataFrame) (c : string) : result (list value) :=
  match col_index c (columns df) with
  | Some i => Ok (map (fun row => cell row i) (data df))
  | None => Raise (KeyError (PyStr.repr c))
  end.

(** [df[c] = s]: replaces the column in place, or appends a new one *)
Definition setitem (df : DataFrame) (c : string) (s : list value) : DataFrame :=
  match col_index c (columns df) with
  | Some i => mkDF (columns df) (zip_with (set_cell i) s (data df))
  | None =>
      mkDF (columns df ++ [c]) (zip_with (set_cell (length (columns df))) s (data df))
  end.

(** [df[c] = v] with a scalar: the value is broadcast to every row *)
Definition setitem_scalar (df : DataFrame) (c : string) (v : value) : DataFrame :=
  setitem df c (replicate (length (data df)) v).

(** [df[mask]]: the rows whose mask entry is true *)
Definition boolean_index (df : DataFrame) (mask : list bool) : DataFrame :=
  mkDF (columns df) (snd <$> List.filter fst (zip mask (data df))).

(** The cell of [row] under the label [c], for a frame whose labels are
    [cols] (NaN when there is no such label) *)
Definition at_label (cols : list string) (row : list value) (c : string) : value :=
  match col_index c cols with
  | Some i => cell row i
  | None => NaN
  end.

(** [df.dropna(subset=...)]: keeps the rows with no missing value under the
    labels of [subset]; a KeyError names the labels that are absent. *)
Definition dropna (subset : list string) (df : DataFrame) : result DataFrame :=
  match List.filter (fun c => negb (has_column c df)) subset with
  | [] =>
      Ok (mkDF (columns df)
            (List.filter
               (fun row => forallb (fun c => negb (isna (at_label (columns df) row c))) subset)
               (data df)))
  | missing => Raise (KeyError (PyStr.repr_list missing))
  end.

(** [df.rename(columns={old: new})] *)
Definition rename (old new : string) (df : DataFrame) : DataFrame :=
  mkDF (map (fun c => if String.eqb c old then new else c) (columns df)) (data df).

(** [len(df)] *)
Definition len (df : DataFrame) : nat := length (data df).

(** [df.reset_index(drop=True)] *)
Definition reset_index (df : DataFrame) : DataFrame := df.

(** [df.empty]: an axis of length 0 *)
Definition empty (df : DataFrame) : bool :=
  (length (data df) =? 0)%nat || (length (columns df) =? 0)%nat.

(** ** The library functions that are taken as given

    Reading the source, parsing text into timestamps and numbers, printing
    floats and averaging are pandas' and numpy's; the methods of [str] and
    [sorted] are Python's, the date widget is Streamlit's.  The script's
    behaviour is stated for any such functions. *)

Class Pandas := {
  (** [str.strip()], [str.lower()] and [repr] of a [str], as the script
      applies them to a column label *)
  py_strip : string -> string;
  py_lower : string -> string;
  py_repr : string -> string;
  (** [Series.str.strip()] and [Series.str.upper()] on one text cell *)
  text_strip : string -> string;
  text_upper : string -> string;
  (** whether [Series.astype(str)] leaves a missing value missing (pandas 3)
      or writes it as the text "nan" (pandas before 3) *)
  astype_str_keeps_na : bool;
  (** [sorted(values)]: the sorted list, or the TypeError of a comparison
      between values of different types *)
  py_sorted : list value -> result (list value);
  (** [st.date_input(label, value=(lo, hi), min_value=lo, max_value=hi)]:
      whether the widget accepts these defaults, or the exception it raises *)
  date_input_default : value -> value -> result unit;
  (** [pd.read_csv(url, nrows=nrows)]: the table as read, or the exception *)
  read_csv : string -> option Z -> result DataFrame;
  (** [pd.to_datetime(..., errors="coerce")] on one cell: nanoseconds since
      the epoch, or [None] for NaT *)
  to_datetime_elem : value -> option Z;
  (** how [pd.to_numeric] reads a [str]: an integer, a float, or no number *)
  parse_number : string -> option (Z + float);
  (** [repr] of a float that is not NaN *)
  repr_float : float -> string;
  (** the text [to_csv] writes for one cell *)
  csv_text : value -> string;
  (** [np.average] of a column *)
  np_average : list value -> value
}.

Definition is_text (v : value) : bool :=
  match v with VStr _ => true | _ => false end.

(** What the statements below use of Python's and Streamlit's functions,
    where they use anything: on ASCII text the methods of [str] are those
    of [PyStr]; ASCII blanks around a label are stripped, and the case of
    its ASCII letters is lost by [lower]; upper-casing twice is upper-casing
    once, and it puts no white space at either end of a trimmed text; text
    can be sorted; the date widget opens on a range of two dates and raises
    when it is given no date. *)
Class PythonLaws `{Pandas} : Prop := {
  py_strip_blank pad s pad' :
    blank pad = true -> blank pad' = true -> py_strip (pad +:+ s +:+ pad') = py_strip s;
  py_lower_strip_upper s :
    py_lower (py_strip (PyStr.upper s)) = py_lower (py_strip s);
  text_strip_ascii s : is_ascii s = true -> text_strip s = PyStr.strip s;
  text_upper_ascii s : is_ascii s = true -> text_upper s = PyStr.upper s;
  text_upper_idem s : text_upper (text_upper s) = text_upper s;
  text_strip_upper s : text_strip (text_upper (text_strip s)) = text_upper (text_strip s);
  py_sorted_text l :
    forallb is_text l = true -> exists l', py_sorted l = Ok l';
  date_input_dates s e :
    s <= e -> date_input_default (VDate s) (VDate e) = Ok tt;
  date_input_NaT : exists e, date_input_default VNaT VNaT = Raise e
}.

(** ** Constants / defaults *)

Definition DATE_COL_RAW : string := "date/time".
Definition LAT_COL : string := "lat".
Definition LON_COL : string := "lon".
Definition BASE_COL : string := "base".

(** ** Series operations used by the loader *)

Section Loader.
Context `{Pandas}.

(** [pd.to_datetime(s, errors="coerce")] *)
Definition to_datetime_value (v : value) : value :=
  match to_datetime_elem v with
  | Some ns => VTimestamp ns
  | None => VNaT
  end.

Definition to_datetime (s : list value) : list value := map to_datetime_value s.

(** How [pd.to_numeric(s, errors="coerce")] reads one cell: numbers stay,
    text is parsed, anything that is not a number becomes NaN *)
Definition to_numeric_elem (v : value) : value :=
  match v with
  | VInt _ | VFloat _ => v
  | VStr s =>
      match parse_number s with
      | Some (inl z) => VInt z
      | Some (inr f) => VFloat f
      | None => NaN
      end
  | _ => NaN
  end.

Definition is_int (v : value) : bool :=
  match v with VInt _ => true | _ => false end.

Definition to_float (v : value) : value :=
  match v with VInt z => VFloat (float_of_Z z) | _ => v end.

(** [pd.to_numeric(s, errors="coerce")]: the column comes back with one
    dtype, int64 when every cell reads as an integer, float64 otherwise
    (the integers are then converted). *)
Definition to_numeric (s : list value) : list value :=
  let cells := map to_numeric_elem s in
  if forallb is_int cells then cells else map to_float cells.

(** The [.dt] accessors.  They are applied to the column [to_datetime]
    made, whose cells are timestamps or NaT. *)
Definition date_elem (v : value) : value :=
  match v with
  | VTimestamp ns => VDate (Calendar.date_of ns)
  | _ => VNaT
  end.

Definition hour_elem (v : value) : value :=
  match v with
  | VTimestamp ns => VInt (Calendar.hour_of ns)
  | _ => NaN
  end.

Definition day_name_elem (v : value) : value :=
  match v with
  | VTimestamp ns => VStr (Calendar.day_name ns)
  | _ => NaN
  end.

Definition dt_date (s : list value) : list value := map date_elem s.
Definition dt_hour (s : list value) : list value := map hour_elem s.
Definition dt_day_name (s : list value) : list value := map day_name_elem s.

(** [str(v)] *)
Definition str_value (v : value) : string :=
  match v with
  | VStr s => s
  | VInt z => pretty z
  | VFloat f => if is_nan f then "nan" else repr_float f
  | VTimestamp ns => Calendar.str_timestamp ns
  | VNaT => "NaT"
  | VDate d => Calendar.str_date d
  end.

(** [s.astype(str)]: [str] is applied to each cell; a missing value is
    written as text ("nan") or stays missing, as the library has it *)
Definition astype_str (s : list value) : list value :=
  map (fun v => if astype_str_keeps_na && isna v then v else VStr (str_value v)) s.

(** [.str.strip()] and [.str.upper()]: a cell that is not text gives NaN *)
Definition str_map (f : string -> string) (s : list value) : list value :=
  map (fun v => match v with VStr x => VStr (f x) | _ => NaN end) s.

Definition str_strip : list value -> list value := str_map text_strip.
Definition str_upper : list value -> list value := str_map text_upper.

(** ** load_data *)

(** [repr] of a list of labels, as the f-string interpolates it *)
Definition repr_labels (cols : list string) : string :=
  "[" +:+ PyStr.join ", " (map py_repr cols) +:+ "]".

Definition missing_column_message (cols : list string) : string :=
  "Coluna '" +:+ DATE_COL_RAW +:+ "' não encontrada. Colunas disponíveis: "
  +:+ repr_labels cols.

Definition load_data (url : string) (nrows : option Z) : result DataFrame :=
  df ← read_csv url nrows;
  let df := mkDF (map (fun c => py_lower (py_strip c)) (columns df)) (data df) in
  if negb (has_column DATE_COL_RAW df) then
    Raise (ValueError (missing_column_message (columns df)))
  else
    s ← getitem df DATE_COL_RAW;
    let df := setitem df DATE_COL_RAW (to_datetime s) in
    df ← dropna [DATE_COL_RAW; LAT_COL; LON_COL] df;
    (* Normalize types *)
    lat ← getitem df LAT_COL;
    let df := setitem df LAT_COL (to_numeric lat) in
    lon ← getitem df LON_COL;
    let df := setitem df LON_COL (to_numeric lon) in
    df ← dropna [LAT_COL; LON_COL] df;
    (* Helper columns *)
    let df := rename DATE_COL_RAW "datetime" df in
    dt ← getitem df "datetime";
    let df := setitem df "date" (dt_date dt) in
    dt ← getitem df "datetime";
    let df := setitem df "hour" (dt_hour dt) in
    dt ← getitem df "datetime";
    let df := setitem df "weekday" (dt_day_name dt) in
    (* Clean Base *)
    df ← (if has_column BASE_COL df then
            b ← getitem df BASE_COL;
            Ok (setitem df BASE_COL (str_upper (str_strip (astype_str b))))
          else Ok (setitem_scalar df BASE_COL (VStr "UNKNOWN")));
    Ok (reset_index df).

End Loader.

(** ** Comparing and grouping cells *)

(** Order and equality of two cells of one column (one dtype). *)
Definition value_ltb (a b : value) : bool :=
  match a, b with
  | VInt x, VInt y => x <? y
  | VFloat x, VFloat y => PrimFloat.ltb x y
  | VStr x, VStr y => String.ltb x y
  | VTimestamp x, VTimestamp y => x <? y
  | VDate x, VDate y => x <? y
  | _, _ => false
  end.

Definition value_eqb (a b : value) : bool :=
  match a, b with
  | VInt x, VInt y => x =? y
  | VFloat x, VFloat y => PrimFloat.eqb x y
  | VStr x, VStr y => String.eqb x y
  | VTimestamp x, VTimestamp y => x =? y
  | VDate x, VDate y => x =? y
  | _, _ => false
  end.

Fixpoint keys_eqb (k k' : list value) : bool :=
  match k, k' with
  | [], [] => true
  | a :: k, b :: k' => value_eqb a b && keys_eqb k k'
  | _, _ => false
  end.

(** Lexicographic order of key tuples *)
Fixpoint keys_ltb (k k' : list value) : bool :=
  match k, k' with
  | a :: k, b :: k' => value_ltb a b || (value_eqb a b && keys_ltb k k')
  | _, _ => false
  end.

(** One more row with key [k]: its group grows, or a new group of one row
    takes its place in key order. *)
Fixpoint count_key (k : list value) (groups : list (list value * Z)) : list (list value * Z) :=
  match groups with
  | [] => [(k, 1)]
  | (k', n) :: rest =>
      if keys_eqb k k' then (k', n + 1) :: rest
      else if keys_ltb k k' then (k, 1) :: (k', n) :: rest
      else (k', n) :: count_key k rest
  end.

Definition group_sizes (keys : list (list value)) : list (list value * Z) :=
  fold_left (fun groups k => count_key k groups) keys [].

(** [df.groupby(by, as_index=False).size()]: one row per key that occurs,
    in key order, with the number of rows in the column "size"; rows with
    a missing key are left out (dropna=True). *)
Definition groupby_size (by_ : list string) (df : DataFrame) : result DataFrame :=
  _ ← traverse (getitem df) by_;
  let keys := map (fun row => map (at_label (columns df) row) by_) (data df) in
  let keys := List.filter (forallb (fun v => negb (isna v))) keys in
  Ok (mkDF (by_ ++ ["size"])
        (map (fun '(k, n) => k ++ [VInt n]) (group_sizes keys))).

(** [Series.nunique()] *)
Definition nunique (s : list value) : nat :=
  length (group_sizes (map (fun v => [v]) (List.filter (fun v => negb (isna v)) s))).

(** Whether key [a] is placed before key [b]; missing keys go last. *)
Definition comes_before (ascending : bool) (a b : value) : bool :=
  if isna a then false
  else if isna b then true
  else if ascending then value_ltb a b else value_ltb b a.

Fixpoint insert_row (before : list value -> list value -> bool)
    (row : list value) (sorted : list (list value)) : list (list value) :=
  match sorted with
  | [] => [row]
  | r :: rest =>
      if before r row then r :: insert_row before row rest
      else row :: r :: rest
  end.

(** [df.sort_values(c, ascending=...)].  The default sort kind settles no
    order among rows with equal keys; here they keep their order. *)
Definition sort_values (c : string) (ascending : bool) (df : DataFrame) : result DataFrame :=
  _ ← getitem df c;
  let before r r' := comes_before ascending (at_label (columns df) r c) (at_label (columns df) r' c) in
  Ok (mkDF (columns df) (foldr (insert_row before) [] (data df))).

(** [df.head(n)] *)
Definition head (n : nat) (df : DataFrame) : DataFrame :=
  mkDF (columns df) (take n (data df)).

(** [df[[c1; ...]]] *)
Definition getitems (cs : list string) (df : DataFrame) : result DataFrame :=
  match List.filter (fun c => negb (has_column c df)) cs with
  | [] => Ok (mkDF cs (map (fun row => map (at_label (columns df) row) cs) (data df)))
  | missing => Raise (KeyError (PyStr.repr_list missing))
  end.

(** [Series.min()] and [Series.max()], missing values skipped; NaT when
    nothing is left *)
Definition series_extreme (better : value -> value -> bool) (s : list value) : value :=
  foldl (fun best v =>
           if isna v then best
           else if isna best then v
           else if better v best then v else best) VNaT s.

Definition series_min : list value -> value := series_extreme value_ltb.
Definition series_max : list value -> value := series_extreme (fun a b => value_ltb b a).

(** [Timestamp.date()]; [NaT.date()] is NaT *)
Definition timestamp_date (v : value) : value :=
  match v with
  | VTimestamp ns => VDate (Calendar.date_of ns)
  | _ => VNaT
  end.

(** [Series.round(decimals)] on float64: scale, round half to even, scale
    back, as numpy does. *)
Definition two52 : float := 4503599627370496%float.

Definition rint (y : float) : float :=
  if PrimFloat.ltb (PrimFloat.abs y) two52 then
    let r := (PrimFloat.abs y + two52 - two52)%float in
    if get_sign y then PrimFloat.opp r else r
  else y.

Definition round_float (decimals : Z) (x : float) : float :=
  let factor := float_of_Z (10 ^ decimals) in
  (rint (x * factor) / factor)%float.

Definition round_value (decimals : Z) (v : value) : value :=
  match v with
  | VFloat f => VFloat (round_float decimals f)
  | _ => v
  end.

Definition round_series (decimals : Z) (s : list value) : result (list value) :=
  traverse (fun v => match v with
                     | VFloat _ | VInt _ => Ok (round_value decimals v)
                     | _ => Raise (TypeError "Expected numeric dtype, got object instead.")
                     end) s.

(** ** The page: sidebar, filters, KPIs and tabs *)

(** What [st.date_input] returns for a range: a date, or a tuple of the
    dates picked so far. *)
Inductive date_input :=
| DateSingle (d : Z)
| DateTuple (ds : list Z).

(** The values of the sidebar widgets *)
Record Widgets := mkWidgets {
  chosen_dates : date_input;
  hours : list Z;
  base_sel : list string
}.

(** [s >= d] and [s <= d] for a column of [datetime.date] objects: a
    missing cell compares false, a cell of another type cannot be compared. *)
Definition compare_date (op : Z -> Z -> bool) (d : Z) (v : value) : result bool :=
  match v with
  | VDate x => Ok (op x d)
  | _ => if isna v then Ok false
         else Raise (TypeError "comparison not supported with 'datetime.date'")
  end.

(** [s.isin(values)] for a list of ints and for a list of strs *)
Definition isin_int (values : list Z) (v : value) : bool :=
  match v with
  | VInt z => bool_decide (z ∈ values)
  | VFloat f => existsb (fun z => PrimFloat.eqb f (float_of_Z z)) values
  | _ => false
  end.

Definition isin_str (values : list string) (v : value) : bool :=
  match v with
  | VStr x => bool_decide (x ∈ values)
  | _ => false
  end.

Definition isin_ints (s : list value) (values : list Z) : list bool :=
  map (isin_int values) s.

Definition isin_strs (s : list value) (values : list string) : list bool :=
  map (isin_str values) s.

Definition truthy {A} (l : list A) : bool :=
  match l with [] => false | _ => true end.

(** Apply filters *)
Definition filtered (df : DataFrame) (w : Widgets) : result DataFrame :=
  filtered ← match chosen_dates w with
             | DateTuple [start_d; end_d] =>
                 d ← getitem df "date";
                 ge ← traverse (compare_date Z.geb start_d) d;
                 d ← getitem df "date";
                 le ← traverse (compare_date Z.leb end_d) d;
                 Ok (boolean_index df (zip_with andb ge le))
             | _ => Ok df
             end;
  filtered ← (if truthy (hours w) then
                h ← getitem filtered "hour";
                Ok (boolean_index filtered (isin_ints h (hours w)))
              else Ok filtered);
  if truthy (base_sel w) then
    b ← getitem filtered BASE_COL;
    Ok (boolean_index filtered (isin_strs b (base_sel w)))
  else Ok filtered.

(** [Series.unique()]: the values in the order of their first occurrence,
    missing values counting as one value *)
Definition same_value (a b : value) : bool :=
  (isna a && isna b) || value_eqb a b.

Fixpoint unique (s : list value) : list value :=
  match s with
  | [] => []
  | v :: s' => v :: List.filter (fun u => negb (same_value v u)) (unique s')
  end.

(** The default of the date widget: the first and last day of the data *)
Definition min_date (df : DataFrame) : result value :=
  s ← getitem df "datetime"; Ok (timestamp_date (series_min s)).

Definition max_date (df : DataFrame) : result value :=
  s ← getitem df "datetime"; Ok (timestamp_date (series_max s)).

Inductive map_view :=
| NoData (info : string)
| Deck (latitude longitude : value) (layers : list (string * DataFrame)).

Record Dashboard := mkDashboard {
  kpi_rides : nat;          (* Corridas (amostra) *)
  kpi_days : nat;           (* Dias cobertos *)
  kpi_bases : nat;          (* Bases únicas *)
  kpi_window : string;      (* Janela de datas *)
  hour_chart : DataFrame;
  top_table : DataFrame;
  tab_map : map_view;
  data_table : DataFrame;
  csv : string
}.

Section Page.
Context `{Pandas}.

(** Distribution per hour *)
Definition hour_counts (filtered : DataFrame) : result DataFrame :=
  g ← groupby_size ["hour"] filtered;
  sort_values "hour" true (rename "size" "pickups" g).

(** Top 10 places: rough clustering by rounding lat/lon *)
Definition quantized (filtered : DataFrame) : result DataFrame :=
  lat ← getitem filtered LAT_COL;
  lat_q ← round_series 3 lat;
  lon ← getitem filtered LON_COL;
  lon_q ← round_series 3 lon;
  let assigned := setitem (setitem filtered "lat_q" lat_q) "lon_q" lon_q in
  g ← groupby_size ["lat_q"; "lon_q"] assigned;
  s ← sort_values "size" false g;
  Ok (head 10 s).

Definition get_map_layers (df : DataFrame) : result (list (string * DataFrame)) :=
  df ← getitems [LAT_COL; LON_COL] df;
  Ok [("HeatmapLayer", df); ("ScatterplotLayer", df)].

Definition map_tab (filtered : DataFrame) : result map_view :=
  if empty filtered then Ok (NoData "Sem dados para o filtro atual.")
  else
    lat ← getitem filtered LAT_COL;
    lon ← getitem filtered LON_COL;
    let midpoint := (np_average lat, np_average lon) in
    layers ← get_map_layers filtered;
    Ok (Deck (fst midpoint) (snd midpoint) layers).

(** One field of a CSV line: quoted when it holds the separator, the quote
    or a line break, with the quote doubled (QUOTE_MINIMAL). *)
Fixpoint double_quotes (s : string) : string :=
  match s with
  | EmptyString => EmptyString
  | String c s' =>
      if Ascii.eqb c PyStr.dquote then String c (String c (double_quotes s'))
      else String c (double_quotes s')
  end.

Definition csv_field (s : string) : string :=
  if PyStr.contains_char "," s || PyStr.contains_char PyStr.dquote s
     || PyStr.contains_char "010" s || PyStr.contains_char "013" s
  then String PyStr.dquote (double_quotes s) +:+ String PyStr.dquote EmptyString
  else s.

Definition csv_line (fields : list string) : string :=
  PyStr.join "," (map csv_field fields) +:+ String "010" EmptyString.

(** [df.to_csv(index=False)]: the header line, then one line per row *)
Definition to_csv (df : DataFrame) : string :=
  csv_line (columns df) +:+
  String.concat EmptyString
    (map (fun row => csv_line (map (fun i => csv_text (cell row i))
                                   (seq 0 (length (columns df)))))
         (data df)).

Definition window_label (min_d max_d : value) : string :=
  str_value min_d +:+ " → " +:+ str_value max_d.

(** Everything the page shows for a loaded table and the widget values *)
Definition render (df : DataFrame) (w : Widgets) : result Dashboard :=
  min_d ← min_date df;
  max_d ← max_date df;
  filtered ← filtered df w;
  days ← getitem filtered "date";
  bases ← getitem filtered BASE_COL;
  counts ← hour_counts filtered;
  top ← quantized filtered;
  map ← map_tab filtered;
  table ← getitems ["datetime"; LAT_COL; LON_COL; BASE_COL; "hour"; "weekday"] filtered;
  Ok (mkDashboard (len filtered) (nunique days) (nunique bases)
        (window_label min_d max_d) counts top map table (to_csv filtered)).

(** What the user sees: the page, or the one-line error of a failed load *)
Inductive screen :=
| LoadError (message : string)
| Page (d : Dashboard).

(** The script, for the values [w] the user leaves in the sidebar
    widgets.  A failed load is caught and shown as one line; after that
    nothing is caught, so an exception of the sidebar or of the page ends
    the run ([Raise]).  The date widget is opened on the first and the last
    day of the data, the base widget on the sorted bases. *)
Definition script (source : string) (max_rows : Z) (w : Widgets) : result screen :=
  match load_data source (Some max_rows) with
  | Raise (URLError e) =>
      Ok (LoadError ("Não foi possível baixar a URL. Detalhes: " +:+ e))
  | Raise e => Ok (LoadError ("Erro ao carregar dados: " +:+ str_exn e))
  | Ok df =>
      (* Sidebar filters depend on data *)
      min_d ← min_date df;
      max_d ← max_date df;
      _ ← date_input_default min_d max_d;
      b ← getitem df BASE_COL;
      _ ← py_sorted (unique b);
      d ← render df w;
      Ok (Page d)
  end.

End Page.

(** ** A concrete library for the runs below

    It reads three small tables, parses [YYYY-MM-DD HH:MM:SS] timestamps and
    whole numbers, prints the floats of those tables, and treats text as
    ASCII text.  [astype(str)] writes a missing value as "nan" in [library]
    and keeps it missing in [library3], the two behaviours pandas has had. *)

Module Demo.

Definition digit (c : ascii) : option Z :=
  let n := nat_of_ascii c in
  if (48 <=? n)%nat && (n <=? 57)%nat then Some (Z.of_nat n - 48) else None.

Fixpoint digits (s : string) (acc : Z) : option Z :=
  match s with
  | EmptyString => Some acc
  | String c s' => d ← digit c; digits s' (10 * acc + d)
  end.

Definition number (s : string) : option Z :=
  match s with
  | EmptyString => None
  | _ => digits s 0
  end.

Definition parse_iso (s : string) : option Z :=
  if negb (String.length s =? 19)%nat then None
  else if negb (String.eqb (String.substring 4 1 s) "-" && String.eqb (String.substring 7 1 s) "-"
                && String.eqb (String.substring 10 1 s) " "
                && String.eqb (String.substring 13 1 s) ":"
                && String.eqb (String.substring 16 1 s) ":") then None
  else
    y ← number (String.substring 0 4 s);
    m ← number (String.substring 5 2 s);
    d ← number (String.substring 8 2 s);
    hh ← number (String.substring 11 2 s);
    mm ← number (String.substring 14 2 s);
    ss ← number (String.substring 17 2 s);
    if (1 <=? m) && (m <=? 12) && (1 <=? d) && (d <=? 31)
       && (hh <? 24) && (mm <? 60) && (ss <? 60)
    then Some (Calendar.days_of_civil y m d * Calendar.ns_per_day
               + ((hh * 60 + mm) * 60 + ss) * Calendar.ns_per_second)
    else None.

#[local] Set Warnings "-inexact-float".

(** Four pickups; the third has a timestamp that does not parse. *)
Definition pickups : DataFrame :=
  mkDF ["Date/Time"; "Lat"; "Lon"; "Base"]
    [ [VStr "2014-09-01 00:02:00"; VFloat 40.7521; VFloat (-73.9914); VStr "b02512 "];
      [VStr "2014-09-01 01:15:00"; VFloat 40.7524; VFloat (-73.9911); NaN];
      [VStr "not-a-date"; VFloat 40.7; VFloat (-73.9); VStr "B02598"];
      [VStr "2014-09-02 00:30:00"; VFloat 40.6448; VFloat (-73.7819); VStr "B02598"] ].

(** One pickup whose latitude reads as infinity, and no base column. *)
Definition far_away : DataFrame :=
  mkDF ["Date/Time"; "Lat"; "Lon"]
    [ [VStr "2014-09-01 00:02:00"; VFloat infinity; VFloat (-73.9914)] ].

(** No timestamp column. *)
Definition no_timestamp : DataFrame :=
  mkDF [" Lat"; "Lon "; "Base"] [ [VFloat 40.7521; VFloat (-73.9914); VStr "B02512"] ].

Definition float_texts : list (float * string) :=
  [ (40.7521, "40.7521"); (-73.9914, "-73.9914"); (40.7524, "40.7524");
    (-73.9911, "-73.9911"); (40.7, "40.7"); (-73.9, "-73.9");
    (40.6448, "40.6448"); (-73.7819, "-73.7819"); (40.752, "40.752");
    (-73.991, "-73.991"); (40.645, "40.645"); (-73.782, "-73.782");
    (40, "40.0"); (41, "41.0"); (infinity, "inf") ]%float.

#[local] Set Warnings "inexact-float".

Definition float_text (f : float) : string :=
  match List.find (fun p => PrimFloat.eqb (fst p) f) float_texts with
  | Some p => snd p
  | None => "?"
  end.

Definition nrows_head (nrows : option Z) (df : DataFrame) : DataFrame :=
  match nrows with
  | Some n => mkDF (columns df) (take (Z.to_nat n) (data df))
  | None => df
  end.

Fixpoint insert_text (x : string) (l : list string) : list string :=
  match l with
  | [] => [x]
  | y :: l' => if String.ltb y x then y :: insert_text x l' else x :: l
  end.

(** [sorted] on text, on values that are no text (left as they are), and
    on a mix *)
Definition sorted_values (l : list value) : result (list value) :=
  if forallb is_text l then
    Ok (map VStr (foldr insert_text []
                    (omap (fun v => match v with VStr x => Some x | _ => None end) l)))
  else if forallb (fun v => negb (is_text v)) l then Ok l
  else Raise (TypeError "'<' not supported between instances of 'str' and 'float'").

Definition as_float (v : value) : float :=
  match v with
  | VFloat f => f
  | VInt z => float_of_Z z
  | _ => nan
  end.

Definition mean (s : list value) : value :=
  VFloat (fold_left (fun acc v => acc + as_float v) s 0 / float_of_Z (Z.of_nat (length s)))%float.

Definition library_of (keeps_na : bool) : Pandas := {|
  py_strip := PyStr.strip;
  py_lower := PyStr.lower;
  py_repr := PyStr.repr;
  text_strip := PyStr.strip;
  text_upper := PyStr.upper;
  astype_str_keeps_na := keeps_na;
  py_sorted := sorted_values;
  date_input_default lo hi :=
    match lo, hi with
    | VDate s, VDate e =>
        if s <=? e then Ok tt
        else Raise (OtherError "The default `value` is outside the range of `min_value` and `max_value`.")
    | _, _ => Raise (ValueError "NaTType does not support strftime")
    end;
  read_csv url nrows :=
    if String.eqb url "pickups.csv" then Ok (nrows_head nrows pickups)
    else if String.eqb url "far_away.csv" then Ok (nrows_head nrows far_away)
    else if String.eqb url "no_timestamp.csv" then Ok (nrows_head nrows no_timestamp)
    else Raise (URLError "<urlopen error unknown url type>");
  to_datetime_elem v :=
    match v with
    | VStr s => parse_iso s
    | VTimestamp ns => Some ns
    | _ => None
    end;
  parse_number s := inl <$> number s;
  repr_float := float_text;
  csv_text v :=
    match v with
    | VStr s => s
    | VInt z => pretty z
    | VTimestamp ns => Calendar.str_timestamp ns
    | VDate d => Calendar.str_date d
    | VFloat f => if is_nan f then EmptyString else float_text f
    | VNaT => EmptyString
    end;
  np_average := mean
|}.

Definition library : Pandas := library_of false.
Definition library3 : Pandas := library_of true.

(** What [load_data] makes of [pickups], and the widget values used below *)
Definition pickups_table : DataFrame :=
  Eval vm_compute in
    match @load_data library "pickups.csv" None with
    | Ok t => t
    | Raise _ => mkDF [] []
    end.

Definition far_away_table : DataFrame :=
  Eval vm_compute in
    match @load_data library "far_away.csv" None with
    | Ok t => t
    | Raise _ => mkDF [] []
    end.

(** The same pickups where [astype(str)] keeps missing values *)
Definition pickups_table3 : DataFrame :=
  Eval vm_compute in
    match @load_data library3 "pickups.csv" None with
    | Ok t => t
    | Raise _ => mkDF [] []
    end.

Definition whole_range : date_input := DateTuple [16314; 16315].
Definition no_filter : Widgets := mkWidgets whole_range [] [].
Definition five_o_clock : Widgets := mkWidgets whole_range [5] [].
Definition midnight_hour : Widgets := mkWidgets whole_range [0; 5] [].

(** The page for [pickups] with nothing filtered out *)
Definition pickups_page : option Dashboard :=
  Eval vm_compute in
    match @render library pickups_table no_filter with
    | Ok d => Some d
    | Raise _ => None
    end.

End Demo.

(** ** Predicates the statements use *)

Section Inputs.
Context `{Pandas}.

(** The table [read_csv] returns with its labels trimmed and lower-cased *)
Definition normalized (raw : DataFrame) : DataFrame :=
  mkDF (map (fun c => py_lower (py_strip c)) (columns raw)) (data raw).

(** The inputs on which the row-major model follows pandas: after
    normalisation no two columns share a label, and no column is already
    called "datetime" (the name the timestamp column is renamed to). *)
Definition well_formed (raw : DataFrame) : bool :=
  bool_decide (NoDup (columns (normalized raw)))
  && negb (has_column "datetime" (normalized raw)).

(** A valid input: well formed, with the timestamp and the two coordinate
    columns. *)
Definition valid_input (raw : DataFrame) : bool :=
  well_formed raw
  && has_column DATE_COL_RAW (normalized raw)
  && has_column LAT_COL (normalized raw)
  && has_column LON_COL (normalized raw).

End Inputs.

Definition is_number (v : value) : bool :=
  match v with
  | VInt _ => true
  | VFloat f => negb (is_nan f)
  | _ => false
  end.

Definition is_finite_number (v : value) : bool :=
  match v with
  | VInt _ => true
  | VFloat f => is_finite f
  | _ => false
  end.

(** A row of a canonical table: a timestamp with the date, hour and week
    day derived from it, numeric coordinates, a text base. *)
Definition canonical_row (cols : list string) (row : list value) : bool :=
  match at_label cols row "datetime", at_label cols row "date",
        at_label cols row "hour", at_label cols row "weekday",
        at_label cols row BASE_COL with
  | VTimestamp ns, VDate d, VInt h, VStr wd, VStr _ =>
      (d =? Calendar.date_of ns) && (h =? Calendar.hour_of ns)
      && String.eqb wd (Calendar.day_name ns)
      && is_number (at_label cols row LAT_COL)
      && is_number (at_label cols row LON_COL)
  | _, _, _, _, _ => false
  end.

Definition canonical_labels : list string :=
  ["datetime"; LAT_COL; LON_COL; BASE_COL; "date"; "hour"; "weekday"].

Definition canonical (t : DataFrame) : bool :=
  forallb (fun c => has_column c t) canonical_labels
  && forallb (canonical_row (columns t)) (data t).

(** [x] occurs inside [s] *)
Definition occurs_in (x s : string) : Prop :=
  exists pre post, s = pre +:+ x +:+ post.

(** The integers of a column of ints *)
Definition ints (s : list value) : option (list Z) :=
  mapM (fun v => match v with VInt z => Some z | _ => None end) s.

Definition sum_Z (l : list Z) : Z := foldr Z.add 0 l.

(** [w'] narrows exactly one predicate set of [w]: fewer hours, fewer
    bases, or a date range inside the former one. *)
Inductive narrows (w : Widgets) : Widgets -> Prop :=
| narrows_hours hs :
    hs ⊆ hours w -> narrows w (mkWidgets (chosen_dates w) hs (base_sel w))
| narrows_bases bs :
    bs ⊆ base_sel w -> narrows w (mkWidgets (chosen_dates w) (hours w) bs)
| narrows_dates s e s' e' :
    chosen_dates w = DateTuple [s; e] -> s <= s' -> e' <= e ->
    narrows w (mkWidgets (DateTuple [s'; e']) (hours w) (base_sel w)).

(** The same, where a narrowed hour or base set keeps at least one value
    (an empty set stands for no restriction). *)
Inductive narrows_nonempty (w : Widgets) : Widgets -> Prop :=
| narrows_nonempty_hours hs :
    hs ⊆ hours w -> hs <> [] ->
    narrows_nonempty w (mkWidgets (chosen_dates w) hs (base_sel w))
| narrows_nonempty_bases bs :
    bs ⊆ base_sel w -> bs <> [] ->
    narrows_nonempty w (mkWidgets (chosen_dates w) (hours w) bs)
| narrows_nonempty_dates s e s' e' :
    chosen_dates w = DateTuple [s; e] -> s <= s' -> e' <= e ->
    narrows_nonempty w (mkWidgets (DateTuple [s'; e']) (hours w) (base_sel w)).

(** The columns of a loaded table, from the normalised labels of the
    input: the timestamp column renamed, then the helper columns and the
    base column where the input did not have them. *)
Definition add_label (c : string) (cols : list string) : list string :=
  if bool_decide (c ∈ cols) then cols else cols ++ [c].

Definition loaded_columns (cols : list string) : list string :=
  add_label BASE_COL
    (add_label "weekday"
       (add_label "hour"
          (add_label "date"
             (map (fun c => if String.eqb c DATE_COL_RAW then "datetime" else c) cols)))).

(** [df[c] = ...] where the new cell of each row is computed from the row:
    the shape every assignment of the script has. *)
Definition put (cols : list string) (c : string) (v : value) (row : list value) : list value :=
  set_cell (default (length cols) (col_index c cols)) v row.

Definition assign (df : DataFrame) (c : string) (h : list value -> value) : DataFrame :=
  mkDF (add_label c (columns df)) (map (fun row => put (columns df) c (h row) row) (data df)).

(** The rows that pass the three filters of the sidebar *)
Definition date_ok (dates : date_input) (v : value) : bool :=
  match dates with
  | DateTuple [start_d; end_d] =>
      match v with
      | VDate d => (d >=? start_d) && (d <=? end_d)
      | _ => false
      end
  | _ => true
  end.

Definition hour_ok (hs : list Z) (v : value) : bool :=
  if truthy hs then isin_int hs v else true.

Definition base_ok (bs : list string) (v : value) : bool :=
  if truthy bs then isin_str bs v else true.

Definition passes (cols : list string) (w : Widgets) (row : list value) : bool :=
  date_ok (chosen_dates w) (at_label cols row "date")
  && hour_ok (hours w) (at_label cols row "hour")
  && base_ok (base_sel w) (at_label cols row BASE_COL).

(** Every row of [t] has its date in [s .. e] *)
Definition spans (t : DataFrame) (s e : Z) : Prop :=
  forall row, row ∈ data t ->
    exists d, at_label (columns t) row "date" = VDate d /\ s <= d <= e.

(** The hour keys of a table, missing ones left out *)
Definition hour_keys (f : DataFrame) : list (list value) :=
  List.filter (forallb (fun v => negb (isna v)))
    (map (fun row => map (at_label (columns f) row) ["hour"]) (data f)).

(** The table [quantized] groups: the filtered table with its two columns
    of rounded coordinates, and the keys of its rows *)
Definition with_rounded (f : DataFrame) : DataFrame :=
  setitem
    (setitem f "lat_q"
       (map (round_value 3) (map (fun row => at_label (columns f) row LAT_COL) (data f))))
    "lon_q"
    (map (round_value 3) (map (fun row => at_label (columns f) row LON_COL) (data f))).

Definition quantized_keys (f : DataFrame) : list (list value) :=
  List.filter (forallb (fun v => negb (isna v)))
    (map (fun row => map (at_label (columns (with_rounded f)) row) ["lat_q"; "lon_q"])
       (data (with_rounded f))).

(** How [sort_values("size", ascending=False)] orders two group rows *)
Definition larger_first (r r' : list value) : bool :=
  comes_before false (at_label ["lat_q"; "lon_q"; "size"] r "size")
    (at_label ["lat_q"; "lon_q"; "size"] r' "size").

(** The row [groupby(...).size()] writes for a group: its key, its count *)
Definition group_row (g : list value * Z) : list value := fst g ++ [VInt (snd g)].

(** The count a group row ends with *)
Definition count_of (row : list value) : Z :=
  match last row with
  | Some (VInt n) => n
  | _ => 0
  end.

(** The loader as a composition of row-wise steps over the normalised
    input [df0] (shown below to be what [load_data] returns). *)
Section Steps.
Context `{Pandas}.

(** What [.astype(str).str.strip().str.upper()] makes of one cell *)
Definition clean_base (v : value) : value :=
  if astype_str_keeps_na && isna v then NaN
  else VStr (text_upper (text_strip (str_value v))).

(** The cells of the column [c] *)
Definition column (df : DataFrame) (c : string) : list value :=
  map (fun row => at_label (columns df) row c) (data df).

(** What [to_numeric] makes of one cell of a column: [ints] tells whether
    every cell of the column reads as an integer *)
Definition ints_only (s : list value) : bool :=
  forallb (fun v => is_int (to_numeric_elem v)) s.

Definition numeric_cell (ints : bool) (v : value) : value :=
  if ints then to_numeric_elem v else to_float (to_numeric_elem v).

Definition drop_missing (subset : list string) (df : DataFrame) : DataFrame :=
  mkDF (columns df)
    (List.filter
       (fun row => forallb (fun c => negb (isna (at_label (columns df) row c))) subset)
       (data df)).

Definition assign_from (df : DataFrame) (c : string) (g : value -> value) (a : string)
  : DataFrame :=
  assign df c (fun row => g (at_label (columns df) row a)).

Definition loaded (df0 : DataFrame) : DataFrame :=
  let df := assign_from df0 DATE_COL_RAW to_datetime_value DATE_COL_RAW in
  let df := drop_missing [DATE_COL_RAW; LAT_COL; LON_COL] df in
  let df := assign_from df LAT_COL (numeric_cell (ints_only (column df LAT_COL))) LAT_COL in
  let df := assign_from df LON_COL (numeric_cell (ints_only (column df LON_COL))) LON_COL in
  let df := drop_missing [LAT_COL; LON_COL] df in
  let df := rename DATE_COL_RAW "datetime" df in
  let df := assign_from df "date" date_elem "datetime" in
  let df := assign_from df "hour" hour_elem "datetime" in
  let df := assign_from df "weekday" day_name_elem "datetime" in
  if has_column BASE_COL df then assign_from df BASE_COL clean_base BASE_COL
  else assign df BASE_COL (fun _ => VStr "UNKNOWN").

(** The raw rows that survive the first [dropna] call: these are the rows
    [to_numeric] sees *)
Definition present (cols : list string) (row : list value) : bool :=
  negb (isna (to_datetime_value (at_label cols row DATE_COL_RAW)))
  && negb (isna (at_label cols row LAT_COL))
  && negb (isna (at_label cols row LON_COL)).

(** Whether the column [c] of the normalised input [df0] comes back from
    [to_numeric] as integers *)
Definition reads_as_ints (df0 : DataFrame) (c : string) : bool :=
  ints_only (map (fun row => at_label (columns df0) row c)
               (List.filter (present (columns df0)) (data df0))).

(** The raw rows that survive both [dropna] calls *)
Definition kept (cols : list string) (row : list value) : bool :=
  negb (isna (to_datetime_value (at_label cols row DATE_COL_RAW)))
  && negb (isna (at_label cols row LAT_COL))
  && negb (isna (at_label cols row LON_COL))
  && negb (isna (to_numeric_elem (at_label cols row LAT_COL)))
  && negb (isna (to_numeric_elem (at_label cols row LON_COL))).

(** The cell a loaded row has under label [c], from the row of the
    normalised input [df0] it comes from *)
Definition loaded_cell (df0 : DataFrame) (row : list value) (c : string) : value :=
  let cols := columns df0 in
  let dt := to_datetime_value (at_label cols row DATE_COL_RAW) in
  if String.eqb c BASE_COL then
    if bool_decide (BASE_COL ∈ cols) then clean_base (at_label cols row BASE_COL)
    else VStr "UNKNOWN"
  else if String.eqb c "weekday" then day_name_elem dt
  else if String.eqb c "hour" then hour_elem dt
  else if String.eqb c "date" then date_elem dt
  else if String.eqb c "datetime" then dt
  else if String.eqb c DATE_COL_RAW then NaN
  else if String.eqb c LON_COL then
    numeric_cell (reads_as_ints df0 LON_COL) (at_label cols row LON_COL)
  else if String.eqb c LAT_COL then
    numeric_cell (reads_as_ints df0 LAT_COL) (at_label cols row LAT_COL)
  else at_label cols row c.

End Steps.

(** [df] holds, for the rows of [rows0] that pass [keep], the row [ff r]
    whose cell under each label [c] is [sem r c]. *)
Definition tracks (rows0 : list (list value)) (df : DataFrame)
    (keep : list value -> bool) (ff : list value -> list value)
    (sem : list value -> string -> value) : Prop :=
  data df = map ff (List.filter keep rows0)
  /\ forall r c, at_label (columns df) (ff r) c = sem r c.

(** No white space in front *)
Definition no_lead (s : string) : Prop :=
  match s with
  | EmptyString => True
  | String c _ => PyStr.isspace c = false
  end.

(** ** Further predicates and sample inputs *)

Section MoreInputs.
Context `{Pandas}.



(** Every base is text after loading: [astype(str)] writes missing values
    as text, or the input has no base column, or none of its rows that are
    kept misses its base *)
Definition bases_are_text (raw : DataFrame) : bool :=
  negb astype_str_keeps_na
  || negb (has_column BASE_COL (normalized raw))
  || forallb (fun r => negb (isna (at_label (columns (normalized raw)) r BASE_COL)))
       (List.filter (kept (columns (normalized raw))) (data raw)).

End MoreInputs.

(** A row with the shape [load_data] gives it, whatever its base: a
    timestamp with the date, hour and week day derived from it, and numeric
    coordinates.  A canonical row is such a row whose base is text. *)
Definition shaped_row (cols : list string) (row : list value) : bool :=
  match at_label cols row "datetime", at_label cols row "date",
        at_label cols row "hour", at_label cols row "weekday" with
  | VTimestamp ns, VDate d, VInt h, VStr wd =>
      (d =? Calendar.date_of ns) && (h =? Calendar.hour_of ns)
      && String.eqb wd (Calendar.day_name ns)
      && is_number (at_label cols row LAT_COL)
      && is_number (at_label cols row LON_COL)
  | _, _, _, _ => false
  end.

Definition shaped (t : DataFrame) : bool :=
  forallb (fun c => has_column c t) canonical_labels
  && forallb (shaped_row (columns t)) (data t).


Definition weekday_names : list string :=
  ["Monday"; "Tuesday"; "Wednesday"; "Thursday"; "Friday"; "Saturday"; "Sunday"].

(** The date condition of the sidebar on a day [d] *)
Definition in_date_range (dates : date_input) (d : Z) : Prop :=
  match dates with
  | DateTuple [start_d; end_d] => start_d <= d <= end_d
  | _ => True
  end.

(** The number of rows whose cell under [c] equals [v] *)
Definition rows_with (df : DataFrame) (c : string) (v : value) : Z :=
  Z.of_nat (length (List.filter (fun row => value_eqb (at_label (columns df) row c) v)
                      (data df))).

(** Counting the occurrences of integer keys, groups kept in key order:
    what [count_key] does on one-column integer keys *)
Fixpoint bump (k : Z) (groups : list (Z * Z)) : list (Z * Z) :=
  match groups with
  | [] => [(k, 1)]
  | (k', n) :: rest =>
      if k =? k' then (k', n + 1) :: rest
      else if k <? k' then (k, 1) :: (k', n) :: rest
      else (k', n) :: bump k rest
  end.

Definition tally (ks : list Z) : list (Z * Z) :=
  fold_left (fun groups k => bump k groups) ks [].

(** Integer groups as the groups of one-column keys, the integers held in
    cells made by [mk] *)
Definition keyed_groups (mk : Z -> value) (groups : list (Z * Z)) : list (list value * Z) :=
  map (fun g => ([mk (fst g)], snd g)) groups.

(** The total count of the groups of [groups] whose key is [h] *)
Definition count_in (h : Z) (groups : list (Z * Z)) : Z :=
  sum_Z (map snd (List.filter (fun g => fst g =? h) groups)).

Definition occurrences (h : Z) (ks : list Z) : Z :=
  Z.of_nat (length (List.filter (Z.eqb h) ks)).

(** The hour of a row, as an integer (0 where the cell is not one) *)
Definition hour_int (cols : list string) (row : list value) : Z :=
  match at_label cols row "hour" with
  | VInt h => h
  | _ => 0
  end.


(** The bucket of a row in the top-places table: its coordinates rounded
    to three decimals *)
Definition bucket (cols : list string) (row : list value) : list value :=
  [round_value 3 (at_label cols row LAT_COL); round_value 3 (at_label cols row LON_COL)].

(** The columns of the data table of the page *)
Definition table_labels : list string :=
  ["datetime"; LAT_COL; LON_COL; BASE_COL; "hour"; "weekday"].

(** The points of the map: latitude and longitude of each row *)
Definition map_points (f : DataFrame) : DataFrame :=
  mkDF [LAT_COL; LON_COL]
    (map (fun row => [at_label (columns f) row LAT_COL; at_label (columns f) row LON_COL])
       (data f)).

(** More inputs for concrete runs: a table with no longitude, the pickups
    under shouted and padded labels, a table with one more column and
    coordinates given as text, and a table of which no row is kept. *)
Module Samples.

Definition no_lon : DataFrame :=
  mkDF ["Date/Time"; "Lat"]
    [ [VStr "2014-09-01 00:02:00"; VInt 40] ].

Definition shouted : DataFrame :=
  mkDF (map (fun c => " " +:+ PyStr.upper c +:+ "  ") (columns Demo.pickups))
    (data Demo.pickups).

Definition fares : DataFrame :=
  mkDF ["Date/Time"; "Lat"; "Lon"; "Base"; "Fare"]
    [ [VStr "2014-09-03 23:59:59"; VStr "40"; VInt (-74); VStr "B02512"; VInt 12];
      [VStr "2014-09-01 07:00:00"; VStr "forty"; VInt (-74); VStr "B02512"; VInt 7];
      [VStr "2014-09-01 07:30:00"; VInt 41; VStr "-73"; VStr "b02764"; VStr "n/a"] ].

(** A valid table of which no row is kept: a timestamp that does not
    parse, a missing longitude. *)
Definition all_bad : DataFrame :=
  mkDF ["Date/Time"; "Lat"; "Lon"]
    [ [VStr "yesterday"; VInt 40; VInt (-74)];
      [VStr "2014-09-01 07:00:00"; VInt 40; NaN] ].

Definition library : Pandas := {|
  py_strip := PyStr.strip;
  py_lower := PyStr.lower;
  py_repr := PyStr.repr;
  text_strip := PyStr.strip;
  text_upper := PyStr.upper;
  astype_str_keeps_na := false;
  py_sorted := Demo.sorted_values;
  date_input_default := @date_input_default Demo.library;
  read_csv url nrows :=
    if String.eqb url "all_bad.csv" then Ok (Demo.nrows_head nrows all_bad)
    else if String.eqb url "no_lon.csv" then Ok (Demo.nrows_head nrows no_lon)
    else if String.eqb url "SHOUTED.csv" then Ok (Demo.nrows_head nrows shouted)
    else if String.eqb url "fares.csv" then Ok (Demo.nrows_head nrows fares)
    else @read_csv Demo.library url nrows;
  to_datetime_elem := @to_datetime_elem Demo.library;
  parse_number s :=
    match s with
    | String "-" s' => (fun z => inl (- z)) <$> Demo.number s'
    | _ => inl <$> Demo.number s
    end;
  repr_float := @repr_float Demo.library;
  csv_text := @csv_text Demo.library;
  np_average := @np_average Demo.library
|}.

Definition fares_table : DataFrame :=
  Eval vm_compute in
    match @load_data library "fares.csv" None with
    | Ok t => t
    | Raise _ => mkDF [] []
    end.

(** A base picked in the sidebar, and what two rounds of filtering leave
    of the loaded pickups *)
Definition one_base : Widgets := mkWidgets Demo.whole_range [] ["B02598"].

Definition midnight_rides : DataFrame :=
  Eval vm_compute in
    match filtered Demo.pickups_table Demo.midnight_hour with
    | Ok f => f
    | Raise _ => mkDF [] []
    end.

Definition midnight_one_base : DataFrame :=
  Eval vm_compute in
    match filtered midnight_rides one_base with
    | Ok f => f
    | Raise _ => mkDF [] []
    end.

End Samples.

(** * Properties *)

(** ** Python strings *)

Module PyStrFacts.
Import PyStr.

Lemma isspace_upper_char c : isspace (upper_char c) = isspace c.
Proof. destruct c as [[] [] [] [] [] [] [] []]; reflexivity. Qed.

Lemma upper_char_idem c : upper_char (upper_char c) = upper_char c.
Proof. destruct c as [[] [] [] [] [] [] [] []]; reflexivity. Qed.

Lemma upper_idem s : upper (upper s) = upper s.
Proof.
  induction s as [|c s IH]; simpl; [reflexivity|].
  unfold upper in *. simpl. now rewrite upper_char_idem, IH.
Qed.

Lemma lstrip_upper s : lstrip (upper s) = upper (lstrip s).
Proof.
  induction s as [|c s IH]; [reflexivity|].
  unfold upper in *. simpl. rewrite isspace_upper_char.
  destruct (isspace c); [exact IH | reflexivity].
Qed.

Lemma rstrip_upper s : rstrip (upper s) = upper (rstrip s).
Proof.
  induction s as [|c s IH]; [reflexivity|].
  unfold upper in *. simpl. rewrite IH, isspace_upper_char.
  destruct (rstrip s); simpl; [destruct (isspace c)|]; reflexivity.
Qed.

Lemma strip_upper s : strip (upper s) = upper (strip s).
Proof. unfold strip. now rewrite lstrip_upper, rstrip_upper. Qed.

Lemma lstrip_no_lead s : no_lead (lstrip s).
Proof.
  induction s as [|c s IH]; simpl; [exact I|].
  destruct (isspace c) eqn:E; [exact IH | exact E].
Qed.

Lemma lstrip_fixed s : no_lead s -> lstrip s = s.
Proof. destruct s as [|c s]; simpl; [reflexivity|]. now intros ->. Qed.

Lemma rstrip_no_lead s : no_lead s -> no_lead (rstrip s).
Proof.
  destruct s as [|c s]; simpl; [trivial|]. intros Hc.
  destruct (rstrip s); [rewrite Hc|]; exact Hc.
Qed.

Lemma rstrip_cons c s :
  rstrip (String c s) =
  match rstrip s with
  | EmptyString => if isspace c then EmptyString else String c EmptyString
  | r => String c r
  end.
Proof. reflexivity. Qed.

Lemma rstrip_idem s : rstrip (rstrip s) = rstrip s.
Proof.
  induction s as [|c s IH]; [reflexivity|]. rewrite rstrip_cons.
  destruct (rstrip s) as [|d r] eqn:E.
  - destruct (isspace c) eqn:Ec; [reflexivity|].
    rewrite rstrip_cons. simpl. now rewrite Ec.
  - rewrite rstrip_cons, IH. reflexivity.
Qed.

Lemma strip_idem s : strip (strip s) = strip s.
Proof.
  unfold strip.
  rewrite (lstrip_fixed (rstrip (lstrip s))).
  - apply rstrip_idem.
  - apply rstrip_no_lead, lstrip_no_lead.
Qed.

(** The text [.str.strip().str.upper()] leaves is upper-cased and trimmed. *)
Lemma upper_strip_fixed s :
  upper (upper (strip s)) = upper (strip s) /\ strip (upper (strip s)) = upper (strip s).
Proof.
  split; [apply upper_idem|]. now rewrite strip_upper, strip_idem.
Qed.

End PyStrFacts.

(** ** Lists and results *)

Section ListFacts.
Context {A B : Type}.

Lemma filter_elem_of (p : A -> bool) l x :
  x ∈ List.filter p l <-> x ∈ l /\ p x = true.
Proof. rewrite !list_elem_of_In. apply filter_In. Qed.

Lemma filter_map_comm (p : B -> bool) (f : A -> B) l :
  List.filter p (map f l) = map f (List.filter (fun x => p (f x)) l).
Proof.
  induction l as [|x l IH]; [reflexivity|]. simpl.
  destruct (p (f x)); simpl; now rewrite IH.
Qed.

Lemma filter_filter (p q : A -> bool) l :
  List.filter q (List.filter p l) = List.filter (fun x => p x && q x) l.
Proof.
  induction l as [|x l IH]; [reflexivity|]. simpl.
  destruct (p x); simpl; [destruct (q x)|]; now rewrite IH.
Qed.

Lemma filter_all (p : A -> bool) l :
  (forall x, x ∈ l -> p x = true) -> List.filter p l = l.
Proof.
  induction l as [|x l IH]; [reflexivity|]. intros Hall. simpl.
  rewrite (Hall x) by left. f_equal. apply IH. intros y Hy. apply Hall. now right.
Qed.

Lemma filter_ext_in (p q : A -> bool) l :
  (forall x, x ∈ l -> p x = q x) -> List.filter p l = List.filter q l.
Proof.
  induction l as [|x l IH]; [reflexivity|]. intros Hall. simpl.
  rewrite (Hall x) by left. rewrite IH; [reflexivity|].
  intros y Hy. apply Hall. now right.
Qed.

Lemma filter_length_mono (p q : A -> bool) l :
  (forall x, x ∈ l -> q x = true -> p x = true) ->
  (length (List.filter q l) <= length (List.filter p l))%nat.
Proof.
  induction l as [|x l IH]; [reflexivity|]. intros Himp. simpl.
  assert (IH' := IH (fun y Hy => Himp y (list_elem_of_further _ _ _ Hy))).
  destruct (q x) eqn:Eq.
  - rewrite (Himp x) by (trivial; left). simpl. lia.
  - destruct (p x); simpl; lia.
Qed.

Lemma zip_with_map_same {C} (f : B -> A -> C) (h : A -> B) l :
  zip_with f (map h l) l = map (fun x => f (h x) x) l.
Proof. induction l as [|x l IH]; [reflexivity|]. simpl. now rewrite IH. Qed.

Lemma zip_with_map_map {C D} (f : B -> C -> D) (g : A -> B) (h : A -> C) l :
  zip_with f (map g l) (map h l) = map (fun x => f (g x) (h x)) l.
Proof. induction l as [|x l IH]; [reflexivity|]. simpl. now rewrite IH. Qed.

Lemma filter_zip_mask (p : A -> bool) l :
  snd <$> List.filter fst (zip (map p l) l) = List.filter p l.
Proof.
  induction l as [|x l IH]; [reflexivity|]. simpl.
  destruct (p x); simpl; [f_equal|]; exact IH.
Qed.

Lemma traverse_map_Ok (f : A -> result B) (g : A -> B) l :
  (forall x, x ∈ l -> f x = Ok (g x)) -> traverse f l = Ok (map g l).
Proof.
  induction l as [|x l IH]; [reflexivity|]. intros Hall. simpl.
  rewrite (Hall x) by left. simpl. rewrite IH; [reflexivity|].
  intros y Hy. apply Hall. now right.
Qed.

End ListFacts.

(** ** Labels and cells *)

Section FrameFacts.

Lemma col_index_lookup c cols i : col_index c cols = Some i -> cols !! i = Some c.
Proof.
  revert i. induction cols as [|x cols IH]; intros i; simpl; [discriminate|].
  destruct (String.eqb_spec c x) as [->|Hne].
  - now intros [= <-].
  - destruct (col_index c cols); simpl; [|discriminate].
    intros [= <-]. simpl. now apply IH.
Qed.

Lemma col_index_None c cols : col_index c cols = None <-> c ∉ cols.
Proof.
  induction cols as [|x cols IH]; simpl.
  - split; [intros _; apply not_elem_of_nil | trivial].
  - rewrite not_elem_of_cons. destruct (String.eqb_spec c x) as [->|Hne].
    + split; [discriminate | intros [Hx _]; now destruct Hx].
    + destruct (col_index c cols); simpl.
      * split; [discriminate|]. intros [_ Hc]. now apply IH in Hc.
      * split; [|trivial]. intros _. split; [exact Hne | now apply IH].
Qed.

Lemma col_index_elem_of c cols : c ∈ cols -> exists i, col_index c cols = Some i.
Proof.
  intros Hc. destruct (col_index c cols) as [i|] eqn:E; [now exists i|].
  now apply col_index_None in E.
Qed.

Lemma col_index_lt c cols i : col_index c cols = Some i -> (i < length cols)%nat.
Proof. intros Hi. apply col_index_lookup in Hi. now apply lookup_lt_Some in Hi. Qed.

Lemma col_index_inj c c' cols i :
  col_index c cols = Some i -> col_index c' cols = Some i -> c = c'.
Proof.
  intros H1 H2. apply col_index_lookup in H1, H2. congruence.
Qed.

Lemma col_index_app c cols more :
  c ∈ cols -> col_index c (cols ++ more) = col_index c cols.
Proof.
  induction cols as [|x cols IH]; simpl; [intros Hc; now apply elem_of_nil in Hc|].
  intros Hc. destruct (String.eqb_spec c x) as [->|Hne]; [reflexivity|].
  apply elem_of_cons in Hc as [->|Hc]; [now destruct Hne|]. now rewrite IH.
Qed.

Lemma col_index_app_new c cols :
  c ∉ cols -> col_index c (cols ++ [c]) = Some (length cols).
Proof.
  induction cols as [|x cols IH]; simpl.
  - now rewrite String.eqb_refl.
  - rewrite not_elem_of_cons. intros [Hne Hc].
    destruct (String.eqb_spec c x) as [->|_]; [now destruct Hne|].
    now rewrite IH.
Qed.

Lemma col_index_app_other c x cols :
  c ∉ cols -> c <> x -> col_index c (cols ++ [x]) = None.
Proof.
  intros Hc Hne. apply col_index_None. rewrite elem_of_app, list_elem_of_singleton.
  now intros [?|?].
Qed.

Lemma cell_set_cell_eq i v row : cell (set_cell i v row) i = v.
Proof.
  unfold cell, set_cell. rewrite list_lookup_insert_eq; [reflexivity|].
  rewrite length_app, length_replicate. lia.
Qed.

Lemma cell_set_cell_ne i j v row : i <> j -> cell (set_cell i v row) j = cell row j.
Proof.
  intros Hne. unfold cell, set_cell. rewrite list_lookup_insert_ne by exact Hne.
  destruct (decide (j < length row)%nat) as [Hlt|Hge].
  - now rewrite lookup_app_l.
  - rewrite lookup_app_r by lia. rewrite (lookup_ge_None_2 row) by lia. simpl.
    destruct (replicate _ _ !! _) eqn:E; [|reflexivity].
    apply lookup_replicate in E as [-> _]. reflexivity.
Qed.

Lemma at_label_put cols c v row c' :
  at_label (add_label c cols) (put cols c v row) c'
  = if String.eqb c' c then v else at_label cols row c'.
Proof.
  unfold at_label, put, add_label.
  destruct (col_index c cols) as [i|] eqn:Ei; simpl.
  - rewrite bool_decide_eq_true_2
      by (apply list_elem_of_lookup; exists i; now apply col_index_lookup).
    destruct (String.eqb_spec c' c) as [->|Hne].
    + rewrite Ei. apply cell_set_cell_eq.
    + destruct (col_index c' cols) as [j|] eqn:Ej; [|reflexivity].
      apply cell_set_cell_ne. intros ->. apply Hne. symmetry.
      eapply col_index_inj; eassumption.
  - apply col_index_None in Ei.
    rewrite bool_decide_eq_false_2 by exact Ei.
    destruct (String.eqb_spec c' c) as [->|Hne].
    + rewrite col_index_app_new by exact Ei. apply cell_set_cell_eq.
    + destruct (col_index c' cols) as [j|] eqn:Ej.
      * rewrite col_index_app
          by (apply list_elem_of_lookup; exists j; now apply col_index_lookup).
        rewrite Ej. apply cell_set_cell_ne. apply col_index_lt in Ej. lia.
      * apply col_index_None in Ej. now rewrite col_index_app_other.
Qed.

Lemma setitem_map df c h : setitem df c (map h (data df)) = assign df c h.
Proof.
  unfold setitem, assign, add_label, put.
  destruct (col_index c (columns df)) as [i|] eqn:Ei; simpl.
  - rewrite bool_decide_eq_true_2
      by (apply list_elem_of_lookup; exists i; now apply col_index_lookup).
    now rewrite zip_with_map_same.
  - apply col_index_None in Ei. rewrite bool_decide_eq_false_2 by exact Ei.
    now rewrite zip_with_map_same.
Qed.

Lemma setitem_scalar_assign df c v : setitem_scalar df c v = assign df c (fun _ => v).
Proof.
  unfold setitem_scalar. rewrite <- setitem_map. f_equal.
  induction (data df) as [|x l IH]; [reflexivity|]. simpl. now rewrite IH.
Qed.

Lemma getitem_Ok df c :
  c ∈ columns df ->
  getitem df c = Ok (map (fun row => at_label (columns df) row c) (data df)).
Proof.
  intros Hc. unfold getitem, at_label.
  destruct (col_index_elem_of _ _ Hc) as [i ->]. reflexivity.
Qed.

Lemma getitem_Raise df c :
  c ∉ columns df -> getitem df c = Raise (KeyError (PyStr.repr c)).
Proof. intros Hc. unfold getitem. apply col_index_None in Hc. now rewrite Hc. Qed.

Lemma has_column_true c df : has_column c df = true <-> c ∈ columns df.
Proof. unfold has_column. apply bool_decide_eq_true. Qed.

Lemma has_column_false c df : has_column c df = false <-> c ∉ columns df.
Proof. unfold has_column. apply bool_decide_eq_false. Qed.

Lemma elem_of_add_label c c' cols : c' ∈ add_label c cols <-> c' = c \/ c' ∈ cols.
Proof.
  unfold add_label. case_bool_decide as Hc.
  - split; [now right | intros [->|?]; trivial].
  - rewrite elem_of_app, list_elem_of_singleton. tauto.
Qed.

Lemma dropna_Ok subset df :
  (forall c, c ∈ subset -> c ∈ columns df) ->
  dropna subset df =
  Ok (mkDF (columns df)
        (List.filter
           (fun row => forallb (fun c => negb (isna (at_label (columns df) row c))) subset)
           (data df))).
Proof.
  intros Hsub. unfold dropna.
  replace (List.filter (fun c => negb (has_column c df)) subset) with (@nil string);
    [reflexivity|].
  symmetry. induction subset as [|c subset IH]; [reflexivity|]. simpl.
  assert (Hc : has_column c df = true) by (apply has_column_true, Hsub; left).
  rewrite Hc. simpl. apply IH. intros c' Hc'. apply Hsub. now right.
Qed.

Lemma boolean_index_map df p :
  boolean_index df (map p (data df)) = mkDF (columns df) (List.filter p (data df)).
Proof. unfold boolean_index. now rewrite filter_zip_mask. Qed.

Lemma col_index_rename old new c cols :
  new ∉ cols ->
  col_index c (map (fun x => if String.eqb x old then new else x) cols)
  = if String.eqb c new then col_index old cols
    else if String.eqb c old then None else col_index c cols.
Proof.
  induction cols as [|x cols IH]; simpl.
  - intros _. now destruct (String.eqb c new), (String.eqb c old).
  - rewrite not_elem_of_cons. intros [Hx Hnew]. rewrite (IH Hnew).
    destruct (String.eqb_spec x old) as [Hxo|Hxo];
      destruct (String.eqb_spec c new) as [Hcn|Hcn];
      destruct (String.eqb_spec c old) as [Hco|Hco]; simpl;
      repeat match goal with
             | |- context [String.eqb ?a ?b] => destruct (String.eqb_spec a b)
             end; simpl; congruence.
Qed.

Lemma at_label_rename old new c cols row :
  new ∉ cols ->
  at_label (map (fun x => if String.eqb x old then new else x) cols) row c
  = if String.eqb c new then at_label cols row old
    else if String.eqb c old then NaN else at_label cols row c.
Proof.
  intros Hnew. unfold at_label. rewrite col_index_rename by exact Hnew.
  now destruct (String.eqb c new), (String.eqb c old).
Qed.

End FrameFacts.

(** ** Floats: an integer never converts to NaN *)

Section FloatFacts.

Lemma SFeqb_refl x : x <> S754_nan -> SFeqb x x = true.
Proof.
  unfold SFeqb, SFcompare. destruct x as [s|s| |s m e]; try congruence; intros _;
    rewrite ?Z.compare_refl, ?Pos.compare_cont_refl; try destruct s; reflexivity.
Qed.

Lemma is_nan_spec x : is_nan x = false <-> Prim2SF x <> S754_nan.
Proof.
  unfold is_nan. rewrite FloatAxioms.eqb_spec. split.
  - intros E Hn. rewrite Hn in E. discriminate.
  - intros Hn. now rewrite SFeqb_refl.
Qed.

Lemma shr_1_nonneg mrs : 0 <= shr_m mrs -> 0 <= shr_m (shr_1 mrs).
Proof.
  destruct mrs as [m r s]. cbn [shr_m]. intros Hm. unfold shr_1.
  destruct m as [|[p|p|]|p]; cbn [shr_m]; lia.
Qed.

Lemma iter_pos_shr_1_nonneg p mrs :
  0 <= shr_m mrs -> 0 <= shr_m (SpecFloat.iter_pos shr_1 p mrs).
Proof.
  revert mrs. induction p as [p IH|p IH|]; intros mrs Hm; cbn [SpecFloat.iter_pos].
  - apply IH, IH, shr_1_nonneg, Hm.
  - apply IH, IH, Hm.
  - apply shr_1_nonneg, Hm.
Qed.

Lemma shr_fexp_nonneg prec emax m e l :
  0 <= m -> 0 <= shr_m (fst (shr_fexp prec emax m e l)).
Proof.
  intros Hm. unfold shr_fexp, shr.
  assert (H0 : 0 <= shr_m (shr_record_of_loc m l)).
  { unfold shr_record_of_loc. destruct l as [|[]]; exact Hm. }
  destruct (_ - e) as [|p|p]; cbn [fst]; try exact H0.
  now apply iter_pos_shr_1_nonneg.
Qed.

Lemma round_nearest_even_nonneg m l : 0 <= m -> 0 <= round_nearest_even m l.
Proof.
  intros Hm. unfold round_nearest_even. destruct l as [|[]]; try lia.
  destruct (Z.even m); lia.
Qed.

Lemma binary_round_aux_not_nan prec emax sx mx ex lx :
  0 <= mx -> binary_round_aux prec emax sx mx ex lx <> S754_nan.
Proof.
  intros Hm. unfold binary_round_aux.
  pose proof (shr_fexp_nonneg prec emax mx ex lx Hm) as H1.
  destruct (shr_fexp prec emax mx ex lx) as [mrs' e']. cbn [fst] in H1.
  pose proof (shr_fexp_nonneg prec emax
                (round_nearest_even (shr_m mrs') (loc_of_shr_record mrs')) e' loc_Exact
                (round_nearest_even_nonneg _ _ H1)) as H2.
  destruct (shr_fexp prec emax _ e' loc_Exact) as [mrs'' e'']. cbn [fst] in H2.
  destruct (shr_m mrs'') as [|m|m]; [discriminate | | lia].
  destruct (e'' <=? emax - prec); discriminate.
Qed.

Lemma binary_normalize_not_nan prec emax m e szero :
  binary_normalize prec emax m e szero <> S754_nan.
Proof.
  unfold binary_normalize, binary_round.
  destruct m as [|m|m]; [discriminate| |];
    destruct (shl_align _ _ _) as [mz ez]; now apply binary_round_aux_not_nan.
Qed.

Lemma is_nan_of_uint63 n : is_nan (of_uint63 n) = false.
Proof. apply is_nan_spec. rewrite FloatAxioms.of_uint63_spec. apply binary_normalize_not_nan. Qed.

Lemma is_nan_opp x : is_nan (- x) = is_nan x.
Proof.
  destruct (is_nan x) eqn:E.
  - apply not_false_iff_true. apply not_false_iff_true in E. intros Hn. apply E.
    apply is_nan_spec. apply is_nan_spec in Hn. rewrite FloatAxioms.opp_spec in Hn.
    destruct (Prim2SF x); try discriminate. now elim Hn.
  - apply is_nan_spec. apply is_nan_spec in E. rewrite FloatAxioms.opp_spec.
    destruct (Prim2SF x); try discriminate. now elim E.
Qed.

Lemma is_nan_float_of_Z z : is_nan (float_of_Z z) = false.
Proof.
  unfold float_of_Z. destruct (z <? 0).
  - rewrite is_nan_opp. apply is_nan_of_uint63.
  - apply is_nan_of_uint63.
Qed.

End FloatFacts.

(** ** The loader *)

Section LoaderFacts.
Context `{Pandas}.

Lemma clean_base_series s : str_upper (str_strip (astype_str s)) = map clean_base s.
Proof.
  unfold str_upper, str_strip, str_map, astype_str. rewrite !map_map.
  apply map_ext. intros v. unfold clean_base.
  destruct (astype_str_keeps_na && isna v) eqn:E; [|reflexivity].
  destruct v; cbn [isna] in E; rewrite ?andb_false_r in E; try discriminate; reflexivity.
Qed.

Lemma isna_to_float v : isna (to_float v) = isna v.
Proof. destruct v; try reflexivity. apply is_nan_float_of_Z. Qed.

Lemma isna_numeric_cell ints v : isna (numeric_cell ints v) = isna (to_numeric_elem v).
Proof. unfold numeric_cell. destruct ints; [reflexivity | apply isna_to_float]. Qed.

Lemma to_numeric_cells s : to_numeric s = map (numeric_cell (ints_only s)) s.
Proof.
  unfold to_numeric, ints_only, numeric_cell.
  assert (E : forallb is_int (map to_numeric_elem s)
              = forallb (fun v => is_int (to_numeric_elem v)) s)
    by (induction s as [|v s IH]; simpl; congruence).
  rewrite E. destruct (forallb _ s); [reflexivity | now rewrite map_map].
Qed.

Lemma to_numeric_column df c :
  to_numeric (map (fun row => at_label (columns df) row c) (data df))
  = map (numeric_cell (ints_only (column df c)))
      (map (fun row => at_label (columns df) row c) (data df)).
Proof. apply to_numeric_cells. Qed.

Lemma setitem_from df c g a :
  setitem df c (map g (map (fun row => at_label (columns df) row a) (data df)))
  = assign_from df c g a.
Proof. rewrite map_map. apply setitem_map. Qed.

Lemma dropna_drop_missing subset df :
  (forall c, c ∈ subset -> c ∈ columns df) ->
  dropna subset df = Ok (drop_missing subset df).
Proof. apply dropna_Ok. Qed.

Lemma elem_of_rename old new c cols :
  c ∈ map (fun x => if String.eqb x old then new else x) cols
  <-> (c = new /\ old ∈ cols) \/ (c ∈ cols /\ c <> old).
Proof.
  change (map ?f cols) with (f <$> cols). rewrite list_elem_of_fmap. split.
  - intros (x & -> & Hx). destruct (String.eqb_spec x old) as [->|Hne]; tauto.
  - intros [[-> Ho]|[Hc Hne]].
    + exists old. now rewrite String.eqb_refl.
    + exists c. split; [|exact Hc]. now destruct (String.eqb_spec c old).
Qed.

Ltac in_columns :=
  cbn [columns assign_from assign drop_missing rename];
  repeat first
    [ assumption
    | apply elem_of_add_label; first [left; reflexivity | right]
    | apply elem_of_rename; first [left; split; [reflexivity|] | right; split; [|discriminate]]
    ].

Ltac in_subset :=
  let c := fresh "c" in let Hc := fresh "Hc" in
  intros c Hc;
  repeat (apply elem_of_cons in Hc as [->|Hc]; [in_columns|]);
  now apply elem_of_nil in Hc.

Lemma load_data_loaded url nrows raw :
  read_csv url nrows = Ok raw ->
  DATE_COL_RAW ∈ columns (normalized raw) ->
  LAT_COL ∈ columns (normalized raw) ->
  LON_COL ∈ columns (normalized raw) ->
  load_data url nrows = Ok (loaded (normalized raw)).
Proof.
  intros Hread HD HLa HLo. unfold load_data. rewrite Hread.
  cbn [mbind result_bind].
  change (mkDF (map _ (columns raw)) (data raw)) with (normalized raw).
  rewrite (proj2 (has_column_true _ _) HD). cbn [negb].
  unfold to_datetime, dt_date, dt_hour, dt_day_name.
  rewrite (getitem_Ok _ _ HD). cbn [mbind result_bind]. rewrite setitem_from.
  rewrite dropna_drop_missing by in_subset. cbn [mbind result_bind].
  rewrite getitem_Ok by in_columns. cbn [mbind result_bind].
  rewrite to_numeric_column, setitem_from.
  rewrite getitem_Ok by in_columns. cbn [mbind result_bind].
  rewrite to_numeric_column, setitem_from.
  rewrite dropna_drop_missing by in_subset. cbn [mbind result_bind].
  rewrite getitem_Ok by in_columns. cbn [mbind result_bind]. rewrite setitem_from.
  rewrite getitem_Ok by in_columns. cbn [mbind result_bind]. rewrite setitem_from.
  rewrite getitem_Ok by in_columns. cbn [mbind result_bind]. rewrite setitem_from.
  unfold loaded.
  match goal with |- context [has_column BASE_COL ?df] =>
    destruct (has_column BASE_COL df) eqn:Hb end.
  - rewrite getitem_Ok by (now apply has_column_true). cbn [mbind result_bind].
    rewrite clean_base_series, setitem_from. reflexivity.
  - cbn [mbind result_bind]. now rewrite setitem_scalar_assign.
Qed.

Lemma load_data_no_timestamp url nrows raw :
  read_csv url nrows = Ok raw ->
  DATE_COL_RAW ∉ columns (normalized raw) ->
  load_data url nrows
  = Raise (ValueError (missing_column_message (columns (normalized raw)))).
Proof.
  intros Hread HD. unfold load_data. rewrite Hread. cbn [mbind result_bind].
  change (mkDF (map _ (columns raw)) (data raw)) with (normalized raw).
  now rewrite (proj2 (has_column_false _ _) HD).
Qed.

Lemma load_data_no_coordinates url nrows raw :
  read_csv url nrows = Ok raw ->
  DATE_COL_RAW ∈ columns (normalized raw) ->
  ~ (LAT_COL ∈ columns (normalized raw) /\ LON_COL ∈ columns (normalized raw)) ->
  exists k, load_data url nrows = Raise (KeyError k).
Proof.
  intros Hread HD Hno. unfold load_data. rewrite Hread. cbn [mbind result_bind].
  change (mkDF (map _ (columns raw)) (data raw)) with (normalized raw).
  rewrite (proj2 (has_column_true _ _) HD). cbn [negb].
  unfold to_datetime. rewrite (getitem_Ok _ _ HD). cbn [mbind result_bind].
  rewrite setitem_from. unfold dropna. cbn [List.filter].
  set (df := assign_from _ _ _ _).
  assert (HLa : has_column LAT_COL df = true -> LAT_COL ∈ columns (normalized raw)).
  { intros Hc. apply has_column_true in Hc. cbn in Hc.
    apply elem_of_add_label in Hc as [Hc|Hc]; [discriminate | exact Hc]. }
  assert (HLo : has_column LON_COL df = true -> LON_COL ∈ columns (normalized raw)).
  { intros Hc. apply has_column_true in Hc. cbn in Hc.
    apply elem_of_add_label in Hc as [Hc|Hc]; [discriminate | exact Hc]. }
  destruct (has_column DATE_COL_RAW df), (has_column LAT_COL df), (has_column LON_COL df);
    cbn [negb]; try (eexists; reflexivity).
  all: exfalso; apply Hno; auto.
Qed.

Lemma load_data_unreadable url nrows e :
  read_csv url nrows = Raise e -> load_data url nrows = Raise e.
Proof. intros Hread. unfold load_data. now rewrite Hread. Qed.

Lemma tracks_init df0 :
  tracks (data df0) df0 (fun _ => true) id (fun r c => at_label (columns df0) r c).
Proof.
  split; [|reflexivity]. rewrite filter_all by reflexivity. now rewrite map_id.
Qed.

Lemma tracks_assign_from rows0 df keep ff sem c g a :
  tracks rows0 df keep ff sem ->
  tracks rows0 (assign_from df c g a) keep
    (fun r => put (columns df) c (g (sem r a)) (ff r))
    (fun r c' => if String.eqb c' c then g (sem r a) else sem r c').
Proof.
  intros [Hd Hs]. split.
  - cbn [data assign_from assign]. rewrite Hd, map_map. apply map_ext.
    intros r. now rewrite Hs.
  - intros r c'. cbn [columns assign_from assign]. rewrite at_label_put. now rewrite Hs.
Qed.

Lemma tracks_assign_const rows0 df keep ff sem c v :
  tracks rows0 df keep ff sem ->
  tracks rows0 (assign df c (fun _ => v)) keep
    (fun r => put (columns df) c v (ff r))
    (fun r c' => if String.eqb c' c then v else sem r c').
Proof.
  intros [Hd Hs]. split.
  - cbn [data assign]. now rewrite Hd, map_map.
  - intros r c'. cbn [columns assign]. rewrite at_label_put. now rewrite Hs.
Qed.

Lemma tracks_drop_missing rows0 df keep ff sem subset :
  tracks rows0 df keep ff sem ->
  tracks rows0 (drop_missing subset df)
    (fun r => keep r && forallb (fun c => negb (isna (sem r c))) subset) ff sem.
Proof.
  intros [Hd Hs]. split; [|exact Hs].
  cbn [data drop_missing]. rewrite Hd, filter_map_comm, filter_filter. f_equal.
  apply filter_ext_in. intros r _. f_equal.
  induction subset as [|c subset IH]; [reflexivity|]. simpl. now rewrite Hs, IH.
Qed.

Lemma tracks_rename rows0 df keep ff sem old new :
  new ∉ columns df ->
  tracks rows0 df keep ff sem ->
  tracks rows0 (rename old new df) keep ff
    (fun r c => if String.eqb c new then sem r old
                else if String.eqb c old then NaN else sem r c).
Proof.
  intros Hnew [Hd Hs]. split; [exact Hd|].
  intros r c. cbn [columns rename]. rewrite at_label_rename by exact Hnew.
  now rewrite !Hs.
Qed.

Lemma add_label_present c cols : c ∈ cols -> add_label c cols = cols.
Proof. intros Hc. unfold add_label. now rewrite bool_decide_eq_true_2. Qed.

Lemma loaded_columns_eq df0 :
  DATE_COL_RAW ∈ columns df0 -> LAT_COL ∈ columns df0 -> LON_COL ∈ columns df0 ->
  columns (loaded df0) = loaded_columns (columns df0).
Proof.
  intros HD HLa HLo. unfold loaded.
  match goal with |- context [has_column BASE_COL ?df] =>
    destruct (has_column BASE_COL df) end;
    cbn [columns assign_from assign drop_missing rename];
    rewrite (add_label_present DATE_COL_RAW), (add_label_present LAT_COL),
      (add_label_present LON_COL) by assumption; reflexivity.
Qed.

Lemma tracks_column rows0 df keep ff sem c :
  tracks rows0 df keep ff sem ->
  column df c = map (fun r => sem r c) (List.filter keep rows0).
Proof.
  intros [Hd Hs]. unfold column. rewrite Hd, map_map. apply map_ext. intros r. apply Hs.
Qed.

(** Row by row: the loaded table holds one row for each raw row that is
    kept, in order, and its cells are those [loaded_cell] gives. *)
Lemma loaded_rows df0 :
  "datetime" ∉ columns df0 ->
  exists ff,
    data (loaded df0) = map ff (List.filter (kept (columns df0)) (data df0))
    /\ forall r c, at_label (columns (loaded df0)) (ff r) c = loaded_cell df0 r c.
Proof.
  intros Hdt.
  pose proof (tracks_init df0) as T.
  apply (tracks_assign_from _ _ _ _ _ DATE_COL_RAW to_datetime_value DATE_COL_RAW) in T.
  apply (tracks_drop_missing _ _ _ _ _ [DATE_COL_RAW; LAT_COL; LON_COL]) in T.
  pose proof (tracks_column _ _ _ _ _ LAT_COL T) as CLa.
  match type of T with
  | tracks _ ?df _ _ _ =>
      apply (tracks_assign_from _ df _ _ _ LAT_COL
               (numeric_cell (ints_only (column df LAT_COL))) LAT_COL) in T
  end.
  pose proof (tracks_column _ _ _ _ _ LON_COL T) as CLo.
  match type of T with
  | tracks _ ?df _ _ _ =>
      apply (tracks_assign_from _ df _ _ _ LON_COL
               (numeric_cell (ints_only (column df LON_COL))) LON_COL) in T
  end.
  assert (Hpresent : forall r,
             (true && forallb (fun c => negb (isna
                         (if String.eqb c DATE_COL_RAW
                          then to_datetime_value (at_label (columns df0) r DATE_COL_RAW)
                          else at_label (columns df0) r c)))
                        [DATE_COL_RAW; LAT_COL; LON_COL])
             = present (columns df0) r).
  { intros r. unfold present. cbn. now rewrite ?andb_true_r, ?andb_assoc. }
  assert (HLa : ints_only (column
                  (drop_missing [DATE_COL_RAW; LAT_COL; LON_COL]
                     (assign_from df0 DATE_COL_RAW to_datetime_value DATE_COL_RAW)) LAT_COL)
                = reads_as_ints df0 LAT_COL).
  { rewrite CLa. unfold reads_as_ints. f_equal.
    rewrite (filter_ext_in _ (present (columns df0)))
      by (intros r _; apply Hpresent).
    apply map_ext. intros r. reflexivity. }
  assert (HLo : ints_only (column
                  (assign_from
                     (drop_missing [DATE_COL_RAW; LAT_COL; LON_COL]
                        (assign_from df0 DATE_COL_RAW to_datetime_value DATE_COL_RAW))
                     LAT_COL
                     (numeric_cell (ints_only (column
                        (drop_missing [DATE_COL_RAW; LAT_COL; LON_COL]
                           (assign_from df0 DATE_COL_RAW to_datetime_value DATE_COL_RAW))
                        LAT_COL)))
                     LAT_COL) LON_COL)
                = reads_as_ints df0 LON_COL).
  { rewrite CLo. unfold reads_as_ints. f_equal.
    rewrite (filter_ext_in _ (present (columns df0)))
      by (intros r _; apply Hpresent).
    apply map_ext. intros r. reflexivity. }
  clear CLa CLo.
  apply (tracks_drop_missing _ _ _ _ _ [LAT_COL; LON_COL]) in T.
  apply (tracks_rename _ _ _ _ _ DATE_COL_RAW "datetime") in T.
  2:{ cbn [columns assign_from assign drop_missing].
      rewrite !elem_of_add_label. intros [?|[?|[?|?]]]; try discriminate. now apply Hdt. }
  apply (tracks_assign_from _ _ _ _ _ "date" date_elem "datetime") in T.
  apply (tracks_assign_from _ _ _ _ _ "hour" hour_elem "datetime") in T.
  apply (tracks_assign_from _ _ _ _ _ "weekday" day_name_elem "datetime") in T.
  unfold loaded.
  match goal with |- context [has_column BASE_COL ?df] =>
    assert (Hb : has_column BASE_COL df = bool_decide (BASE_COL ∈ columns df0)) end.
  { unfold has_column. apply bool_decide_ext.
    cbn [columns assign_from assign drop_missing rename].
    rewrite !elem_of_add_label, elem_of_rename, !elem_of_add_label.
    split.
    - intros [?|[?|[?|[[? _]|[[?|[?|[?|?]]] _]]]]]; try discriminate; assumption.
    - intros Hc. do 3 right. right. split; [|discriminate]. now do 3 right. }
  rewrite Hb. unfold loaded_cell. rewrite <- HLa, <- HLo.
  set (bLa := ints_only (column _ LAT_COL)) in *.
  set (bLo := ints_only (column _ LON_COL)) in *.
  clearbody bLa bLo.
  case_bool_decide as Hbase.
  - apply (tracks_assign_from _ _ _ _ _ BASE_COL clean_base BASE_COL) in T.
    destruct T as [Hd Hs].
    refine (ex_intro _ _ (conj _ (fun r c => eq_trans (Hs r c) _))).
    + rewrite Hd. f_equal. apply filter_ext_in. intros r _. unfold kept. cbn.
      now rewrite !isna_numeric_cell, ?andb_true_r, ?andb_assoc.
    + cbn.
      repeat match goal with
             | |- context [String.eqb c ?x] => destruct (String.eqb c x) eqn:?
             end; reflexivity.
  - apply (tracks_assign_const _ _ _ _ _ BASE_COL (VStr "UNKNOWN")) in T.
    destruct T as [Hd Hs].
    refine (ex_intro _ _ (conj _ (fun r c => eq_trans (Hs r c) _))).
    + rewrite Hd. f_equal. apply filter_ext_in. intros r _. unfold kept. cbn.
      now rewrite !isna_numeric_cell, ?andb_true_r, ?andb_assoc.
    + cbn.
      repeat match goal with
             | |- context [String.eqb c ?x] => destruct (String.eqb c x) eqn:?
             end; reflexivity.
Qed.

End LoaderFacts.

(** ** The error message *)

Section MessageFacts.
Context `{Pandas}.

Lemma append_cons x (a b : string) : String x a +:+ b = String x (a +:+ b).
Proof. reflexivity. Qed.

Lemma append_nil_r (a : string) : a +:+ EmptyString = a.
Proof. induction a as [|x a IH]; [reflexivity|]. now rewrite append_cons, IH. Qed.

Lemma append_assoc (a b c : string) : (a +:+ b) +:+ c = a +:+ (b +:+ c).
Proof.
  induction a as [|x a IH]; [reflexivity|]. now rewrite !append_cons, IH.
Qed.

Lemma occurs_in_refl x : occurs_in x x.
Proof.
  exists EmptyString, EmptyString. rewrite append_nil_r. reflexivity.
Qed.

Lemma occurs_in_context x s a b : occurs_in x s -> occurs_in x (a +:+ s +:+ b).
Proof.
  intros (pre & post & ->). exists (a +:+ pre), (post +:+ b).
  now rewrite !append_assoc.
Qed.

Lemma occurs_in_prefix x s b : occurs_in x s -> occurs_in x (s +:+ b).
Proof. intros Hx. apply (occurs_in_context x s EmptyString b Hx). Qed.

Lemma occurs_in_suffix x s a : occurs_in x s -> occurs_in x (a +:+ s).
Proof.
  intros (pre & post & ->). exists (a +:+ pre), post. now rewrite !append_assoc.
Qed.

Lemma occurs_in_join x sep l : x ∈ l -> occurs_in x (PyStr.join sep l).
Proof.
  induction l as [|y l IH]; [intros Hx; now apply elem_of_nil in Hx|].
  intros Hx. apply elem_of_cons in Hx as [->|Hx].
  - destruct l; cbn [PyStr.join]; [apply occurs_in_refl | apply occurs_in_prefix, occurs_in_refl].
  - specialize (IH Hx). destruct l as [|z l]; [now apply elem_of_nil in Hx|].
    change (occurs_in x (y +:+ sep +:+ PyStr.join sep (z :: l))).
    now do 2 apply occurs_in_suffix.
Qed.

(** The message names every column of the table, as [repr] prints it. *)
Lemma message_lists_columns cols c :
  c ∈ cols -> occurs_in (py_repr c) (missing_column_message cols).
Proof.
  intros Hc. unfold missing_column_message, repr_labels.
  do 4 apply occurs_in_suffix. apply occurs_in_prefix, occurs_in_join.
  change (map py_repr cols) with (py_repr <$> cols).
  now apply list_elem_of_fmap_2.
Qed.

End MessageFacts.

(** ** Claims about the loader *)

Section LoaderClaims.
Context `{Pandas}.

(** A table is returned exactly when the three required columns are
    there, and it is then the composition of the row-wise steps. *)
Lemma load_data_Ok_inv url nrows raw t :
  read_csv url nrows = Ok raw ->
  load_data url nrows = Ok t ->
  t = loaded (normalized raw)
  /\ DATE_COL_RAW ∈ columns (normalized raw)
  /\ LAT_COL ∈ columns (normalized raw)
  /\ LON_COL ∈ columns (normalized raw).
Proof.
  intros Hread Hload.
  destruct (decide (DATE_COL_RAW ∈ columns (normalized raw))) as [HD|HD].
  2:{ rewrite (load_data_no_timestamp _ _ _ Hread HD) in Hload. discriminate. }
  destruct (decide (LAT_COL ∈ columns (normalized raw)
                    /\ LON_COL ∈ columns (normalized raw))) as [[HLa HLo]|Hno].
  2:{ destruct (load_data_no_coordinates _ _ _ Hread HD Hno) as [k Hk].
      rewrite Hk in Hload. discriminate. }
  rewrite (load_data_loaded _ _ _ Hread HD HLa HLo) in Hload.
  injection Hload as <-. auto.
Qed.

(** Every row of a loaded table comes from a raw row that was kept. *)
Lemma load_data_row url nrows raw t row :
  read_csv url nrows = Ok raw ->
  well_formed raw = true ->
  load_data url nrows = Ok t ->
  row ∈ data t ->
  exists r0, r0 ∈ data raw /\ kept (columns (normalized raw)) r0 = true
    /\ forall c, at_label (columns t) row c = loaded_cell (normalized raw) r0 c.
Proof.
  intros Hread Hwf Hload Hrow.
  destruct (load_data_Ok_inv _ _ _ _ Hread Hload) as (-> & _).
  apply andb_true_iff in Hwf as [_ Hdt]. apply negb_true_iff, has_column_false in Hdt.
  destruct (loaded_rows _ Hdt) as (ff & Hd & Hs).
  rewrite Hd in Hrow. change (map ff ?l) with (ff <$> l) in Hrow.
  apply list_elem_of_fmap in Hrow as (r0 & -> & Hr0).
  apply filter_elem_of in Hr0 as [Hr0 Hk].
  exists r0. auto.
Qed.

Lemma to_numeric_elem_number v :
  isna (to_numeric_elem v) = false -> is_number (to_numeric_elem v) = true.
Proof.
  unfold to_numeric_elem.
  destruct v as [s|z|f| | |]; simpl; try discriminate; try reflexivity.
  - destruct (parse_number s) as [[z|f]|]; simpl; try reflexivity.
    + now intros ->.
    + discriminate.
  - now intros ->.
Qed.

Lemma is_number_to_float v : is_number (to_float v) = is_number v.
Proof.
  destruct v; try reflexivity. cbn [to_float is_number]. now rewrite is_nan_float_of_Z.
Qed.

Lemma numeric_cell_number ints v :
  isna (to_numeric_elem v) = false -> is_number (numeric_cell ints v) = true.
Proof.
  intros Hv. unfold numeric_cell. destruct ints; rewrite ?is_number_to_float;
    now apply to_numeric_elem_number.
Qed.

Lemma hour_of_range ns : 0 <= Calendar.hour_of ns <= 23.
Proof.
  unfold Calendar.hour_of.
  pose proof (Z.mod_pos_bound (ns / Calendar.ns_per_hour) 24). lia.
Qed.

Lemma kept_inv cols r :
  kept cols r = true ->
  (exists ns, to_datetime_value (at_label cols r DATE_COL_RAW) = VTimestamp ns)
  /\ isna (to_numeric_elem (at_label cols r LAT_COL)) = false
  /\ isna (to_numeric_elem (at_label cols r LON_COL)) = false.
Proof.
  unfold kept. rewrite !andb_true_iff, !negb_true_iff.
  intros ((((Hd & _) & _) & HLa) & HLo). repeat split; try assumption.
  unfold to_datetime_value in *.
  destruct (to_datetime_elem _) as [ns|]; [now exists ns | discriminate].
Qed.

Lemma loaded_cell_datetime df0 r :
  loaded_cell df0 r "datetime" = to_datetime_value (at_label (columns df0) r DATE_COL_RAW).
Proof. reflexivity. Qed.

Lemma loaded_cell_date df0 r :
  loaded_cell df0 r "date"
  = date_elem (to_datetime_value (at_label (columns df0) r DATE_COL_RAW)).
Proof. reflexivity. Qed.

Lemma loaded_cell_hour df0 r :
  loaded_cell df0 r "hour"
  = hour_elem (to_datetime_value (at_label (columns df0) r DATE_COL_RAW)).
Proof. reflexivity. Qed.

Lemma loaded_cell_weekday df0 r :
  loaded_cell df0 r "weekday"
  = day_name_elem (to_datetime_value (at_label (columns df0) r DATE_COL_RAW)).
Proof. reflexivity. Qed.

Lemma loaded_cell_lat df0 r :
  loaded_cell df0 r LAT_COL
  = numeric_cell (reads_as_ints df0 LAT_COL) (at_label (columns df0) r LAT_COL).
Proof. reflexivity. Qed.

Lemma loaded_cell_lon df0 r :
  loaded_cell df0 r LON_COL
  = numeric_cell (reads_as_ints df0 LON_COL) (at_label (columns df0) r LON_COL).
Proof. reflexivity. Qed.

Lemma loaded_cell_base df0 r :
  loaded_cell df0 r BASE_COL
  = if bool_decide (BASE_COL ∈ columns df0)
    then clean_base (at_label (columns df0) r BASE_COL)
    else VStr "UNKNOWN".
Proof. reflexivity. Qed.


Lemma valid_input_inv raw :
  valid_input raw = true ->
  well_formed raw = true
  /\ DATE_COL_RAW ∈ columns (normalized raw)
  /\ LAT_COL ∈ columns (normalized raw)
  /\ LON_COL ∈ columns (normalized raw).
Proof.
  unfold valid_input. rewrite !andb_true_iff, !has_column_true. tauto.
Qed.

(** A valid input is loaded, without error. *)
Lemma load_data_valid url nrows raw :
  read_csv url nrows = Ok raw ->
  valid_input raw = true ->
  load_data url nrows = Ok (loaded (normalized raw)).
Proof.
  intros Hread Hv. destruct (valid_input_inv _ Hv) as (_ & HD & HLa & HLo).
  now apply load_data_loaded.
Qed.

(** C6: [load_data] raises the schema error, the ValueError with the
    message of the script, exactly when the trimmed, lower-cased labels of
    the input do not include "date/time"; the message is then the fixed
    text followed by the list of those labels, so that every column of the
    input occurs in it as [repr] writes it; when "date/time" is among the
    labels that error is not raised, whatever else happens. *)
Theorem load_data_schema_error url nrows raw :
  read_csv url nrows = Ok raw ->
  ((exists cols, load_data url nrows = Raise (ValueError (missing_column_message cols)))
   <-> DATE_COL_RAW ∉ columns (normalized raw))
  /\ (DATE_COL_RAW ∉ columns (normalized raw) ->
      load_data url nrows
      = Raise (ValueError (missing_column_message (columns (normalized raw))))
      /\ forall c, c ∈ columns (normalized raw) ->
           occurs_in (py_repr c) (missing_column_message (columns (normalized raw)))).
Proof.
  intros Hread.
  assert (Hpresent : DATE_COL_RAW ∈ columns (normalized raw) ->
                     forall msg, load_data url nrows <> Raise (ValueError msg)).
  { intros HD msg Hmsg.
    destruct (decide (LAT_COL ∈ columns (normalized raw)
                      /\ LON_COL ∈ columns (normalized raw))) as [[HLa HLo]|Hno].
    - rewrite (load_data_loaded _ _ _ Hread HD HLa HLo) in Hmsg. discriminate.
    - destruct (load_data_no_coordinates _ _ _ Hread HD Hno) as [k Hk].
      rewrite Hk in Hmsg. discriminate. }
  split; [split|].
  - intros [cols Hmsg] HD. exact (Hpresent HD _ Hmsg).
  - intros HD. eexists. exact (load_data_no_timestamp _ _ _ Hread HD).
  - intros HD. split; [exact (load_data_no_timestamp _ _ _ Hread HD)|].
    intros c Hc. now apply message_lists_columns.
Qed.

End LoaderClaims.

Section LoaderLawClaims.
Context `{PythonLaws}.

(** The base of a loaded row is text that upper-casing and trimming leave
    as it is; or, where [astype(str)] keeps missing values and the raw base
    is missing, it is missing. *)
Lemma loaded_base_text df0 r :
  (exists b, loaded_cell df0 r BASE_COL = VStr b
             /\ text_upper b = b /\ text_strip b = b)
  \/ (astype_str_keeps_na = true /\ loaded_cell df0 r BASE_COL = NaN).
Proof.
  rewrite loaded_cell_base. case_bool_decide.
  - unfold clean_base. destruct (astype_str_keeps_na && isna _) eqn:E.
    + right. apply andb_true_iff in E as [E _]. now split.
    + left. eexists. split; [reflexivity|]. split.
      * apply text_upper_idem.
      * apply text_strip_upper.
  - left. exists "UNKNOWN". split; [reflexivity|]. split.
    + now rewrite text_upper_ascii.
    + now rewrite text_strip_ascii.
Qed.

(** C1, as the code has it: a valid input is loaded, and every row of the
    table [load_data] returns has a datetime that is a timestamp (not NaT),
    an hour taken from it that lies in 0..23, a lat and a lon that are
    numbers and not NaN (an infinite float is not excluded), and a base that
    is text left unchanged by upper-casing and by trimming; only where
    [astype(str)] keeps missing values can a base be missing instead. *)
Theorem load_data_row_invariants url nrows raw :
  read_csv url nrows = Ok raw ->
  valid_input raw = true ->
  exists t,
    load_data url nrows = Ok t
    /\ forall row, row ∈ data t ->
         (exists ns, at_label (columns t) row "datetime" = VTimestamp ns
                     /\ at_label (columns t) row "hour" = VInt (Calendar.hour_of ns)
                     /\ 0 <= Calendar.hour_of ns <= 23)
         /\ is_number (at_label (columns t) row LAT_COL) = true
         /\ is_number (at_label (columns t) row LON_COL) = true
         /\ ((exists b, at_label (columns t) row BASE_COL = VStr b
                        /\ text_upper b = b /\ text_strip b = b)
             \/ (astype_str_keeps_na = true
                 /\ at_label (columns t) row BASE_COL = NaN)).
Proof.
  intros Hread Hv. pose proof (load_data_valid _ _ _ Hread Hv) as Hload.
  destruct (valid_input_inv _ Hv) as (Hwf & _).
  exists (loaded (normalized raw)). split; [exact Hload|]. intros row Hrow.
  destruct (load_data_row _ _ _ _ _ Hread Hwf Hload Hrow) as (r0 & _ & Hk & Hc).
  destruct (kept_inv _ _ Hk) as ((ns & Hns) & HLa & HLo).
  rewrite !Hc, loaded_cell_datetime, loaded_cell_hour, loaded_cell_lat, loaded_cell_lon, Hns.
  split; [|split; [now apply numeric_cell_number
                  | split; [now apply numeric_cell_number | apply loaded_base_text]]].
  exists ns. repeat split; apply hour_of_range.
Qed.

(** C9, as the code has it: a valid input is loaded with one row per kept
    raw row.  Where the input has a base column, the base of a loaded row is
    the text of the raw cell, trimmed and upper-cased; a missing raw base
    (NaN) is written "NAN" where [astype(str)] writes missing values as
    text, and stays missing where [astype(str)] keeps them; it is never
    "UNKNOWN".  The text "UNKNOWN" is filled in only where the input has no
    base column, and then in every row. *)
Theorem load_data_base url nrows raw :
  read_csv url nrows = Ok raw ->
  valid_input raw = true ->
  exists t ff,
    load_data url nrows = Ok t
    /\ data t = map ff (List.filter (kept (columns (normalized raw))) (data raw))
    /\ (BASE_COL ∈ columns (normalized raw) ->
        forall r,
          (astype_str_keeps_na && isna (at_label (columns (normalized raw)) r BASE_COL)
           = false ->
           at_label (columns t) (ff r) BASE_COL
           = VStr (text_upper (text_strip
                     (str_value (at_label (columns (normalized raw)) r BASE_COL)))))
          /\ (isna (at_label (columns (normalized raw)) r BASE_COL) = true ->
              at_label (columns (normalized raw)) r BASE_COL <> VNaT ->
              at_label (columns t) (ff r) BASE_COL
              = (if astype_str_keeps_na then NaN else VStr "NAN")))
    /\ (BASE_COL ∉ columns (normalized raw) ->
        forall r, at_label (columns t) (ff r) BASE_COL = VStr "UNKNOWN").
Proof.
  intros Hread Hv. pose proof (load_data_valid _ _ _ Hread Hv) as Hload.
  destruct (valid_input_inv _ Hv) as (Hwf & _).
  apply andb_true_iff in Hwf as [_ Hdt]. apply negb_true_iff, has_column_false in Hdt.
  destruct (loaded_rows _ Hdt) as (ff & Hd & Hs).
  exists (loaded (normalized raw)), ff. split; [exact Hload|]. split; [exact Hd|]. split.
  - intros Hb r. rewrite Hs, loaded_cell_base.
    rewrite bool_decide_eq_true_2 by exact Hb. unfold clean_base. split.
    + now intros ->.
    + intros Hna Hnat. rewrite Hna, andb_true_r.
      destruct astype_str_keeps_na; [reflexivity|].
      destruct (at_label _ r BASE_COL) as [s|z|f| | |]; cbn [isna] in Hna;
        try discriminate; [|now destruct Hnat].
      cbn [str_value]. rewrite Hna.
      now rewrite text_strip_ascii, text_upper_ascii.
  - intros Hb r. rewrite Hs, loaded_cell_base.
    now rewrite bool_decide_eq_false_2 by exact Hb.
Qed.

End LoaderLawClaims.

(** ** Canonical tables and the filters *)

Ltac in_labels :=
  unfold canonical_labels, BASE_COL, LAT_COL, LON_COL; solve [repeat constructor].

Section FilterFacts.

Lemma forallb_elem_of {A} (p : A -> bool) l :
  forallb p l = true <-> forall x, x ∈ l -> p x = true.
Proof.
  rewrite forallb_forall. split; intros Hall x Hx; apply Hall;
    now apply list_elem_of_In.
Qed.

Lemma canonical_columns t c :
  canonical t = true -> c ∈ canonical_labels -> c ∈ columns t.
Proof.
  unfold canonical. rewrite andb_true_iff, forallb_elem_of. intros [Hc _] Hin.
  now apply has_column_true, Hc.
Qed.

Lemma canonical_rows t row :
  canonical t = true -> row ∈ data t -> canonical_row (columns t) row = true.
Proof.
  unfold canonical. rewrite andb_true_iff, !forallb_elem_of. intros [_ Hr]. apply Hr.
Qed.

Lemma canonical_row_inv cols row :
  canonical_row cols row = true ->
  exists ns b,
    at_label cols row "datetime" = VTimestamp ns
    /\ at_label cols row "date" = VDate (Calendar.date_of ns)
    /\ at_label cols row "hour" = VInt (Calendar.hour_of ns)
    /\ at_label cols row "weekday" = VStr (Calendar.day_name ns)
    /\ at_label cols row BASE_COL = VStr b
    /\ is_number (at_label cols row LAT_COL) = true
    /\ is_number (at_label cols row LON_COL) = true.
Proof.
  unfold canonical_row.
  destruct (at_label cols row "datetime") as [| | |ns| |]; try discriminate.
  destruct (at_label cols row "date") as [| | | | |d]; try discriminate.
  destruct (at_label cols row "hour") as [|h| | | |]; try discriminate.
  destruct (at_label cols row "weekday") as [wd| | | | |]; try discriminate.
  destruct (at_label cols row BASE_COL) as [b| | | | |]; try discriminate.
  rewrite !andb_true_iff. intros ((((Hd & Hh) & Hw) & HLa) & HLo).
  apply Z.eqb_eq in Hd, Hh. apply String.eqb_eq in Hw. subst.
  exists ns, b. auto 10.
Qed.

(** A subset of the rows of a canonical table is a canonical table. *)
Lemma canonical_filter t p :
  canonical t = true -> canonical (mkDF (columns t) (List.filter p (data t))) = true.
Proof.
  unfold canonical. rewrite !andb_true_iff, !forallb_elem_of. intros [Hc Hr].
  split; [exact Hc|]. cbn [columns data]. intros row Hrow.
  apply filter_elem_of in Hrow as [Hrow _]. now apply Hr.
Qed.

Lemma frame_eta t : mkDF (columns t) (data t) = t.
Proof. now destruct t. Qed.

(** The same for tables of the loaded shape, which a canonical table is. *)
Lemma canonical_row_shaped cols row :
  canonical_row cols row = true -> shaped_row cols row = true.
Proof.
  unfold canonical_row, shaped_row.
  destruct (at_label cols row "datetime"); try discriminate.
  destruct (at_label cols row "date"); try discriminate.
  destruct (at_label cols row "hour"); try discriminate.
  destruct (at_label cols row "weekday"); try discriminate.
  now destruct (at_label cols row BASE_COL).
Qed.

Lemma canonical_shaped t : canonical t = true -> shaped t = true.
Proof.
  unfold canonical, shaped. rewrite !andb_true_iff, !forallb_elem_of.
  intros [Hc Hr]. split; [exact Hc|]. intros row Hrow.
  now apply canonical_row_shaped, Hr.
Qed.

Lemma shaped_columns t c :
  shaped t = true -> c ∈ canonical_labels -> c ∈ columns t.
Proof.
  unfold shaped. rewrite andb_true_iff, forallb_elem_of. intros [Hc _] Hin.
  now apply has_column_true, Hc.
Qed.

Lemma shaped_rows t row :
  shaped t = true -> row ∈ data t -> shaped_row (columns t) row = true.
Proof.
  unfold shaped. rewrite andb_true_iff, !forallb_elem_of. intros [_ Hr]. apply Hr.
Qed.

Lemma shaped_row_inv cols row :
  shaped_row cols row = true ->
  exists ns,
    at_label cols row "datetime" = VTimestamp ns
    /\ at_label cols row "date" = VDate (Calendar.date_of ns)
    /\ at_label cols row "hour" = VInt (Calendar.hour_of ns)
    /\ at_label cols row "weekday" = VStr (Calendar.day_name ns)
    /\ is_number (at_label cols row LAT_COL) = true
    /\ is_number (at_label cols row LON_COL) = true.
Proof.
  unfold shaped_row.
  destruct (at_label cols row "datetime") as [| | |ns| |]; try discriminate.
  destruct (at_label cols row "date") as [| | | | |d]; try discriminate.
  destruct (at_label cols row "hour") as [|h| | | |]; try discriminate.
  destruct (at_label cols row "weekday") as [wd| | | | |]; try discriminate.
  rewrite !andb_true_iff. intros ((((Hd & Hh) & Hw) & HLa) & HLo).
  apply Z.eqb_eq in Hd, Hh. apply String.eqb_eq in Hw. subst.
  exists ns. auto 10.
Qed.

Lemma shaped_filter t p :
  shaped t = true -> shaped (mkDF (columns t) (List.filter p (data t))) = true.
Proof.
  unfold shaped. rewrite !andb_true_iff, !forallb_elem_of. intros [Hc Hr].
  split; [exact Hc|]. cbn [columns data]. intros row Hrow.
  apply filter_elem_of in Hrow as [Hrow _]. now apply Hr.
Qed.

Lemma filter_by_dates_shaped t dates :
  shaped t = true ->
  match dates with
  | DateTuple [start_d; end_d] =>
      d ← getitem t "date";
      ge ← traverse (compare_date Z.geb start_d) d;
      d ← getitem t "date";
      le ← traverse (compare_date Z.leb end_d) d;
      Ok (boolean_index t (zip_with andb ge le))
  | _ => Ok t
  end
  = Ok (mkDF (columns t)
          (List.filter (fun row => date_ok dates (at_label (columns t) row "date")) (data t))).
Proof.
  intros Hcan.
  assert (Hid : Ok t = Ok (mkDF (columns t) (List.filter (fun _ => true) (data t)))).
  { rewrite filter_all by reflexivity. now rewrite frame_eta. }
  destruct dates as [d|[|s [|e [|x l]]]]; try exact Hid.
  assert (Hdate : "date" ∈ columns t).
  { apply shaped_columns; [exact Hcan | in_labels]. }
  rewrite (getitem_Ok _ _ Hdate). cbn [mbind result_bind].
  rewrite (traverse_map_Ok (compare_date Z.geb s)
             (fun v => match v with VDate x => x >=? s | _ => false end)).
  2:{ intros v Hv. change (map ?f ?l) with (f <$> l) in Hv.
      apply list_elem_of_fmap in Hv as (row & -> & Hrow).
      destruct (shaped_row_inv _ _ (shaped_rows _ _ Hcan Hrow))
        as (ns & _ & -> & _). reflexivity. }
  cbn [mbind result_bind].
  rewrite (traverse_map_Ok (compare_date Z.leb e)
             (fun v => match v with VDate x => x <=? e | _ => false end)).
  2:{ intros v Hv. change (map ?f ?l) with (f <$> l) in Hv.
      apply list_elem_of_fmap in Hv as (row & -> & Hrow).
      destruct (shaped_row_inv _ _ (shaped_rows _ _ Hcan Hrow))
        as (ns & _ & -> & _). reflexivity. }
  cbn [mbind result_bind]. rewrite zip_with_map_map, map_map, boolean_index_map.
  do 2 f_equal. apply filter_ext_in. intros row _. cbn [date_ok].
  now destruct (at_label (columns t) row "date").
Qed.

Lemma filter_by_dates t dates :
  canonical t = true ->
  match dates with
  | DateTuple [start_d; end_d] =>
      d ← getitem t "date";
      ge ← traverse (compare_date Z.geb start_d) d;
      d ← getitem t "date";
      le ← traverse (compare_date Z.leb end_d) d;
      Ok (boolean_index t (zip_with andb ge le))
  | _ => Ok t
  end
  = Ok (mkDF (columns t)
          (List.filter (fun row => date_ok dates (at_label (columns t) row "date")) (data t))).
Proof. intros Hcan. now apply filter_by_dates_shaped, canonical_shaped. Qed.

Lemma filter_by_hours f hs :
  "hour" ∈ columns f ->
  (if truthy hs then
     h ← getitem f "hour"; Ok (boolean_index f (isin_ints h hs))
   else Ok f)
  = Ok (mkDF (columns f)
          (List.filter (fun row => hour_ok hs (at_label (columns f) row "hour")) (data f))).
Proof.
  intros Hc. unfold hour_ok. destruct (truthy hs).
  - rewrite (getitem_Ok _ _ Hc). cbn [mbind result_bind]. unfold isin_ints.
    now rewrite map_map, boolean_index_map.
  - rewrite filter_all by reflexivity. now rewrite frame_eta.
Qed.

Lemma filter_by_bases f bs :
  BASE_COL ∈ columns f ->
  (if truthy bs then
     b ← getitem f BASE_COL; Ok (boolean_index f (isin_strs b bs))
   else Ok f)
  = Ok (mkDF (columns f)
          (List.filter (fun row => base_ok bs (at_label (columns f) row BASE_COL)) (data f))).
Proof.
  intros Hc. unfold base_ok. destruct (truthy bs).
  - rewrite (getitem_Ok _ _ Hc). cbn [mbind result_bind]. unfold isin_strs.
    now rewrite map_map, boolean_index_map.
  - rewrite filter_all by reflexivity. now rewrite frame_eta.
Qed.

(** On a table of the loaded shape, and so on a canonical table, the
    three filters never fail, and they keep the rows that pass all three. *)
Lemma filtered_passes_shaped t w :
  shaped t = true ->
  filtered t w = Ok (mkDF (columns t) (List.filter (passes (columns t) w) (data t))).
Proof.
  intros Hcan. unfold filtered.
  rewrite (filter_by_dates_shaped t (chosen_dates w) Hcan). cbn [mbind result_bind].
  rewrite filter_by_hours
    by (cbn [columns]; apply (shaped_columns t); [exact Hcan | in_labels]).
  cbn [mbind result_bind columns data].
  rewrite filter_by_bases
    by (cbn [columns]; apply (shaped_columns t); [exact Hcan | in_labels]).
  cbn [columns data]. rewrite !filter_filter. do 2 f_equal.
  apply filter_ext_in. intros row _. unfold passes. now rewrite andb_assoc.
Qed.

Lemma filtered_passes t w :
  canonical t = true ->
  filtered t w = Ok (mkDF (columns t) (List.filter (passes (columns t) w) (data t))).
Proof. intros Hcan. now apply filtered_passes_shaped, canonical_shaped. Qed.

Lemma filtered_canonical t w f :
  canonical t = true -> filtered t w = Ok f ->
  canonical f = true /\ columns f = columns t
  /\ data f = List.filter (passes (columns t) w) (data t).
Proof.
  intros Hcan Hf. rewrite (filtered_passes t w Hcan) in Hf. injection Hf as <-.
  split; [now apply canonical_filter | auto].
Qed.

Lemma isin_int_mono hs hs' v : hs' ⊆ hs -> isin_int hs' v = true -> isin_int hs v = true.
Proof.
  intros Hsub. destruct v as [|z|f| | |]; simpl; try discriminate.
  - rewrite !bool_decide_eq_true. apply Hsub.
  - rewrite !existsb_exists. intros (z & Hz & Hf). exists z. split; [|exact Hf].
    apply list_elem_of_In, Hsub, list_elem_of_In, Hz.
Qed.

Lemma isin_str_mono bs bs' v : bs' ⊆ bs -> isin_str bs' v = true -> isin_str bs v = true.
Proof.
  intros Hsub. destruct v as [x| | | | |]; simpl; try discriminate.
  rewrite !bool_decide_eq_true. apply Hsub.
Qed.

Lemma passes_narrowed cols w w' row :
  narrows_nonempty w w' -> passes cols w' row = true -> passes cols w row = true.
Proof.
  unfold passes. intros Hn. rewrite !andb_true_iff. intros [[Hd Hh] Hb].
  destruct Hn as [hs Hsub Hne | bs Hsub Hne | s e s' e' Hw Hs He]; cbn in Hd, Hh, Hb.
  - repeat split; try assumption. unfold hour_ok in *.
    destruct (truthy (hours w)); [|reflexivity].
    destruct hs; [now destruct Hne|]. now apply (isin_int_mono _ _ _ Hsub).
  - repeat split; try assumption. unfold base_ok in *.
    destruct (truthy (base_sel w)); [|reflexivity].
    destruct bs; [now destruct Hne|]. now apply (isin_str_mono _ _ _ Hsub).
  - repeat split; try assumption. rewrite Hw. cbn.
    destruct (at_label cols row "date"); try discriminate. lia.
Qed.

End FilterFacts.

(** ** Grouping and sorting *)

Section GroupFacts.

Lemma group_rows_eq groups :
  map (fun '(k, n) => k ++ [VInt n]) groups = map group_row groups.
Proof. apply map_ext. now intros [k n]. Qed.

Lemma count_key_sum k groups :
  sum_Z (map snd (count_key k groups)) = sum_Z (map snd groups) + 1.
Proof.
  induction groups as [|[k' n] rest IH]; [reflexivity|]. simpl.
  destruct (keys_eqb k k'); [simpl; lia|].
  destruct (keys_ltb k k'); simpl; [lia|]. rewrite IH. lia.
Qed.

Lemma group_sizes_sum keys :
  sum_Z (map snd (group_sizes keys)) = Z.of_nat (length keys).
Proof.
  unfold group_sizes.
  enough (Hgen : forall groups,
             sum_Z (map snd (fold_left (fun g k => count_key k g) keys groups))
             = sum_Z (map snd groups) + Z.of_nat (length keys)) by apply Hgen.
  induction keys as [|k keys IH]; intros groups; simpl fold_left.
  - simpl. lia.
  - rewrite IH, count_key_sum. simpl length. lia.
Qed.

Lemma count_key_Forall (P : list value * Z -> Prop) k groups :
  P (k, 1) ->
  (forall k' n, P (k', n) -> P (k', n + 1)) ->
  Forall P groups -> Forall P (count_key k groups).
Proof.
  intros Hnew Hinc. induction 1 as [|[k' n] rest Hx Hrest IH]; simpl.
  - now repeat constructor.
  - destruct (keys_eqb k k'); [constructor; auto|].
    destruct (keys_ltb k k'); repeat constructor; auto.
Qed.

Lemma group_sizes_Forall (Q : list value -> Prop) keys :
  Forall Q keys ->
  Forall (fun g => Q (fst g) /\ 0 < snd g) (group_sizes keys).
Proof.
  unfold group_sizes. intros Hkeys.
  enough (Hgen : forall groups,
             Forall (fun g => Q (fst g) /\ 0 < snd g) groups ->
             Forall (fun g => Q (fst g) /\ 0 < snd g)
               (fold_left (fun g k => count_key k g) keys groups))
    by (apply Hgen; constructor).
  induction Hkeys as [|k keys Hk Hkeys IH]; intros groups Hg; simpl; [exact Hg|].
  apply IH. apply count_key_Forall; [simpl; split; [exact Hk | lia] | | exact Hg].
  simpl. intros k' n [? ?]. split; [assumption | lia].
Qed.

Lemma cell_snoc k v : cell (k ++ [v]) (length k) = v.
Proof. unfold cell. rewrite lookup_app_r by lia. now rewrite Nat.sub_diag. Qed.

Lemma count_of_group_row g : count_of (group_row g) = snd g.
Proof. unfold count_of, group_row. now rewrite last_snoc. Qed.

Lemma groupby_size_Ok by_ df :
  (forall c, c ∈ by_ -> c ∈ columns df) ->
  groupby_size by_ df
  = Ok (mkDF (by_ ++ ["size"])
          (map group_row
             (group_sizes
                (List.filter (forallb (fun v => negb (isna v)))
                   (map (fun row => map (at_label (columns df) row) by_) (data df)))))).
Proof.
  intros Hby. unfold groupby_size.
  rewrite (traverse_map_Ok (getitem df)
             (fun c => map (fun row => at_label (columns df) row c) (data df)))
    by (intros c Hc; now apply getitem_Ok, Hby).
  cbn [mbind result_bind]. now rewrite group_rows_eq.
Qed.

Lemma sum_Z_perm (l l' : list Z) : l ≡ₚ l' -> sum_Z l = sum_Z l'.
Proof. induction 1; simpl in *; lia. Qed.

Lemma insert_row_perm before x l : insert_row before x l ≡ₚ x :: l.
Proof.
  induction l as [|r rest IH]; [reflexivity|]. simpl.
  destruct (before r x); [|reflexivity].
  rewrite IH. apply Permutation_swap.
Qed.

Lemma sort_rows_perm before l : foldr (insert_row before) [] l ≡ₚ l.
Proof.
  induction l as [|x l IH]; [reflexivity|]. simpl.
  rewrite insert_row_perm. now rewrite IH.
Qed.

Lemma insert_row_ext before before' x l :
  (forall r, r ∈ l -> before r x = before' r x) ->
  insert_row before x l = insert_row before' x l.
Proof.
  induction l as [|r rest IH]; [reflexivity|]. intros Hext. simpl.
  rewrite (Hext r) by left. rewrite IH; [reflexivity|].
  intros r' Hr'. apply Hext. now right.
Qed.

Lemma sort_rows_ext before before' l :
  (forall r r', r ∈ l -> r' ∈ l -> before r r' = before' r r') ->
  foldr (insert_row before) [] l = foldr (insert_row before') [] l.
Proof.
  induction l as [|x l IH]; [reflexivity|]. intros Hext. simpl.
  rewrite IH by (intros r r' Hr Hr'; apply Hext; now right).
  apply insert_row_ext. intros r Hr. apply Hext; [right | left].
  now rewrite sort_rows_perm in Hr.
Qed.

Lemma insert_row_sorted (R : list value -> list value -> Prop) before x l :
  (forall a b, before a b = true -> R a b) ->
  (forall a b, before a b = false -> R b a) ->
  Sorted R l -> Sorted R (insert_row before x l).
Proof.
  intros Ht Hf. induction 1 as [|r rest Hs IH Hhd]; simpl.
  - repeat constructor.
  - destruct (before r x) eqn:E.
    + constructor; [exact IH|].
      destruct rest as [|r' rest']; simpl.
      * constructor. now apply Ht.
      * destruct (before r' x); constructor; [now inversion Hhd | now apply Ht].
    + repeat constructor; auto.
Qed.

Lemma sort_rows_sorted (R : list value -> list value -> Prop) before l :
  (forall a b, before a b = true -> R a b) ->
  (forall a b, before a b = false -> R b a) ->
  Sorted R (foldr (insert_row before) [] l).
Proof.
  intros Ht Hf. induction l as [|x l IH]; simpl; [constructor|].
  now apply insert_row_sorted.
Qed.

Lemma Sorted_take {A} (R : A -> A -> Prop) n l : Sorted R l -> Sorted R (take n l).
Proof.
  intros Hs. revert n. induction Hs as [|x l Hs IH Hhd]; intros [|n]; simpl;
    try constructor.
  - apply IH.
  - destruct Hhd; destruct n; simpl; constructor; assumption.
Qed.

Lemma Sorted_map {A B} (R : B -> B -> Prop) (f : A -> B) l :
  Sorted (fun a b => R (f a) (f b)) l -> Sorted R (map f l).
Proof.
  induction 1 as [|x l Hs IH Hhd]; simpl; constructor; [exact IH|].
  destruct Hhd; simpl; constructor; assumption.
Qed.

Lemma sort_values_Ok c ascending df :
  c ∈ columns df ->
  sort_values c ascending df
  = Ok (mkDF (columns df)
          (foldr (insert_row
                    (fun r r' => comes_before ascending (at_label (columns df) r c)
                                   (at_label (columns df) r' c)))
             [] (data df))).
Proof.
  intros Hc. unfold sort_values. now rewrite (getitem_Ok _ _ Hc).
Qed.

Lemma setitem_columns df c s : columns (setitem df c s) = add_label c (columns df).
Proof.
  unfold setitem, add_label. destruct (col_index c (columns df)) as [i|] eqn:E; simpl.
  - rewrite bool_decide_eq_true_2; [reflexivity|].
    apply list_elem_of_lookup. exists i. now apply col_index_lookup.
  - apply col_index_None in E. now rewrite bool_decide_eq_false_2.
Qed.

End GroupFacts.

(** ** The views of the page *)

Section ViewFacts.
Context `{Pandas}.

Lemma hour_counts_Ok f :
  "hour" ∈ columns f ->
  hour_counts f
  = Ok (mkDF ["hour"; "pickups"]
          (foldr (insert_row
                    (fun r r' => comes_before true (at_label ["hour"; "pickups"] r "hour")
                                   (at_label ["hour"; "pickups"] r' "hour")))
             [] (map group_row (group_sizes (hour_keys f))))).
Proof.
  intros Hc. unfold hour_counts.
  rewrite groupby_size_Ok
    by (intros c Hin; apply list_elem_of_singleton in Hin as ->; exact Hc).
  cbn [mbind result_bind]. rewrite sort_values_Ok by (cbn; in_labels). reflexivity.
Qed.

Lemma canonical_hour_keys f :
  canonical f = true -> length (hour_keys f) = length (data f).
Proof.
  intros Hcan. unfold hour_keys. rewrite filter_all; [apply length_map|].
  intros k Hk. change (map ?g ?l) with (g <$> l) in Hk.
  apply list_elem_of_fmap in Hk as (row & -> & Hrow).
  destruct (canonical_row_inv _ _ (canonical_rows _ _ Hcan Hrow))
    as (ns & b & _ & _ & Hh & _).
  cbn. now rewrite Hh.
Qed.

Lemma hour_keys_length f : Forall (fun k => length k = 1%nat) (hour_keys f).
Proof.
  apply Forall_forall. intros k Hk. apply filter_elem_of in Hk as [Hk _].
  change (map ?g ?l) with (g <$> l) in Hk.
  now apply list_elem_of_fmap in Hk as (row & -> & _).
Qed.

Lemma series_extreme_bound (better : value -> value -> bool) (le : Z -> Z -> Prop) col :
  (forall x, le x x) ->
  (forall x y z, le x y -> le y z -> le x z) ->
  (forall x y, better (VTimestamp x) (VTimestamp y) = true -> le x y) ->
  (forall x y, better (VTimestamp x) (VTimestamp y) = false -> le y x) ->
  (forall v, v ∈ col -> exists z, v = VTimestamp z) ->
  forall z, VTimestamp z ∈ col ->
  exists m, series_extreme better col = VTimestamp m /\ le m z.
Proof.
  intros Hrefl Htrans Ht Hf. unfold series_extreme.
  set (step := fun best v => if isna v then best
                             else if isna best then v
                             else if better v best then v else best).
  assert (Hkeep : forall col b,
             (forall v, v ∈ col -> exists z, v = VTimestamp z) ->
             exists m, foldl step (VTimestamp b) col = VTimestamp m /\ le m b
                       /\ forall z, VTimestamp z ∈ col -> le m z).
  { clear col. induction col as [|v col IH]; intros b Hall; simpl.
    - exists b. repeat split; [apply Hrefl|]. intros z Hz. now apply elem_of_nil in Hz.
    - destruct (Hall v) as [x ->]; [left|].
      assert (Hall' : forall v, v ∈ col -> exists z, v = VTimestamp z)
        by (intros v Hv; apply Hall; now right).
      unfold step at 2. simpl.
      destruct (better (VTimestamp x) (VTimestamp b)) eqn:E.
      + destruct (IH x Hall') as (m & -> & Hmx & Hm). exists m.
        repeat split; [eauto|]. intros z Hz.
        apply elem_of_cons in Hz as [[= ->]|Hz]; auto.
      + destruct (IH b Hall') as (m & -> & Hmb & Hm). exists m.
        repeat split; [exact Hmb|]. intros z Hz.
        apply elem_of_cons in Hz as [[= ->]|Hz]; eauto. }
  intros Hall z Hz. destruct col as [|v col]; [now apply elem_of_nil in Hz|].
  destruct (Hall v) as [x ->]; [left|].
  change (foldl step VNaT (VTimestamp x :: col)) with (foldl step (VTimestamp x) col).
  destruct (Hkeep col x) as (m & -> & Hmx & Hm); [intros v Hv; apply Hall; now right|].
  exists m. split; [reflexivity|].
  apply elem_of_cons in Hz as [[= ->]|Hz]; auto.
Qed.

Lemma date_of_mono x y : x <= y -> Calendar.date_of x <= Calendar.date_of y.
Proof. intros Hxy. unfold Calendar.date_of. now apply Z.div_le_mono. Qed.

(** The first and the last day of a canonical table bound every date. *)
Lemma default_range_spans t s e :
  canonical t = true ->
  min_date t = Ok (VDate s) -> max_date t = Ok (VDate e) -> spans t s e.
Proof.
  intros Hcan Hmin Hmax row Hrow.
  destruct (canonical_row_inv _ _ (canonical_rows _ _ Hcan Hrow))
    as (ns & b & Hdt & Hd & _).
  exists (Calendar.date_of ns). split; [exact Hd|].
  assert (Hc : "datetime" ∈ columns t) by (apply canonical_columns; [exact Hcan | in_labels]).
  unfold min_date, max_date in *. rewrite (getitem_Ok _ _ Hc) in Hmin, Hmax.
  cbn [mbind result_bind] in Hmin, Hmax.
  set (col := map (fun row => at_label (columns t) row "datetime") (data t)) in *.
  assert (Hall : forall v, v ∈ col -> exists z, v = VTimestamp z).
  { intros v Hv. subst col. change (map ?g ?l) with (g <$> l) in Hv.
    apply list_elem_of_fmap in Hv as (r & -> & Hr).
    destruct (canonical_row_inv _ _ (canonical_rows _ _ Hcan Hr)) as (z & _ & -> & _).
    now exists z. }
  assert (Hin : VTimestamp ns ∈ col).
  { subst col. change (map ?g ?l) with (g <$> l).
    apply list_elem_of_fmap. exists row. split; [symmetry; exact Hdt | exact Hrow]. }
  split.
  - assert (Hb : exists m, series_extreme value_ltb col = VTimestamp m /\ m <= ns).
    { apply (series_extreme_bound value_ltb Z.le col); try assumption.
      - intros x. lia.
      - intros x y z. lia.
      - intros x y E. apply Z.ltb_lt in E. lia.
      - intros x y E. apply Z.ltb_ge in E. lia. }
    destruct Hb as (m & Hm & Hle).
    unfold series_min in Hmin. rewrite Hm in Hmin. injection Hmin as <-.
    now apply date_of_mono.
  - assert (Hb : exists m, series_extreme (fun a b => value_ltb b a) col = VTimestamp m
                           /\ m >= ns).
    { apply (series_extreme_bound (fun a b => value_ltb b a) Z.ge col); try assumption.
      - intros x. lia.
      - intros x y z. lia.
      - intros x y E. apply Z.ltb_lt in E. lia.
      - intros x y E. apply Z.ltb_ge in E. lia. }
    destruct Hb as (m & Hm & Hle).
    unfold series_max in Hmax. rewrite Hm in Hmax. injection Hmax as <-.
    apply date_of_mono. lia.
Qed.

End ViewFacts.

(** ** Claims about the filters and the hourly counts *)

Section FilterClaims.
Context `{Pandas}.

(** C2: for a canonical table and any widget values, the filters and the
    hourly grouping both succeed, the "pickups" column holds integers, and
    these add up to the number of rows of the filtered table. *)
Theorem hour_counts_sum t w :
  canonical t = true ->
  exists f hc ns,
    filtered t w = Ok f
    /\ hour_counts f = Ok hc
    /\ getitem hc "pickups" = Ok (map VInt ns)
    /\ sum_Z ns = Z.of_nat (len f).
Proof.
  intros Hcan.
  destruct (filtered_canonical t w _ Hcan (filtered_passes t w Hcan)) as (Hf & Hcols & _).
  set (f := mkDF (columns t) (List.filter (passes (columns t) w) (data t))) in *.
  assert (Hh : "hour" ∈ columns f) by (apply canonical_columns; [exact Hf | in_labels]).
  pose (sorted :=
          foldr (insert_row
                   (fun r r' => comes_before true (at_label ["hour"; "pickups"] r "hour")
                                  (at_label ["hour"; "pickups"] r' "hour")))
            [] (map group_row (group_sizes (hour_keys f)))).
  assert (Hperm : sorted ≡ₚ map group_row (group_sizes (hour_keys f)))
    by apply sort_rows_perm.
  exists f, (mkDF ["hour"; "pickups"] sorted), (map count_of sorted).
  split; [now apply filtered_passes|].
  split; [now apply hour_counts_Ok|].
  split.
  - rewrite getitem_Ok by (cbn; in_labels). cbn [columns data]. f_equal.
    rewrite map_map.
    apply map_ext_in. intros row Hrow.
    apply list_elem_of_In in Hrow. rewrite Hperm in Hrow.
    change (map ?g ?l) with (g <$> l) in Hrow.
    apply list_elem_of_fmap in Hrow as (g & -> & Hg).
    rewrite count_of_group_row.
    pose proof (group_sizes_Forall _ _ (hour_keys_length f)) as Hlen.
    rewrite Forall_forall in Hlen. destruct (Hlen g Hg) as [Hk _].
    pose proof (cell_snoc (fst g) (VInt (snd g))) as E. rewrite Hk in E. exact E.
  - rewrite (sum_Z_perm _ (map count_of (map group_row (group_sizes (hour_keys f)))))
      by (apply Permutation_map, Hperm).
    rewrite map_map, (map_ext _ snd) by apply count_of_group_row.
    rewrite group_sizes_sum. unfold len. now rewrite canonical_hour_keys.
Qed.

(** C3, for non-empty narrowed sets: on a canonical table, narrowing one predicate set
    (to a non-empty subset of the hours or of the bases, or to a date range
    inside the former one) leaves at most as many rows. *)
Theorem filtered_monotone t w w' :
  canonical t = true ->
  narrows_nonempty w w' ->
  exists f f',
    filtered t w = Ok f /\ filtered t w' = Ok f' /\ (len f' <= len f)%nat.
Proof.
  intros Hcan Hn. eexists _, _.
  split; [now apply filtered_passes|]. split; [now apply filtered_passes|].
  unfold len. cbn [data]. apply filter_length_mono.
  intros row _. now apply passes_narrowed.
Qed.

(** C4: on a canonical table, with no hour and no base selected, the
    filters return the table itself when the date range covers every row,
    which the default range (first day, last day) does, and also when the
    date widget does not hold a pair of dates. *)
Theorem filtered_identity t :
  canonical t = true ->
  (forall s e, spans t s e -> filtered t (mkWidgets (DateTuple [s; e]) [] []) = Ok t)
  /\ (forall s e, min_date t = Ok (VDate s) -> max_date t = Ok (VDate e) -> spans t s e)
  /\ (forall dates, (forall s e, dates <> DateTuple [s; e]) ->
        filtered t (mkWidgets dates [] []) = Ok t).
Proof.
  intros Hcan. split; [|split].
  - intros s e Hspan. rewrite (filtered_passes _ _ Hcan).
    rewrite filter_all; [now rewrite frame_eta|].
    intros row Hrow. destruct (Hspan row Hrow) as (d & Hd & Hs & He).
    unfold passes. cbn. rewrite Hd.
    apply andb_true_iff. split; [apply andb_true_iff; split|]; try reflexivity.
    apply andb_true_iff. split; lia.
  - intros s e. now apply default_range_spans.
  - intros dates Hno. rewrite (filtered_passes _ _ Hcan).
    rewrite filter_all; [now rewrite frame_eta|].
    intros row _. unfold passes. cbn.
    destruct dates as [d|[|s [|e [|x l]]]]; try reflexivity.
    now destruct (Hno s e).
Qed.

End FilterClaims.

(** ** The top-places table, the map and the page as a whole *)

Section PageFacts.
Context `{Pandas}.

Lemma bind_Ok_inv {A B} (m : result A) (k : A -> result B) b :
  m ≫= k = Ok b -> exists a, m = Ok a /\ k a = Ok b.
Proof. destruct m as [a|e]; [exists a; auto | discriminate]. Qed.

Lemma none_missing cs df :
  (forall c, c ∈ cs -> c ∈ columns df) ->
  List.filter (fun c => negb (has_column c df)) cs = [].
Proof.
  induction cs as [|c cs IH]; [reflexivity|]. intros Hsub. simpl.
  rewrite (proj2 (has_column_true c df)) by (apply Hsub; left). simpl.
  apply IH. intros c' Hc'. apply Hsub. now right.
Qed.

Lemma getitems_Ok cs df :
  (forall c, c ∈ cs -> c ∈ columns df) ->
  getitems cs df
  = Ok (mkDF cs (map (fun row => map (at_label (columns df) row) cs) (data df))).
Proof. intros Hsub. unfold getitems. now rewrite none_missing. Qed.

Lemma round_series_Ok decimals s :
  (forall v, v ∈ s -> is_number v = true) ->
  round_series decimals s = Ok (map (round_value decimals) s).
Proof.
  intros Hnum. apply traverse_map_Ok. intros v Hv. specialize (Hnum v Hv).
  now destruct v.
Qed.

Lemma quantized_Ok_shaped f :
  shaped f = true ->
  quantized f
  = Ok (mkDF ["lat_q"; "lon_q"; "size"]
          (take 10 (foldr (insert_row larger_first) []
                      (map group_row (group_sizes (quantized_keys f)))))).
Proof.
  intros Hcan. unfold quantized.
  assert (HLa : LAT_COL ∈ columns f) by (apply shaped_columns; [exact Hcan | in_labels]).
  assert (HLo : LON_COL ∈ columns f) by (apply shaped_columns; [exact Hcan | in_labels]).
  rewrite (getitem_Ok _ _ HLa). cbn [mbind result_bind].
  rewrite round_series_Ok.
  2:{ intros v Hv. change (map ?g ?l) with (g <$> l) in Hv.
      apply list_elem_of_fmap in Hv as (row & -> & Hrow).
      now destruct (shaped_row_inv _ _ (shaped_rows _ _ Hcan Hrow))
        as (ns & _ & _ & _ & _ & ? & _). }
  cbn [mbind result_bind]. rewrite (getitem_Ok _ _ HLo). cbn [mbind result_bind].
  rewrite round_series_Ok.
  2:{ intros v Hv. change (map ?g ?l) with (g <$> l) in Hv.
      apply list_elem_of_fmap in Hv as (row & -> & Hrow).
      now destruct (shaped_row_inv _ _ (shaped_rows _ _ Hcan Hrow))
        as (ns & _ & _ & _ & _ & _ & ?). }
  cbn [mbind result_bind]. fold (with_rounded f).
  rewrite groupby_size_Ok.
  2:{ intros c Hc. unfold with_rounded. rewrite !setitem_columns, !elem_of_add_label.
      apply elem_of_cons in Hc as [->|Hc]; [right; now left|].
      apply list_elem_of_singleton in Hc as ->. now left. }
  cbn [mbind result_bind]. rewrite sort_values_Ok by (cbn; in_labels).
  cbn [mbind result_bind]. reflexivity.
Qed.

Lemma quantized_Ok f :
  canonical f = true ->
  quantized f
  = Ok (mkDF ["lat_q"; "lon_q"; "size"]
          (take 10 (foldr (insert_row larger_first) []
                      (map group_row (group_sizes (quantized_keys f)))))).
Proof. intros Hcan. now apply quantized_Ok_shaped, canonical_shaped. Qed.

Lemma quantized_keys_length f : Forall (fun k => length k = 2%nat) (quantized_keys f).
Proof.
  apply Forall_forall. intros k Hk. apply filter_elem_of in Hk as [Hk _].
  change (map ?g ?l) with (g <$> l) in Hk.
  now apply list_elem_of_fmap in Hk as (row & -> & _).
Qed.

(** A group row of the top-places table ends with its count, which is at
    least one. *)
Lemma top_group_row f row :
  row ∈ map group_row (group_sizes (quantized_keys f)) ->
  at_label ["lat_q"; "lon_q"; "size"] row "size" = VInt (count_of row)
  /\ 0 < count_of row.
Proof.
  intros Hrow. change (map ?g ?l) with (g <$> l) in Hrow.
  apply list_elem_of_fmap in Hrow as (g & -> & Hg).
  pose proof (group_sizes_Forall _ _ (quantized_keys_length f)) as Hall.
  rewrite Forall_forall in Hall. destruct (Hall g Hg) as [Hk Hpos].
  rewrite count_of_group_row. split; [|exact Hpos].
  pose proof (cell_snoc (fst g) (VInt (snd g))) as E. rewrite Hk in E. exact E.
Qed.

Lemma larger_first_counts f r r' :
  r ∈ map group_row (group_sizes (quantized_keys f)) ->
  r' ∈ map group_row (group_sizes (quantized_keys f)) ->
  larger_first r r' = (count_of r' <? count_of r).
Proof.
  intros Hr Hr'. unfold larger_first.
  destruct (top_group_row f r Hr) as [-> _].
  destruct (top_group_row f r' Hr') as [-> _]. reflexivity.
Qed.

Lemma top_rows_sorted f :
  Sorted (fun a b => count_of a >= count_of b)
    (foldr (insert_row larger_first) [] (map group_row (group_sizes (quantized_keys f)))).
Proof.
  rewrite (sort_rows_ext larger_first (fun r r' => count_of r' <? count_of r))
    by (intros r r'; apply larger_first_counts).
  apply sort_rows_sorted.
  - intros a b E. apply Z.ltb_lt in E. lia.
  - intros a b E. apply Z.ltb_ge in E. lia.
Qed.

Lemma setitem_data_nil df c s : data df = [] -> data (setitem df c s) = [].
Proof.
  intros Hd. unfold setitem.
  destruct (col_index c (columns df)); cbn [data]; rewrite Hd; now destruct s.
Qed.

Lemma quantized_keys_nil f : data f = [] -> quantized_keys f = [].
Proof.
  intros Hd. unfold quantized_keys, with_rounded.
  now rewrite (setitem_data_nil _ _ _ (setitem_data_nil _ _ _ Hd)).
Qed.

Lemma hour_keys_nil f : data f = [] -> hour_keys f = [].
Proof. intros Hd. unfold hour_keys. now rewrite Hd. Qed.

Lemma map_tab_Ok f :
  LAT_COL ∈ columns f -> LON_COL ∈ columns f ->
  exists m, map_tab f = Ok m
            /\ (data f = [] -> m = NoData "Sem dados para o filtro atual.").
Proof.
  intros HLa HLo. unfold map_tab, get_map_layers.
  destruct (empty f) eqn:E.
  - eexists. split; [reflexivity | trivial].
  - rewrite (getitem_Ok _ _ HLa), (getitem_Ok _ _ HLo). cbn [mbind result_bind].
    rewrite getitems_Ok.
    2:{ intros c Hc. apply elem_of_cons in Hc as [->|Hc]; [exact HLa|].
        now apply list_elem_of_singleton in Hc as ->. }
    cbn [mbind result_bind]. eexists. split; [reflexivity|].
    intros Hd. unfold empty in E. rewrite Hd in E. discriminate.
Qed.

Lemma to_csv_nil f : data f = [] -> to_csv f = csv_line (columns f).
Proof. intros Hd. unfold to_csv. rewrite Hd. simpl. apply append_nil_r. Qed.

(** On a canonical table nothing of the page fails. *)
Lemma render_Ok t w :
  canonical t = true ->
  exists d f lo hi,
    render t w = Ok d
    /\ filtered t w = Ok f /\ canonical f = true /\ columns f = columns t
    /\ min_date t = Ok lo /\ max_date t = Ok hi
    /\ kpi_rides d = len f
    /\ kpi_window d = window_label lo hi
    /\ hour_counts f = Ok (hour_chart d)
    /\ quantized f = Ok (top_table d)
    /\ map_tab f = Ok (tab_map d)
    /\ csv d = to_csv f.
Proof.
  intros Hcan.
  destruct (filtered_canonical t w _ Hcan (filtered_passes t w Hcan)) as (Hf & Hcols & _).
  set (f := mkDF (columns t) (List.filter (passes (columns t) w) (data t))) in *.
  assert (Hin : forall c, c ∈ canonical_labels -> c ∈ columns t)
    by (intros c; now apply canonical_columns).
  assert (Hinf : forall c, c ∈ canonical_labels -> c ∈ columns f)
    by (intros c; now apply canonical_columns).
  destruct (map_tab_Ok f) as (m & Hm & _); [apply Hinf; in_labels | apply Hinf; in_labels |].
  unfold render, min_date, max_date.
  rewrite (getitem_Ok t "datetime") by (apply Hin; in_labels).
  cbn [mbind result_bind]. rewrite (filtered_passes t w Hcan). fold f.
  cbn [mbind result_bind].
  rewrite (getitem_Ok f "date") by (apply Hinf; in_labels). cbn [mbind result_bind].
  rewrite (getitem_Ok f BASE_COL) by (apply Hinf; in_labels). cbn [mbind result_bind].
  rewrite (hour_counts_Ok f) by (apply Hinf; in_labels). cbn [mbind result_bind].
  rewrite (quantized_Ok f Hf). cbn [mbind result_bind].
  rewrite Hm. cbn [mbind result_bind].
  rewrite getitems_Ok.
  2:{ intros c Hc. apply Hinf. revert Hc. unfold canonical_labels.
      rewrite !elem_of_cons. tauto. }
  cbn [mbind result_bind].
  eexists _, f, _, _. split; [reflexivity|]. cbn.
  repeat split; try assumption; try reflexivity.
  - now apply hour_counts_Ok, Hinf; in_labels.
  - now apply quantized_Ok.
Qed.

(** On a table of the loaded shape nothing of the page fails. *)
Lemma render_Ok_shaped t w :
  shaped t = true ->
  exists d f,
    render t w = Ok d
    /\ filtered t w = Ok f /\ shaped f = true /\ columns f = columns t
    /\ kpi_rides d = len f
    /\ csv d = to_csv f.
Proof.
  intros Hcan.
  pose proof (shaped_filter t (passes (columns t) w) Hcan) as Hf.
  set (f := mkDF (columns t) (List.filter (passes (columns t) w) (data t))) in *.
  assert (Hin : forall c, c ∈ canonical_labels -> c ∈ columns t)
    by (intros c; now apply shaped_columns).
  assert (Hinf : forall c, c ∈ canonical_labels -> c ∈ columns f)
    by (intros c; now apply shaped_columns).
  destruct (map_tab_Ok f) as (m & Hm & _); [apply Hinf; in_labels | apply Hinf; in_labels |].
  unfold render, min_date, max_date.
  rewrite (getitem_Ok t "datetime") by (apply Hin; in_labels).
  cbn [mbind result_bind]. rewrite (filtered_passes_shaped t w Hcan). fold f.
  cbn [mbind result_bind].
  rewrite (getitem_Ok f "date") by (apply Hinf; in_labels). cbn [mbind result_bind].
  rewrite (getitem_Ok f BASE_COL) by (apply Hinf; in_labels). cbn [mbind result_bind].
  rewrite (hour_counts_Ok f) by (apply Hinf; in_labels). cbn [mbind result_bind].
  rewrite (quantized_Ok_shaped f Hf). cbn [mbind result_bind].
  rewrite Hm. cbn [mbind result_bind].
  rewrite getitems_Ok.
  2:{ intros c Hc. apply Hinf. revert Hc. unfold canonical_labels.
      rewrite !elem_of_cons. tauto. }
  cbn [mbind result_bind].
  eexists _, f. split; [reflexivity|]. cbn.
  repeat split; try assumption; try reflexivity.
Qed.

(** What [load_data] returns has the loaded shape. *)
Lemma load_data_shaped url nrows raw t :
  read_csv url nrows = Ok raw ->
  well_formed raw = true ->
  load_data url nrows = Ok t ->
  shaped t = true.
Proof.
  intros Hread Hwf Hload. unfold shaped.
  apply andb_true_iff. split; apply forallb_elem_of.
  - intros c Hc. apply has_column_true.
    destruct (load_data_Ok_inv _ _ _ _ Hread Hload) as (-> & HD & HLa & HLo).
    rewrite loaded_columns_eq by assumption. unfold loaded_columns.
    rewrite !elem_of_add_label, elem_of_rename.
    unfold canonical_labels in Hc. rewrite !elem_of_cons in Hc.
    destruct Hc as [->|[->|[->|[->|[->|[->|[->|Hc]]]]]]].
    + do 4 right. left. split; [reflexivity | exact HD].
    + do 4 right. right. split; [exact HLa | discriminate].
    + do 4 right. right. split; [exact HLo | discriminate].
    + now left.
    + do 3 right. now left.
    + do 2 right. now left.
    + right. now left.
    + now apply elem_of_nil in Hc.
  - intros row Hrow.
    destruct (load_data_row _ _ _ _ _ Hread Hwf Hload Hrow) as (r0 & _ & Hk & Hc).
    destruct (kept_inv _ _ Hk) as ((ns & Hns) & HLa & HLo).
    unfold shaped_row.
    rewrite !Hc, loaded_cell_datetime, loaded_cell_date, loaded_cell_hour,
      loaded_cell_weekday, loaded_cell_lat, loaded_cell_lon, Hns.
    cbn [date_elem hour_elem day_name_elem].
    now rewrite !Z.eqb_refl, String.eqb_refl, !numeric_cell_number.
Qed.

Lemma shaped_canonical t :
  shaped t = true ->
  (forall row, row ∈ data t -> is_text (at_label (columns t) row BASE_COL) = true) ->
  canonical t = true.
Proof.
  unfold canonical, shaped. rewrite !andb_true_iff, !forallb_elem_of.
  intros [Hc Hr] Hb. split; [exact Hc|]. intros row Hrow.
  specialize (Hr row Hrow). specialize (Hb row Hrow).
  unfold canonical_row, shaped_row in *.
  destruct (at_label (columns t) row "datetime"); try discriminate.
  destruct (at_label (columns t) row "date"); try discriminate.
  destruct (at_label (columns t) row "hour"); try discriminate.
  destruct (at_label (columns t) row "weekday"); try discriminate.
  now destruct (at_label (columns t) row BASE_COL).
Qed.

(** What [load_data] returns is a canonical table when every base comes
    out as text. *)
Lemma load_data_canonical url nrows raw t :
  read_csv url nrows = Ok raw ->
  well_formed raw = true ->
  bases_are_text raw = true ->
  load_data url nrows = Ok t ->
  canonical t = true.
Proof.
  intros Hread Hwf Hbases Hload.
  apply shaped_canonical; [exact (load_data_shaped _ _ _ _ Hread Hwf Hload)|].
  intros row Hrow.
  destruct (load_data_Ok_inv _ _ _ _ Hread Hload) as (-> & _).
  pose proof Hwf as Hwf'.
  apply andb_true_iff in Hwf' as [_ Hdt]. apply negb_true_iff, has_column_false in Hdt.
  destruct (loaded_rows _ Hdt) as (ff & Hd & Hs).
  rewrite Hd in Hrow. change (map ff ?l) with (ff <$> l) in Hrow.
  apply list_elem_of_fmap in Hrow as (r0 & -> & Hr0).
  rewrite Hs, loaded_cell_base. case_bool_decide as Hb; [|reflexivity].
  unfold clean_base.
  destruct (astype_str_keeps_na && isna _) eqn:E; [|reflexivity].
  exfalso. apply andb_true_iff in E as [Ek Ena].
  unfold bases_are_text in Hbases. rewrite Ek in Hbases.
  rewrite (proj2 (has_column_true _ _) Hb) in Hbases. cbn [negb orb] in Hbases.
  rewrite forallb_elem_of in Hbases. specialize (Hbases r0 Hr0).
  cbn [columns normalized] in *. rewrite Ena in Hbases. discriminate.
Qed.

End PageFacts.

(** ** Claims about the page *)

Section PageClaims.
Context `{Pandas}.

(** C5: on a canonical table, for any widget values, the top-places
    table is computed without error; its "size" column holds at most 10
    integers, each at least 1, in non-increasing order. *)
Theorem quantized_top_counts t w :
  canonical t = true ->
  exists f q ns,
    filtered t w = Ok f
    /\ quantized f = Ok q
    /\ getitem q "size" = Ok (map VInt ns)
    /\ len q = length ns
    /\ (length ns <= 10)%nat
    /\ Forall (fun n => 0 < n) ns
    /\ Sorted Z.ge ns.
Proof.
  intros Hcan.
  destruct (filtered_canonical t w _ Hcan (filtered_passes t w Hcan)) as (Hf & _).
  set (f := mkDF (columns t) (List.filter (passes (columns t) w) (data t))) in *.
  pose (sorted := foldr (insert_row larger_first) []
                    (map group_row (group_sizes (quantized_keys f)))).
  assert (Hin : forall row, row ∈ take 10 sorted ->
                  row ∈ map group_row (group_sizes (quantized_keys f))).
  { intros row Hrow. apply elem_of_take in Hrow as (i & Hi & _).
    apply list_elem_of_lookup_2 in Hi. unfold sorted in Hi.
    now rewrite sort_rows_perm in Hi. }
  exists f, (mkDF ["lat_q"; "lon_q"; "size"] (take 10 sorted)),
    (map count_of (take 10 sorted)).
  split; [now apply filtered_passes|].
  split; [now apply quantized_Ok|].
  split; [|split; [|split; [|split]]].
  - rewrite getitem_Ok by (cbn; in_labels). cbn [columns data]. f_equal.
    rewrite map_map. apply map_ext_in. intros row Hrow.
    apply list_elem_of_In in Hrow. now destruct (top_group_row f row (Hin row Hrow)).
  - unfold len. cbn [data]. now rewrite length_map.
  - rewrite length_map, length_take. lia.
  - apply Forall_forall. intros n Hn. change (map ?g ?l) with (g <$> l) in Hn.
    apply list_elem_of_fmap in Hn as (row & -> & Hrow).
    now destruct (top_group_row f row (Hin row Hrow)).
  - apply Sorted_map, Sorted_take, top_rows_sorted.
Qed.

(** C7, with all columns: a valid input is loaded and its page rendered,
    and the header row of the CSV export lists every column of the table:
    the input's columns under their normalised labels, with "date/time"
    renamed "datetime", then date, hour, weekday and base where the input
    did not have them.  These include datetime, lat, lon, base, hour and
    weekday, and also date and every other column of the input. *)
Theorem csv_export_columns url nrows raw w :
  read_csv url nrows = Ok raw ->
  valid_input raw = true ->
  exists t d body,
    load_data url nrows = Ok t
    /\ render t w = Ok d
    /\ csv d = csv_line (loaded_columns (columns (normalized raw))) +:+ body
    /\ (forall c, c ∈ canonical_labels -> c ∈ loaded_columns (columns (normalized raw)))
    /\ (forall c, c ∈ columns (normalized raw) -> c <> DATE_COL_RAW ->
                  c ∈ loaded_columns (columns (normalized raw))).
Proof.
  intros Hread Hv. pose proof (load_data_valid _ _ _ Hread Hv) as Hload.
  destruct (valid_input_inv _ Hv) as (Hwf & HD & HLa & HLo).
  set (t := loaded (normalized raw)) in *.
  pose proof (load_data_shaped _ _ _ _ Hread Hwf Hload) as Hcan.
  destruct (render_Ok_shaped t w Hcan) as (d & f & Hd & _ & _ & Hcols & _ & Hcsv).
  assert (Hlc : columns t = loaded_columns (columns (normalized raw)))
    by now apply loaded_columns_eq.
  exists t, d. eexists. split; [exact Hload|]. split; [exact Hd|]. split; [|split].
  - rewrite Hcsv. unfold to_csv. rewrite Hcols, Hlc. reflexivity.
  - intros c Hc. rewrite <- Hlc. now apply shaped_columns.
  - intros c Hc Hne. unfold loaded_columns.
    rewrite !elem_of_add_label, elem_of_rename. do 4 right. right. auto.
Qed.

(** C8: when the filters leave no row of a canonical table, the page is
    still rendered: the hourly counts and the top-places table have their
    columns and no row, the map tab shows the no-data note and computes no
    midpoint, and the CSV export is the header line alone. *)
Theorem empty_view_degrades t w f :
  canonical t = true ->
  filtered t w = Ok f ->
  data f = [] ->
  exists d,
    render t w = Ok d
    /\ kpi_rides d = 0%nat
    /\ hour_chart d = mkDF ["hour"; "pickups"] []
    /\ top_table d = mkDF ["lat_q"; "lon_q"; "size"] []
    /\ tab_map d = NoData "Sem dados para o filtro atual."
    /\ csv d = csv_line (columns t).
Proof.
  intros Hcan Hf Hempty.
  destruct (render_Ok t w Hcan)
    as (d & f' & lo & hi & Hd & Hf' & Hcanf & Hcols & _ & _ & Hn & _ & Hh & Hq & Hm & Hcsv).
  rewrite Hf in Hf'. injection Hf' as <-.
  exists d. split; [exact Hd|]. repeat split.
  - rewrite Hn. unfold len. now rewrite Hempty.
  - rewrite hour_counts_Ok in Hh by (apply canonical_columns; [exact Hcanf | in_labels]).
    injection Hh as <-. now rewrite (hour_keys_nil f Hempty).
  - rewrite (quantized_Ok f Hcanf) in Hq. injection Hq as <-.
    now rewrite (quantized_keys_nil f Hempty).
  - destruct (map_tab_Ok f) as (m & Hm' & Hno);
      try (apply canonical_columns; [exact Hcanf | in_labels]).
    rewrite Hm in Hm'. injection Hm' as ->. now apply Hno.
  - rewrite Hcsv, <- Hcols. now apply to_csv_nil.
Qed.

(** C10: on a canonical table, for any two settings of the widgets the
    page is rendered with the same date-window label, which is made of the
    first and the last day of the whole table. *)
Theorem date_window_independent t w1 w2 :
  canonical t = true ->
  exists d1 d2 lo hi,
    render t w1 = Ok d1 /\ render t w2 = Ok d2
    /\ min_date t = Ok lo /\ max_date t = Ok hi
    /\ kpi_window d1 = window_label lo hi
    /\ kpi_window d2 = kpi_window d1.
Proof.
  intros Hcan.
  destruct (render_Ok t w1 Hcan)
    as (d1 & _ & lo & hi & Hd1 & _ & _ & _ & Hlo & Hhi & _ & Hw1 & _).
  destruct (render_Ok t w2 Hcan)
    as (d2 & _ & lo' & hi' & Hd2 & _ & _ & _ & Hlo' & Hhi' & _ & Hw2 & _).
  rewrite Hlo in Hlo'. rewrite Hhi in Hhi'. injection Hlo' as <-. injection Hhi' as <-.
  exists d1, d2, lo, hi. repeat split; try assumption. now rewrite Hw1, Hw2.
Qed.

End PageClaims.

(** ** The libraries of the runs obey the laws *)

Section LibraryLaws.

Lemma lower_upper_char c : PyStr.lower_char (PyStr.upper_char c) = PyStr.lower_char c.
Proof. destruct c as [[] [] [] [] [] [] [] []]; reflexivity. Qed.

Lemma lower_upper s : PyStr.lower (PyStr.upper s) = PyStr.lower s.
Proof.
  unfold PyStr.lower, PyStr.upper.
  induction s as [|c s IH]; simpl; [reflexivity|]. now rewrite lower_upper_char, IH.
Qed.

Lemma lstrip_blank pad : blank pad = true -> PyStr.lstrip pad = EmptyString.
Proof.
  induction pad as [|c pad IH]; simpl; [reflexivity|].
  intros Hb. apply andb_true_iff in Hb as [-> Hb]. now apply IH.
Qed.

Lemma rstrip_blank pad : blank pad = true -> PyStr.rstrip pad = EmptyString.
Proof.
  induction pad as [|c pad IH]; simpl; [reflexivity|].
  intros Hb. apply andb_true_iff in Hb as [-> Hb]. now rewrite IH.
Qed.

Lemma lstrip_pad pad s : blank pad = true -> PyStr.lstrip (pad +:+ s) = PyStr.lstrip s.
Proof.
  induction pad as [|c pad IH]; [reflexivity|].
  intros Hb. cbn [blank] in Hb. apply andb_true_iff in Hb as [Hc Hb].
  rewrite append_cons. cbn [PyStr.lstrip]. rewrite Hc. now apply IH.
Qed.

Lemma rstrip_pad s pad : blank pad = true -> PyStr.rstrip (s +:+ pad) = PyStr.rstrip s.
Proof.
  intros Hb. induction s as [|c s IH]; [now apply rstrip_blank|].
  rewrite append_cons, !PyStrFacts.rstrip_cons. now rewrite IH.
Qed.

Lemma strip_pad pad s pad' :
  blank pad = true -> blank pad' = true ->
  PyStr.strip (pad +:+ s +:+ pad') = PyStr.strip s.
Proof.
  intros Hb Hb'. unfold PyStr.strip. rewrite (lstrip_pad _ _ Hb).
  induction s as [|c s IH].
  - change (EmptyString +:+ pad') with pad'. now rewrite (lstrip_blank _ Hb').
  - rewrite append_cons. cbn [PyStr.lstrip]. destruct (PyStr.isspace c); [exact IH|].
    rewrite <- append_cons. now apply rstrip_pad.
Qed.

Lemma lower_strip_upper s :
  PyStr.lower (PyStr.strip (PyStr.upper s)) = PyStr.lower (PyStr.strip s).
Proof. now rewrite PyStrFacts.strip_upper, lower_upper. Qed.

Lemma strip_upper_strip s :
  PyStr.strip (PyStr.upper (PyStr.strip s)) = PyStr.upper (PyStr.strip s).
Proof. now rewrite PyStrFacts.strip_upper, PyStrFacts.strip_idem. Qed.

Lemma sorted_values_text l :
  forallb is_text l = true -> exists l', Demo.sorted_values l = Ok l'.
Proof. intros Hl. unfold Demo.sorted_values. rewrite Hl. now eexists. Qed.

Lemma library_of_laws keeps_na : @PythonLaws (Demo.library_of keeps_na).
Proof.
  split.
  - exact strip_pad.
  - exact lower_strip_upper.
  - reflexivity.
  - reflexivity.
  - exact PyStrFacts.upper_idem.
  - exact strip_upper_strip.
  - exact sorted_values_text.
  - intros s e Hle. cbn. now rewrite (proj2 (Z.leb_le s e) Hle).
  - now eexists.
Qed.

Lemma library_laws : @PythonLaws Demo.library.
Proof. apply library_of_laws. Qed.

Lemma library3_laws : @PythonLaws Demo.library3.
Proof. apply library_of_laws. Qed.

Lemma samples_laws : @PythonLaws Samples.library.
Proof.
  split.
  - exact strip_pad.
  - exact lower_strip_upper.
  - reflexivity.
  - reflexivity.
  - exact PyStrFacts.upper_idem.
  - exact strip_upper_strip.
  - exact sorted_values_text.
  - intros s e Hle. cbn. now rewrite (proj2 (Z.leb_le s e) Hle).
  - now eexists.
Qed.

End LibraryLaws.

(** ** Concrete runs, with the library of [Demo] *)

Section Runs.
#[local] Existing Instance Demo.library.
#[local] Existing Instance library_laws.

Example repr_list_cols :
  PyStr.repr_list ["lat"; "lon"; "base"] = "['lat', 'lon', 'base']".
Proof. reflexivity. Qed.

Example sep_1_2014_monday :
  Calendar.day_name (16314 * Calendar.ns_per_day + 120 * Calendar.ns_per_second) = "Monday".
Proof. vm_compute. reflexivity. Qed.

Example pickups_loaded : load_data "pickups.csv" None = Ok Demo.pickups_table.
Proof. vm_compute. reflexivity. Qed.

Example pickups_canonical : canonical Demo.pickups_table = true.
Proof. vm_compute. reflexivity. Qed.

Example pickups_well_formed : well_formed Demo.pickups = true.
Proof. vm_compute. reflexivity. Qed.

(** The unparseable timestamp costs exactly one row. *)
Example pickups_rows : len Demo.pickups = 4%nat /\ len Demo.pickups_table = 3%nat.
Proof. split; reflexivity. Qed.

Example far_away_loaded : load_data "far_away.csv" None = Ok Demo.far_away_table.
Proof. vm_compute. reflexivity. Qed.

Example far_away_well_formed : well_formed Demo.far_away = true.
Proof. vm_compute. reflexivity. Qed.

Example pickups_rendered :
  (d ← render Demo.pickups_table Demo.no_filter; Ok (Some d)) = Ok Demo.pickups_page.
Proof. vm_compute. reflexivity. Qed.

(** *** C1 *)

Example pickups_valid : valid_input Demo.pickups = true.
Proof. vm_compute. reflexivity. Qed.

Example far_away_valid : valid_input Demo.far_away = true.
Proof. vm_compute. reflexivity. Qed.

Lemma load_data_row_invariants_witness :
  read_csv "pickups.csv" None = Ok Demo.pickups
  /\ valid_input Demo.pickups = true
  /\ exists t,
       load_data "pickups.csv" None = Ok t
       /\ forall row, row ∈ data t ->
            (exists ns, at_label (columns t) row "datetime" = VTimestamp ns
                        /\ at_label (columns t) row "hour" = VInt (Calendar.hour_of ns)
                        /\ 0 <= Calendar.hour_of ns <= 23)
            /\ is_number (at_label (columns t) row LAT_COL) = true
            /\ is_number (at_label (columns t) row LON_COL) = true
            /\ ((exists b, at_label (columns t) row BASE_COL = VStr b
                           /\ text_upper b = b /\ text_strip b = b)
                \/ (astype_str_keeps_na = true
                    /\ at_label (columns t) row BASE_COL = NaN)).
Proof.
  assert (Hr : read_csv "pickups.csv" None = Ok Demo.pickups) by reflexivity.
  assert (Hv : valid_input Demo.pickups = true) by (vm_compute; reflexivity).
  exact (conj Hr (conj Hv
           (load_data_row_invariants "pickups.csv" None Demo.pickups Hr Hv))).
Defined.

(** Finite coordinates are not guaranteed: a row whose latitude reads as
    infinity is kept, since only NaN counts as missing. *)
Lemma load_data_latitude_not_finite :
  ~ (forall (lib : Pandas) url nrows raw,
        @read_csv lib url nrows = Ok raw ->
        valid_input raw = true ->
        exists t,
          @load_data lib url nrows = Ok t
          /\ forall row, row ∈ data t ->
               (exists ns, at_label (columns t) row "datetime" = VTimestamp ns
                           /\ at_label (columns t) row "hour" = VInt (Calendar.hour_of ns)
                           /\ 0 <= Calendar.hour_of ns <= 23)
               /\ is_finite_number (at_label (columns t) row LAT_COL) = true
               /\ is_finite_number (at_label (columns t) row LON_COL) = true
               /\ (exists b, at_label (columns t) row BASE_COL = VStr b
                             /\ @text_upper lib b = b /\ @text_strip lib b = b)).
Proof.
  intros Hall.
  destruct (Hall Demo.library "far_away.csv" None Demo.far_away eq_refl far_away_valid)
    as (t & Ht & Hrows).
  rewrite far_away_loaded in Ht. injection Ht as <-.
  assert (Hrow : exists row,
             row ∈ data Demo.far_away_table
             /\ is_finite_number (at_label (columns Demo.far_away_table) row LAT_COL)
                = false).
  { eexists. split; [vm_compute; left | vm_compute; reflexivity]. }
  destruct Hrow as (row & Hrow & Hlat).
  destruct (Hrows row Hrow) as (_ & Hfin & _).
  rewrite Hlat in Hfin. discriminate Hfin.
Qed.

(** *** C6 *)

Lemma load_data_schema_error_witness :
  read_csv "no_timestamp.csv" None = Ok Demo.no_timestamp
  /\ ((exists cols,
         load_data "no_timestamp.csv" None = Raise (ValueError (missing_column_message cols)))
      <-> DATE_COL_RAW ∉ columns (normalized Demo.no_timestamp))
  /\ (DATE_COL_RAW ∉ columns (normalized Demo.no_timestamp) ->
      load_data "no_timestamp.csv" None
      = Raise (ValueError (missing_column_message (columns (normalized Demo.no_timestamp))))
      /\ forall c, c ∈ columns (normalized Demo.no_timestamp) ->
           occurs_in (py_repr c)
             (missing_column_message (columns (normalized Demo.no_timestamp)))).
Proof.
  assert (Hr : read_csv "no_timestamp.csv" None = Ok Demo.no_timestamp) by reflexivity.
  exact (conj Hr (load_data_schema_error "no_timestamp.csv" None Demo.no_timestamp Hr)).
Defined.

Example no_timestamp_message :
  load_data "no_timestamp.csv" None
  = Raise (ValueError
             "Coluna 'date/time' não encontrada. Colunas disponíveis: ['lat', 'lon', 'base']").
Proof. vm_compute. reflexivity. Qed.

(** The page shows the failed load as one line and stops. *)
Example script_no_timestamp :
  script "no_timestamp.csv" 10000 Demo.no_filter
  = Ok (LoadError
          "Erro ao carregar dados: Coluna 'date/time' não encontrada. Colunas disponíveis: ['lat', 'lon', 'base']").
Proof. vm_compute. reflexivity. Qed.

(** *** C9 *)

Lemma load_data_base_witness :
  read_csv "pickups.csv" None = Ok Demo.pickups
  /\ valid_input Demo.pickups = true
  /\ exists t ff,
       load_data "pickups.csv" None = Ok t
       /\ data t
          = map ff (List.filter (kept (columns (normalized Demo.pickups))) (data Demo.pickups))
       /\ (BASE_COL ∈ columns (normalized Demo.pickups) ->
           forall r,
             (astype_str_keeps_na
              && isna (at_label (columns (normalized Demo.pickups)) r BASE_COL) = false ->
              at_label (columns t) (ff r) BASE_COL
              = VStr (text_upper (text_strip
                        (str_value (at_label (columns (normalized Demo.pickups)) r BASE_COL)))))
             /\ (isna (at_label (columns (normalized Demo.pickups)) r BASE_COL) = true ->
                 at_label (columns (normalized Demo.pickups)) r BASE_COL <> VNaT ->
                 at_label (columns t) (ff r) BASE_COL
                 = (if astype_str_keeps_na then NaN else VStr "NAN")))
       /\ (BASE_COL ∉ columns (normalized Demo.pickups) ->
           forall r, at_label (columns t) (ff r) BASE_COL = VStr "UNKNOWN").
Proof.
  assert (Hr : read_csv "pickups.csv" None = Ok Demo.pickups) by reflexivity.
  assert (Hv : valid_input Demo.pickups = true) by (vm_compute; reflexivity).
  exact (conj Hr (conj Hv (load_data_base "pickups.csv" None Demo.pickups Hr Hv))).
Defined.

(** The second pickup has no base: it is loaded with the base "NAN" where
    [astype(str)] writes a missing value as text. *)
Example missing_base_is_NAN :
  map (fun row => at_label (columns Demo.pickups_table) row BASE_COL)
    (data Demo.pickups_table)
  = [VStr "B02512"; VStr "NAN"; VStr "B02598"].
Proof. vm_compute. reflexivity. Qed.

Example pickups_loaded3 :
  @load_data Demo.library3 "pickups.csv" None = Ok Demo.pickups_table3.
Proof. vm_compute. reflexivity. Qed.

Example pickups_valid3 : @valid_input Demo.library3 Demo.pickups = true.
Proof. vm_compute. reflexivity. Qed.

(** Where [astype(str)] keeps missing values, the missing base of the
    second pickup is not written "NAN": it stays missing. *)
Lemma load_data_base_stays_missing :
  ~ (forall (lib : Pandas), @PythonLaws lib ->
     forall url nrows raw,
        @read_csv lib url nrows = Ok raw ->
        @valid_input lib raw = true ->
        exists t ff,
          @load_data lib url nrows = Ok t
          /\ data t
             = map ff (List.filter (@kept lib (columns (@normalized lib raw))) (data raw))
          /\ (BASE_COL ∈ columns (@normalized lib raw) ->
              forall r,
                isna (at_label (columns (@normalized lib raw)) r BASE_COL) = true ->
                at_label (columns (@normalized lib raw)) r BASE_COL <> VNaT ->
                at_label (columns t) (ff r) BASE_COL = VStr "NAN")).
Proof.
  intros Hall.
  destruct (Hall Demo.library3 library3_laws "pickups.csv" None Demo.pickups
              eq_refl pickups_valid3) as (t & ff & Ht & Hd & Hb).
  rewrite pickups_loaded3 in Ht. injection Ht as <-.
  set (second := nth 1 (data Demo.pickups) []) in *.
  assert (Hk : List.filter (@kept Demo.library3 (columns (@normalized Demo.library3 Demo.pickups)))
                 (data Demo.pickups)
               = [nth 0 (data Demo.pickups) []; second; nth 3 (data Demo.pickups) []])
    by (vm_compute; reflexivity).
  rewrite Hk in Hd.
  assert (Hrow : ff second = nth 1 (data Demo.pickups_table3) []).
  { apply (f_equal (fun l => nth 1 l [])) in Hd. symmetry. exact Hd. }
  assert (HB : BASE_COL ∈ columns (@normalized Demo.library3 Demo.pickups))
    by (vm_compute; repeat constructor).
  assert (Hna : isna (at_label (columns (@normalized Demo.library3 Demo.pickups))
                        second BASE_COL) = true) by (vm_compute; reflexivity).
  assert (Hnat : at_label (columns (@normalized Demo.library3 Demo.pickups))
                   second BASE_COL <> VNaT) by (vm_compute; discriminate).
  specialize (Hb HB second Hna Hnat). rewrite Hrow in Hb.
  vm_compute in Hb. discriminate Hb.
Qed.

(** *** C2 *)

Lemma hour_counts_sum_witness :
  canonical Demo.pickups_table = true
  /\ exists f hc ns,
       filtered Demo.pickups_table Demo.midnight_hour = Ok f
       /\ hour_counts f = Ok hc
       /\ getitem hc "pickups" = Ok (map VInt ns)
       /\ sum_Z ns = Z.of_nat (len f).
Proof.
  assert (Hc : canonical Demo.pickups_table = true) by (vm_compute; reflexivity).
  exact (conj Hc (hour_counts_sum Demo.pickups_table Demo.midnight_hour Hc)).
Defined.

(** *** C3 *)

Lemma filtered_monotone_witness :
  canonical Demo.pickups_table = true
  /\ narrows_nonempty Demo.midnight_hour Demo.five_o_clock
  /\ exists f f',
       filtered Demo.pickups_table Demo.midnight_hour = Ok f
       /\ filtered Demo.pickups_table Demo.five_o_clock = Ok f'
       /\ (len f' <= len f)%nat.
Proof.
  assert (Hc : canonical Demo.pickups_table = true) by (vm_compute; reflexivity).
  assert (Hn : narrows_nonempty Demo.midnight_hour Demo.five_o_clock).
  { apply (narrows_nonempty_hours Demo.midnight_hour [5]); [|discriminate].
    intros x Hx. apply list_elem_of_singleton in Hx as ->. simpl. right. left. }
  exact (conj Hc (conj Hn
           (filtered_monotone Demo.pickups_table Demo.midnight_hour Demo.five_o_clock Hc Hn))).
Defined.

(** Emptying the hour set lifts the restriction: three rows instead of
    none. *)
Lemma filtered_widens_on_empty_set :
  ~ (forall t w w',
        canonical t = true -> narrows w w' ->
        exists f f', filtered t w = Ok f /\ filtered t w' = Ok f'
                     /\ (len f' <= len f)%nat).
Proof.
  intros Hall.
  destruct (Hall Demo.pickups_table Demo.five_o_clock Demo.no_filter pickups_canonical)
    as (f & f' & Hf & Hf' & Hle).
  - apply (narrows_hours Demo.five_o_clock []). intros x Hx. now apply elem_of_nil in Hx.
  - vm_compute in Hf, Hf'. injection Hf as <-. injection Hf' as <-.
    vm_compute in Hle. lia.
Qed.

(** *** C4 *)

Lemma filtered_identity_witness :
  canonical Demo.pickups_table = true
  /\ ((forall s e, spans Demo.pickups_table s e ->
         filtered Demo.pickups_table (mkWidgets (DateTuple [s; e]) [] [])
         = Ok Demo.pickups_table)
      /\ (forall s e, min_date Demo.pickups_table = Ok (VDate s) ->
                      max_date Demo.pickups_table = Ok (VDate e) ->
                      spans Demo.pickups_table s e)
      /\ (forall dates, (forall s e, dates <> DateTuple [s; e]) ->
            filtered Demo.pickups_table (mkWidgets dates [] []) = Ok Demo.pickups_table)).
Proof.
  assert (Hc : canonical Demo.pickups_table = true) by (vm_compute; reflexivity).
  exact (conj Hc (filtered_identity Demo.pickups_table Hc)).
Defined.

Example default_range_is_identity :
  min_date Demo.pickups_table = Ok (VDate 16314)
  /\ max_date Demo.pickups_table = Ok (VDate 16315)
  /\ filtered Demo.pickups_table Demo.no_filter = Ok Demo.pickups_table.
Proof. repeat split; vm_compute; reflexivity. Qed.

(** *** C5 *)

Lemma quantized_top_counts_witness :
  canonical Demo.pickups_table = true
  /\ exists f q ns,
       filtered Demo.pickups_table Demo.no_filter = Ok f
       /\ quantized f = Ok q
       /\ getitem q "size" = Ok (map VInt ns)
       /\ len q = length ns
       /\ (length ns <= 10)%nat
       /\ Forall (fun n => 0 < n) ns
       /\ Sorted Z.ge ns.
Proof.
  assert (Hc : canonical Demo.pickups_table = true) by (vm_compute; reflexivity).
  exact (conj Hc (quantized_top_counts Demo.pickups_table Demo.no_filter Hc)).
Defined.

(** *** C7 *)

Lemma csv_export_columns_witness :
  read_csv "pickups.csv" None = Ok Demo.pickups
  /\ valid_input Demo.pickups = true
  /\ exists t d body,
       load_data "pickups.csv" None = Ok t
       /\ render t Demo.no_filter = Ok d
       /\ csv d = csv_line (loaded_columns (columns (normalized Demo.pickups))) +:+ body
       /\ (forall c, c ∈ canonical_labels ->
                     c ∈ loaded_columns (columns (normalized Demo.pickups)))
       /\ (forall c, c ∈ columns (normalized Demo.pickups) -> c <> DATE_COL_RAW ->
                     c ∈ loaded_columns (columns (normalized Demo.pickups))).
Proof.
  assert (Hr : read_csv "pickups.csv" None = Ok Demo.pickups) by reflexivity.
  assert (Hv : valid_input Demo.pickups = true) by (vm_compute; reflexivity).
  exact (conj Hr (conj Hv
           (csv_export_columns "pickups.csv" None Demo.pickups Demo.no_filter Hr Hv))).
Defined.

(** The export of the loaded pickups has a seventh column, date, between
    base and hour. *)
Lemma csv_export_has_date_column :
  ~ (forall (lib : Pandas) url nrows raw w,
        @read_csv lib url nrows = Ok raw ->
        valid_input raw = true ->
        exists t d body,
          @load_data lib url nrows = Ok t
          /\ @render lib t w = Ok d
          /\ csv d = @csv_line ["datetime"; LAT_COL; LON_COL; BASE_COL; "hour"; "weekday"]
                     +:+ body).
Proof.
  intros Hall.
  destruct (Hall Demo.library "pickups.csv" None Demo.pickups Demo.no_filter
              eq_refl pickups_valid)
    as (t & d & body & Ht & Hd & Hbody).
  rewrite pickups_loaded in Ht. injection Ht as <-.
  pose proof pickups_rendered as Hpage. rewrite Hd in Hpage.
  cbn [mbind result_bind] in Hpage.
  assert (E : Demo.pickups_page = Some d) by congruence.
  unfold Demo.pickups_page in E. injection E as <-.
  vm_compute in Hbody. discriminate Hbody.
Qed.

(** *** C8 *)

Lemma empty_view_degrades_witness :
  canonical Demo.pickups_table = true
  /\ filtered Demo.pickups_table Demo.five_o_clock
     = Ok (mkDF (columns Demo.pickups_table) [])
  /\ data (mkDF (columns Demo.pickups_table) []) = []
  /\ exists d,
       render Demo.pickups_table Demo.five_o_clock = Ok d
       /\ kpi_rides d = 0%nat
       /\ hour_chart d = mkDF ["hour"; "pickups"] []
       /\ top_table d = mkDF ["lat_q"; "lon_q"; "size"] []
       /\ tab_map d = NoData "Sem dados para o filtro atual."
       /\ csv d = csv_line (columns Demo.pickups_table).
Proof.
  assert (Hc : canonical Demo.pickups_table = true) by (vm_compute; reflexivity).
  assert (Hf : filtered Demo.pickups_table Demo.five_o_clock
               = Ok (mkDF (columns Demo.pickups_table) []))
    by (vm_compute; reflexivity).
  assert (He : data (mkDF (columns Demo.pickups_table) []) = []) by reflexivity.
  exact (conj Hc (conj Hf (conj He
           (empty_view_degrades Demo.pickups_table Demo.five_o_clock _ Hc Hf He)))).
Defined.

(** *** C10 *)

Lemma date_window_independent_witness :
  canonical Demo.pickups_table = true
  /\ exists d1 d2 lo hi,
       render Demo.pickups_table Demo.no_filter = Ok d1
       /\ render Demo.pickups_table Demo.five_o_clock = Ok d2
       /\ min_date Demo.pickups_table = Ok lo /\ max_date Demo.pickups_table = Ok hi
       /\ kpi_window d1 = window_label lo hi
       /\ kpi_window d2 = kpi_window d1.
Proof.
  assert (Hc : canonical Demo.pickups_table = true) by (vm_compute; reflexivity).
  exact (conj Hc
           (date_window_independent Demo.pickups_table Demo.no_filter Demo.five_o_clock Hc)).
Defined.

Example pickups_window :
  (d ← render Demo.pickups_table Demo.five_o_clock; Ok (kpi_window d))
  = Ok "2014-09-01 → 2014-09-02".
Proof. vm_compute. reflexivity. Qed.

End Runs.

(** ** More about the loader *)

Section LoaderExtras.
Context `{PythonLaws}.

Lemma filter_length_le {A} (p : A -> bool) l :
  (length (List.filter p l) <= length l)%nat.
Proof. induction l as [|x l IH]; simpl; [lia|]. destruct (p x); simpl; lia. Qed.

Lemma filter_length_all {A} (p : A -> bool) l :
  length (List.filter p l) = length l <-> forall x, x ∈ l -> p x = true.
Proof.
  induction l as [|x l IH]; simpl.
  - split; [intros _ x Hx; now apply elem_of_nil in Hx | reflexivity].
  - pose proof (filter_length_le p l) as Hle. destruct (p x) eqn:E; simpl.
    + split.
      * intros Hlen y Hy. apply elem_of_cons in Hy as [->|Hy]; [exact E|].
        apply IH; [lia | exact Hy].
      * intros Hall. f_equal. apply IH. intros y Hy. apply Hall. now right.
    + split; [lia|]. intros Hall. rewrite (Hall x) in E by left. discriminate.
Qed.



(** X4: a valid input is loaded with exactly one row for each raw row that
    is kept, in the order read: never more rows than were read, as many
    only when every row is kept; a row whose timestamp does not parse, or
    whose latitude or longitude is missing, is not kept. *)
Theorem load_data_row_count url nrows raw :
  read_csv url nrows = Ok raw ->
  valid_input raw = true ->
  exists t,
    load_data url nrows = Ok t
    /\ len t = length (List.filter (kept (columns (normalized raw))) (data raw))
    /\ (len t <= len raw)%nat
    /\ (len t = len raw
        <-> forall r, r ∈ data raw -> kept (columns (normalized raw)) r = true)
    /\ (forall r, to_datetime_elem (at_label (columns (normalized raw)) r DATE_COL_RAW) = None
                  \/ isna (at_label (columns (normalized raw)) r LAT_COL) = true
                  \/ isna (at_label (columns (normalized raw)) r LON_COL) = true ->
                  kept (columns (normalized raw)) r = false).
Proof.
  intros Hread Hv. pose proof (load_data_valid _ _ _ Hread Hv) as Hload.
  destruct (valid_input_inv _ Hv) as (Hwf & _).
  apply andb_true_iff in Hwf as [_ Hdt]. apply negb_true_iff, has_column_false in Hdt.
  destruct (loaded_rows _ Hdt) as (ff & Hrows & _).
  exists (loaded (normalized raw)). split; [exact Hload|].
  assert (Hlen : len (loaded (normalized raw))
                 = length (List.filter (kept (columns (normalized raw))) (data raw))).
  { unfold len. now rewrite Hrows, length_map. }
  split; [exact Hlen|]. split; [rewrite Hlen; apply filter_length_le|]. split.
  - rewrite Hlen. apply filter_length_all.
  - intros r Hr. unfold kept, to_datetime_value.
    destruct Hr as [Hr|[Hr|Hr]]; rewrite Hr; simpl;
      rewrite ?andb_false_r; reflexivity.
Qed.

Lemma day_name_known ns : Calendar.day_name ns ∈ weekday_names.
Proof.
  unfold Calendar.day_name, weekday_names.
  repeat match goal with
         | |- context [match ?x with _ => _ end] => destruct x
         end; solve [repeat constructor].
Qed.

(** X5: in the table a valid input is loaded to, the date, the hour and
    the week day of every row are those of the row's own timestamp, and the
    week day is one of the seven English day names. *)
Theorem load_data_derived_columns url nrows raw :
  read_csv url nrows = Ok raw ->
  valid_input raw = true ->
  exists t,
    load_data url nrows = Ok t
    /\ forall row, row ∈ data t ->
         exists ns wd,
           at_label (columns t) row "datetime" = VTimestamp ns
           /\ at_label (columns t) row "date" = VDate (ns / Calendar.ns_per_day)
           /\ at_label (columns t) row "hour" = VInt ((ns / Calendar.ns_per_hour) mod 24)
           /\ at_label (columns t) row "weekday" = VStr wd
           /\ wd = Calendar.day_name ns /\ wd ∈ weekday_names.
Proof.
  intros Hread Hv. pose proof (load_data_valid _ _ _ Hread Hv) as Hload.
  destruct (valid_input_inv _ Hv) as (Hwf & _).
  pose proof (load_data_shaped _ _ _ _ Hread Hwf Hload) as Hcan.
  exists (loaded (normalized raw)). split; [exact Hload|]. intros row Hrow.
  destruct (shaped_row_inv _ _ (shaped_rows _ _ Hcan Hrow))
    as (ns & Hdt & Hd & Hh & Hw & _).
  exists ns, (Calendar.day_name ns). repeat split; try assumption.
  apply day_name_known.
Qed.


Lemma add_label_app c cols :
  add_label c cols = cols ++ (if bool_decide (c ∈ cols) then [] else [c]).
Proof. unfold add_label. case_bool_decide; [now rewrite app_nil_r | reflexivity]. Qed.

Lemma elem_of_added (c : string) (cols : list string) (x : string) :
  x ∈ (if bool_decide (c ∈ cols) then [] else [c]) -> x = c.
Proof.
  case_bool_decide; intros Hx; [now apply elem_of_nil in Hx|].
  now apply list_elem_of_singleton in Hx.
Qed.

Lemma NoDup_add_label c cols : NoDup cols -> NoDup (add_label c cols).
Proof.
  intros Hnd. unfold add_label. case_bool_decide as Hc; [exact Hnd|].
  apply NoDup_app. split; [exact Hnd|]. split; [|apply NoDup_singleton].
  intros x Hx Hx'. apply list_elem_of_singleton in Hx' as ->. now apply Hc.
Qed.

Lemma NoDup_rename old new cols :
  new ∉ cols -> NoDup cols ->
  NoDup (map (fun x => if String.eqb x old then new else x) cols).
Proof.
  intros Hnew Hnd. change (map ?f cols) with (f <$> cols).
  apply NoDup_fmap_2_strong; [|exact Hnd].
  intros x y Hx Hy.
  destruct (String.eqb_spec x old) as [->|Hxo], (String.eqb_spec y old) as [->|Hyo];
    intros E; subst; try reflexivity; contradiction.
Qed.

(** X7: the columns of the table a valid input is loaded to are the
    input's columns in their order, "date/time" renamed "datetime", followed
    by those of date, hour, weekday and base that the input lacked; no label
    occurs twice and "date/time" is gone. *)
Theorem load_data_columns_distinct url nrows raw :
  read_csv url nrows = Ok raw ->
  valid_input raw = true ->
  exists t added,
    load_data url nrows = Ok t
    /\ columns t
       = map (fun c => if String.eqb c DATE_COL_RAW then "datetime" else c)
           (columns (normalized raw)) ++ added
    /\ added ⊆ ["date"; "hour"; "weekday"; BASE_COL]
    /\ NoDup (columns t)
    /\ DATE_COL_RAW ∉ columns t.
Proof.
  intros Hread Hv. pose proof (load_data_valid _ _ _ Hread Hv) as Hload.
  destruct (valid_input_inv _ Hv) as (Hwf & HD & HLa & HLo).
  apply andb_true_iff in Hwf as [Hnd Hdt].
  apply bool_decide_eq_true in Hnd. apply negb_true_iff, has_column_false in Hdt.
  exists (loaded (normalized raw)). eexists. split; [exact Hload|].
  rewrite (loaded_columns_eq _ HD HLa HLo). unfold loaded_columns.
  split; [|split; [|split]].
  - rewrite !add_label_app, <- !app_assoc. reflexivity.
  - intros c Hc. repeat (apply elem_of_app in Hc as [Hc|Hc]);
      rewrite (elem_of_added _ _ _ Hc); solve [repeat constructor].
  - do 4 apply NoDup_add_label. now apply NoDup_rename.
  - rewrite !elem_of_add_label, elem_of_rename.
    intros [?|[?|[?|[?|[[? _]|[_ ?]]]]]]; try discriminate. now contradiction.
Qed.

(** X8: column labels are matched without regard to case or to white
    space around them: a source that gives the same table under
    upper-cased labels padded with white space is loaded to the same result
    (the same table or the same error). *)
Theorem load_data_label_insensitive url nrows url' nrows' raw pad pad' :
  read_csv url nrows = Ok raw ->
  blank pad = true -> blank pad' = true ->
  read_csv url' nrows'
  = Ok (mkDF (map (fun c => pad +:+ PyStr.upper c +:+ pad') (columns raw)) (data raw)) ->
  load_data url' nrows' = load_data url nrows.
Proof.
  intros Hread Hb Hb' Hread'. unfold load_data. rewrite Hread, Hread'.
  cbn [mbind result_bind columns data]. rewrite map_map.
  rewrite (map_ext _ (fun c => py_lower (py_strip c)))
    by (intros c; now rewrite py_strip_blank, py_lower_strip_upper).
  reflexivity.
Qed.

End LoaderExtras.

(** ** More about the filters *)

Section FilterExtras.

Lemma filter_idem {A} (p : A -> bool) l :
  List.filter p (List.filter p l) = List.filter p l.
Proof.
  rewrite filter_filter. apply filter_ext_in. intros x _. now destruct (p x).
Qed.

Lemma filter_comm {A} (p q : A -> bool) l :
  List.filter p (List.filter q l) = List.filter q (List.filter p l).
Proof.
  rewrite !filter_filter. apply filter_ext_in. intros x _. apply andb_comm.
Qed.

Lemma date_ok_spec dates d : date_ok dates (VDate d) = true <-> in_date_range dates d.
Proof.
  destruct dates as [x|[|s [|e [|y l]]]]; simpl; try tauto.
  rewrite andb_true_iff, Z.geb_le, Z.leb_le. tauto.
Qed.

Lemma hour_ok_spec hs h : hour_ok hs (VInt h) = true <-> hs = [] \/ h ∈ hs.
Proof.
  unfold hour_ok. destruct hs as [|x hs]; simpl.
  - split; [now left | reflexivity].
  - rewrite bool_decide_eq_true. split; [now right | now intros [?|?]].
Qed.

Lemma base_ok_spec bs b : base_ok bs (VStr b) = true <-> bs = [] \/ b ∈ bs.
Proof.
  unfold base_ok. destruct bs as [|x bs]; simpl.
  - split; [now left | reflexivity].
  - rewrite bool_decide_eq_true. split; [now right | now intros [?|?]].
Qed.

(** X9: on a canonical table the filters never fail and keep the
    columns; the rows of the result are exactly the rows of the table that
    pass, each as often as it occurs and in the order of the table; and a
    row of the table passes exactly when its date lies in the chosen range
    (both ends included; any date when the widget holds no pair), its hour
    is one of the chosen hours if any is chosen, and its base is one of the
    chosen bases if any is chosen. *)
Theorem filtered_rows t w :
  canonical t = true ->
  exists f,
    filtered t w = Ok f
    /\ columns f = columns t
    /\ data f = List.filter (passes (columns t) w) (data t)
    /\ forall row,
         row ∈ data t ->
         (passes (columns t) w row = true
          <-> exists d h b,
                at_label (columns t) row "date" = VDate d
                /\ at_label (columns t) row "hour" = VInt h
                /\ at_label (columns t) row BASE_COL = VStr b
                /\ in_date_range (chosen_dates w) d
                /\ (hours w = [] \/ h ∈ hours w)
                /\ (base_sel w = [] \/ b ∈ base_sel w)).
Proof.
  intros Hcan. eexists. split; [now apply filtered_passes|]. cbn [columns data].
  split; [reflexivity|]. split; [reflexivity|].
  intros row Hrow. split.
  - intros Hp.
    destruct (canonical_row_inv _ _ (canonical_rows _ _ Hcan Hrow))
      as (ns & b & _ & Hd & Hh & _ & Hb & _).
    exists (Calendar.date_of ns), (Calendar.hour_of ns), b.
    unfold passes in Hp. rewrite Hd, Hh, Hb, !andb_true_iff in Hp.
    destruct Hp as [[Hp1 Hp2] Hp3].
    apply date_ok_spec in Hp1. apply hour_ok_spec in Hp2. apply base_ok_spec in Hp3.
    auto 10.
  - intros (d & h & b & Hd & Hh & Hb & H1 & H2 & H3).
    unfold passes. rewrite Hd, Hh, Hb, !andb_true_iff.
    split; [split|]; [now apply date_ok_spec | now apply hour_ok_spec | now apply base_ok_spec].
Qed.

(** X10: filtering a filtered table again with the same widget values
    changes nothing. *)
Theorem filtered_idempotent t w f :
  canonical t = true ->
  filtered t w = Ok f ->
  filtered f w = Ok f.
Proof.
  intros Hcan Hf.
  destruct (filtered_canonical _ _ _ Hcan Hf) as (Hcanf & Hcols & Hdata).
  rewrite (filtered_passes f w Hcanf). f_equal.
  rewrite Hcols, Hdata, filter_idem, <- Hdata, <- Hcols. apply frame_eta.
Qed.

(** X11: two rounds of filtering can be made in either order: the rows
    left are those that pass both, so the result is the same table. *)
Theorem filtered_commutes t w1 w2 f1 f12 :
  canonical t = true ->
  filtered t w1 = Ok f1 ->
  filtered f1 w2 = Ok f12 ->
  exists f2,
    filtered t w2 = Ok f2
    /\ filtered f2 w1 = Ok f12
    /\ forall row, row ∈ data f12 <-> row ∈ data f1 /\ row ∈ data f2.
Proof.
  intros Hcan Hf1 Hf12.
  destruct (filtered_canonical _ _ _ Hcan Hf1) as (Hcan1 & Hcols1 & Hdata1).
  destruct (filtered_canonical _ _ _ Hcan1 Hf12) as (_ & Hcols12 & Hdata12).
  pose proof (filtered_passes t w2 Hcan) as Hf2.
  destruct (filtered_canonical _ _ _ Hcan Hf2) as (Hcan2 & Hcols2 & Hdata2).
  eexists. split; [exact Hf2|]. split.
  - rewrite (filtered_passes _ w1 Hcan2). f_equal. cbn [columns data].
    rewrite filter_comm, <- (frame_eta f12), Hcols12, Hdata12, Hcols1, Hdata1.
    reflexivity.
  - intros row. cbn [data]. rewrite Hdata12, Hcols1, Hdata1, !filter_elem_of. tauto.
Qed.

End FilterExtras.

(** ** More about the hourly counts *)

Section HourExtras.

Section Keyed.
Variable mk : Z -> value.
Hypothesis mk_eqb : forall x y, value_eqb (mk x) (mk y) = (x =? y).
Hypothesis mk_ltb : forall x y, value_ltb (mk x) (mk y) = (x <? y).

Lemma count_key_keyed k groups :
  count_key [mk k] (keyed_groups mk groups) = keyed_groups mk (bump k groups).
Proof.
  induction groups as [|[k' n] rest IH]; [reflexivity|].
  cbn [keyed_groups map bump fst snd count_key keys_eqb keys_ltb].
  rewrite mk_eqb, mk_ltb, andb_true_r, andb_false_r, orb_false_r.
  destruct (k =? k'); [reflexivity|]. destruct (k <? k'); [reflexivity|].
  cbn [map fst snd]. f_equal. exact IH.
Qed.

Lemma group_sizes_keyed ks :
  group_sizes (map (fun k => [mk k]) ks) = keyed_groups mk (tally ks).
Proof.
  unfold group_sizes, tally.
  enough (Hgen : forall groups,
             fold_left (fun g k => count_key k g) (map (fun k => [mk k]) ks)
               (keyed_groups mk groups)
             = keyed_groups mk (fold_left (fun g k => bump k g) ks groups))
    by apply (Hgen []).
  induction ks as [|k ks IH]; intros groups; [reflexivity|].
  cbn [map fold_left]. now rewrite count_key_keyed, IH.
Qed.

End Keyed.

Lemma group_sizes_ints hs :
  group_sizes (map (fun h => [VInt h]) hs) = keyed_groups VInt (tally hs).
Proof. now apply group_sizes_keyed. Qed.


Lemma count_in_cons g groups h :
  count_in h (g :: groups) = (if fst g =? h then snd g else 0) + count_in h groups.
Proof. unfold count_in. simpl. now destruct (fst g =? h). Qed.

Lemma bump_count h k groups :
  count_in h (bump k groups) = count_in h groups + (if h =? k then 1 else 0).
Proof.
  induction groups as [|[k' n] rest IH].
  - cbn [bump]. rewrite count_in_cons. cbn [fst snd]. rewrite (Z.eqb_sym k h). 
    unfold count_in. simpl. lia.
  - cbn [bump]. destruct (Z.eqb_spec k k') as [->|Hne].
    + rewrite !count_in_cons. cbn [fst snd]. rewrite (Z.eqb_sym h k').
      destruct (k' =? h); lia.
    + destruct (k <? k').
      * rewrite !count_in_cons. cbn [fst snd]. rewrite (Z.eqb_sym h k).
        destruct (k =? h), (k' =? h); lia.
      * rewrite !count_in_cons, IH. lia.
Qed.

Lemma occurrences_cons h k ks :
  occurrences h (k :: ks) = (if h =? k then 1 else 0) + occurrences h ks.
Proof. unfold occurrences. simpl. destruct (h =? k); simpl length; lia. Qed.

Lemma tally_count h ks : count_in h (tally ks) = occurrences h ks.
Proof.
  unfold tally.
  enough (Hgen : forall groups,
             count_in h (fold_left (fun g k => bump k g) ks groups)
             = count_in h groups + occurrences h ks) by apply (Hgen []).
  induction ks as [|k ks IH]; intros groups; cbn [fold_left].
  - unfold occurrences. simpl. lia.
  - rewrite IH, bump_count, occurrences_cons. lia.
Qed.

Lemma bump_keys x k groups :
  x ∈ map fst (bump k groups) -> x = k \/ x ∈ map fst groups.
Proof.
  induction groups as [|[k' n] rest IH]; cbn [bump].
  - simpl. intros Hx. apply list_elem_of_singleton in Hx. now left.
  - destruct (k =? k'); [now right|]. destruct (k <? k').
    + cbn [map fst]. rewrite elem_of_cons. tauto.
    + cbn [map fst]. rewrite !elem_of_cons. intros [->|Hx]; [right; now left|].
      destruct (IH Hx); [now left | right; now right].
Qed.

Lemma bump_sorted k groups :
  StronglySorted Z.lt (map fst groups) -> StronglySorted Z.lt (map fst (bump k groups)).
Proof.
  induction groups as [|[k' n] rest IH]; cbn [bump].
  - intros _. repeat constructor.
  - cbn [map fst]. intros Hs. apply StronglySorted_inv in Hs as [Hs Hall].
    destruct (Z.eqb_spec k k') as [->|Hne]; [now constructor|].
    destruct (Z.ltb_spec k k') as [Hlt|Hge]; cbn [map fst].
    + constructor; [now constructor|]. constructor; [exact Hlt|].
      eapply Forall_impl; [exact Hall|]. simpl. intros. lia.
    + constructor; [now apply IH|]. apply Forall_forall. intros x Hx.
      destruct (bump_keys _ _ _ Hx) as [->|Hx']; [lia|].
      rewrite Forall_forall in Hall. now apply Hall.
Qed.

Lemma tally_sorted ks : StronglySorted Z.lt (map fst (tally ks)).
Proof.
  unfold tally.
  enough (Hgen : forall groups,
             StronglySorted Z.lt (map fst groups) ->
             StronglySorted Z.lt (map fst (fold_left (fun g k => bump k g) ks groups)))
    by (apply Hgen; constructor).
  induction ks as [|k ks IH]; intros groups Hs; cbn [fold_left]; [exact Hs|].
  now apply IH, bump_sorted.
Qed.

Lemma count_in_absent h groups : h ∉ map fst groups -> count_in h groups = 0.
Proof.
  induction groups as [|[k n] rest IH]; [reflexivity|].
  cbn [map fst]. rewrite not_elem_of_cons. intros [Hne Hrest].
  rewrite count_in_cons, (IH Hrest). cbn [fst snd].
  destruct (Z.eqb_spec k h); [congruence | lia].
Qed.

Lemma count_in_present h groups :
  0 < count_in h groups -> exists n, (h, n) ∈ groups.
Proof.
  induction groups as [|[k n] rest IH]; [unfold count_in; simpl; lia|].
  rewrite count_in_cons. cbn [fst snd]. destruct (Z.eqb_spec k h) as [->|Hne].
  - intros _. exists n. left.
  - intros Hpos. destruct IH as [m Hm]; [lia|]. exists m. now right.
Qed.

Lemma sorted_count h n groups :
  StronglySorted Z.lt (map fst groups) -> (h, n) ∈ groups -> count_in h groups = n.
Proof.
  induction groups as [|[k m] rest IH]; [intros _ Hin; now apply elem_of_nil in Hin|].
  cbn [map fst]. intros Hs Hin. apply StronglySorted_inv in Hs as [Hs Hall].
  rewrite Forall_forall in Hall. rewrite count_in_cons. cbn [fst snd].
  apply elem_of_cons in Hin as [[= -> ->]|Hin].
  - rewrite Z.eqb_refl, count_in_absent; [lia|].
    intros Hk. apply Hall in Hk. lia.
  - assert (Hlt : k < h).
    { apply Hall. change h with (fst (h, n)). change (map fst rest) with (fst <$> rest).
      now apply list_elem_of_fmap_2. }
    destruct (Z.eqb_spec k h); [lia|]. rewrite (IH Hs Hin). lia.
Qed.





(** The rows of the hourly table are already in the order [sort_values]
    asks for. *)
Lemma sort_hours_id groups :
  StronglySorted Z.lt (map fst groups) ->
  foldr (insert_row
           (fun r r' => comes_before true (at_label ["hour"; "pickups"] r "hour")
                          (at_label ["hour"; "pickups"] r' "hour")))
    [] (map (fun g => [VInt (fst g); VInt (snd g)]) groups)
  = map (fun g => [VInt (fst g); VInt (snd g)]) groups.
Proof.
  induction groups as [|[k n] rest IH]; [reflexivity|].
  cbn [map fst]. intros Hs. apply StronglySorted_inv in Hs as [Hs Hall].
  cbn [foldr]. rewrite (IH Hs). destruct rest as [|[k' n'] rest']; [reflexivity|].
  cbn [map insert_row fst snd]. 
  replace (comes_before true (at_label ["hour"; "pickups"] [VInt k'; VInt n'] "hour")
             (at_label ["hour"; "pickups"] [VInt k; VInt n] "hour"))
    with (k' <? k) by reflexivity.
  apply Forall_inv in Hall. cbn in Hall.
  destruct (Z.ltb_spec k' k); [lia | reflexivity].
Qed.

Lemma canonical_hour_keys_ints f :
  canonical f = true ->
  hour_keys f = map (fun h => [VInt h]) (map (hour_int (columns f)) (data f)).
Proof.
  intros Hcan. unfold hour_keys. rewrite map_map.
  assert (Hext : forall row, row ∈ data f ->
             map (at_label (columns f) row) ["hour"] = [VInt (hour_int (columns f) row)]).
  { intros row Hrow.
    destruct (canonical_row_inv _ _ (canonical_rows _ _ Hcan Hrow))
      as (ns & b & _ & _ & Hh & _).
    unfold hour_int. cbn [map]. now rewrite Hh. }
  rewrite filter_all.
  - apply map_ext_in. intros row Hrow. apply Hext. now apply list_elem_of_In.
  - intros k Hk. change (map ?g ?l) with (g <$> l) in Hk.
    apply list_elem_of_fmap in Hk as (row & -> & Hrow). now rewrite (Hext row Hrow).
Qed.

Lemma occurrences_rows_with f h :
  canonical f = true ->
  occurrences h (map (hour_int (columns f)) (data f)) = rows_with f "hour" (VInt h).
Proof.
  intros Hcan. unfold occurrences, rows_with.
  rewrite filter_map_comm, length_map. do 2 f_equal.
  apply filter_ext_in. intros row Hrow.
  destruct (canonical_row_inv _ _ (canonical_rows _ _ Hcan Hrow))
    as (ns & b & _ & _ & Hh & _).
  unfold hour_int. rewrite Hh. cbn [value_eqb]. apply Z.eqb_sym.
Qed.

(** X12: the hourly table of a filtered canonical table has the columns
    hour and pickups and one row for each hour that occurs, in strictly
    increasing order of the hour; the pickups of a row are the number of
    filtered rows with that hour. *)
Theorem hour_counts_rows t w :
  canonical t = true ->
  exists f hc (groups : list (Z * Z)),
    filtered t w = Ok f
    /\ hour_counts f = Ok hc
    /\ columns hc = ["hour"; "pickups"]
    /\ data hc = map (fun g => [VInt (fst g); VInt (snd g)]) groups
    /\ StronglySorted Z.lt (map fst groups)
    /\ (forall h n, (h, n) ∈ groups -> n = rows_with f "hour" (VInt h) /\ 0 < n)
    /\ (forall h, 0 < rows_with f "hour" (VInt h) -> exists n, (h, n) ∈ groups).
Proof.
  intros Hcan.
  destruct (filtered_canonical t w _ Hcan (filtered_passes t w Hcan)) as (Hf & _).
  set (f := mkDF (columns t) (List.filter (passes (columns t) w) (data t))) in *.
  set (hs := map (hour_int (columns f)) (data f)).
  exists f. eexists. exists (tally hs).
  split; [now apply filtered_passes|].
  split; [apply hour_counts_Ok; apply canonical_columns; [exact Hf | in_labels]|].
  cbn [columns data]. split; [reflexivity|].
  rewrite (canonical_hour_keys_ints f Hf), group_sizes_ints. fold hs.
  unfold keyed_groups. rewrite map_map. cbn [group_row fst snd app].
  split; [apply sort_hours_id, tally_sorted|].
  split; [apply tally_sorted|]. split.
  - intros h n Hin.
    pose proof (sorted_count h n _ (tally_sorted hs) Hin) as Hc.
    rewrite tally_count in Hc. unfold hs in Hc.
    rewrite (occurrences_rows_with f h Hf) in Hc. split; [now rewrite Hc|].
    assert (Hall : Forall (fun g : list value * Z => True /\ 0 < snd g)
                     (keyed_groups VInt (tally hs))).
    { rewrite <- group_sizes_ints. apply (group_sizes_Forall (fun _ => True)).
      apply Forall_forall. intros; exact I. }
    rewrite Forall_forall in Hall.
    destruct (Hall ([VInt h], n)) as [_ Hpos]; [|exact Hpos].
    unfold keyed_groups. change (map ?g ?l) with (g <$> l).
    apply list_elem_of_fmap. now exists (h, n).
  - intros h Hpos. apply count_in_present.
    rewrite tally_count. unfold hs. now rewrite (occurrences_rows_with f h Hf).
Qed.

End HourExtras.

(** ** More about the top places, the map, the KPIs and the date widget *)

Section PageExtras.
Context `{Pandas}.

Lemma setitem_assign df c h c' g :
  setitem (assign df c h) c' (map g (data df))
  = mkDF (add_label c' (add_label c (columns df)))
      (map (fun row => put (add_label c (columns df)) c' (g row)
                         (put (columns df) c (h row) row))
         (data df)).
Proof.
  set (cols := add_label c (columns df)).
  unfold setitem. cbn [assign columns data]. fold cols.
  destruct (col_index c' cols) as [i|] eqn:Ei.
  - assert (Hcols : add_label c' cols = cols).
    { unfold add_label. rewrite bool_decide_eq_true_2; [reflexivity|].
      apply list_elem_of_lookup. exists i. now apply col_index_lookup. }
    rewrite Hcols, zip_with_map_map. f_equal. apply map_ext. intros row.
    unfold put. fold cols. now rewrite Ei.
  - assert (Hcols : add_label c' cols = cols ++ [c']).
    { unfold add_label. apply col_index_None in Ei.
      now rewrite bool_decide_eq_false_2. }
    rewrite Hcols, zip_with_map_map. f_equal. apply map_ext. intros row.
    unfold put. fold cols. now rewrite Ei.
Qed.

Lemma quantized_keys_buckets f :
  quantized_keys f
  = List.filter (forallb (fun v => negb (isna v))) (map (bucket (columns f)) (data f)).
Proof.
  unfold quantized_keys, with_rounded.
  rewrite !map_map, setitem_map.
  rewrite (setitem_assign f "lat_q" _ "lon_q"
             (fun row => round_value 3 (at_label (columns f) row LON_COL))).
  cbn [columns data]. rewrite map_map. f_equal. apply map_ext. intros row.
  cbn [map]. now rewrite !at_label_put.
Qed.

Lemma sum_Z_app l l' : sum_Z (l ++ l') = sum_Z l + sum_Z l'.
Proof. induction l as [|x l IH]; simpl; lia. Qed.

Lemma sum_Z_nonneg l : Forall (fun n => 0 <= n) l -> 0 <= sum_Z l.
Proof. induction 1; simpl; lia. Qed.

Lemma sum_Z_take n l : Forall (fun n => 0 <= n) l -> sum_Z (take n l) <= sum_Z l.
Proof.
  intros Hall. rewrite <- (take_drop n l) at 2. rewrite sum_Z_app.
  assert (0 <= sum_Z (drop n l)); [|lia].
  apply sum_Z_nonneg. rewrite <- (take_drop n l) in Hall.
  now apply Forall_app in Hall as [_ ?].
Qed.

(** X13: the top-places table of a filtered canonical table has the
    columns lat_q, lon_q and size; each of its rows is the bucket of some
    filtered row, its coordinates rounded to three decimals, with a count
    of at least one; the counts add up to no more than the number of
    filtered rows, and to exactly the rows with a bucket when fewer than
    ten buckets are shown. *)
Theorem quantized_top_rows t w :
  canonical t = true ->
  exists f q,
    filtered t w = Ok f
    /\ quantized f = Ok q
    /\ columns q = ["lat_q"; "lon_q"; "size"]
    /\ (forall row, row ∈ data q ->
          exists r n, r ∈ data f /\ row = bucket (columns f) r ++ [VInt n] /\ 1 <= n)
    /\ sum_Z (map count_of (data q)) <= Z.of_nat (len f)
    /\ ((len q < 10)%nat ->
        sum_Z (map count_of (data q)) = Z.of_nat (length (quantized_keys f))).
Proof.
  intros Hcan.
  destruct (filtered_canonical t w _ Hcan (filtered_passes t w Hcan)) as (Hf & _).
  set (f := mkDF (columns t) (List.filter (passes (columns t) w) (data t))) in *.
  set (groups := group_sizes (quantized_keys f)).
  set (sorted := foldr (insert_row larger_first) [] (map group_row groups)).
  exists f, (mkDF ["lat_q"; "lon_q"; "size"] (take 10 sorted)).
  split; [now apply filtered_passes|]. split; [now apply quantized_Ok|].
  split; [reflexivity|]. cbn [data].
  assert (Hgroups : Forall (fun g => (exists r, r ∈ data f /\ fst g = bucket (columns f) r)
                                     /\ 0 < snd g) groups).
  { apply (group_sizes_Forall (fun k => exists r, r ∈ data f /\ k = bucket (columns f) r)).
    apply Forall_forall. intros k Hk. rewrite quantized_keys_buckets in Hk.
    apply filter_elem_of in Hk as [Hk _]. change (map ?g ?l) with (g <$> l) in Hk.
    apply list_elem_of_fmap in Hk as (r & -> & Hr). now exists r. }
  assert (Hsum : sum_Z (map count_of sorted) = Z.of_nat (length (quantized_keys f))).
  { rewrite <- group_sizes_sum. fold groups.
    transitivity (sum_Z (map count_of (map group_row groups))).
    - apply sum_Z_perm, Permutation_map, sort_rows_perm.
    - rewrite map_map. f_equal. apply map_ext. intros g. apply count_of_group_row. }
  assert (Hpos : Forall (fun n => 0 <= n) (map count_of sorted)).
  { apply Forall_forall. intros n Hn. change (map ?g ?l) with (g <$> l) in Hn.
    apply list_elem_of_fmap in Hn as (row & -> & Hrow).
    unfold sorted in Hrow. rewrite sort_rows_perm in Hrow.
    destruct (top_group_row f row Hrow). lia. }
  split; [|split].
  - intros row Hrow. apply elem_of_take in Hrow as (i & Hi & _).
    apply list_elem_of_lookup_2 in Hi. unfold sorted in Hi.
    rewrite sort_rows_perm in Hi. change (map ?g ?l) with (g <$> l) in Hi.
    apply list_elem_of_fmap in Hi as ([k n] & -> & Hg).
    rewrite Forall_forall in Hgroups. destruct (Hgroups _ Hg) as ((r & Hr & Hk) & Hn).
    cbn [fst snd] in *. exists r, n. unfold group_row. cbn [fst snd].
    split; [exact Hr|]. split; [now rewrite Hk | lia].
  - rewrite <- (firstn_map count_of). etransitivity; [apply sum_Z_take, Hpos|].
    rewrite Hsum, quantized_keys_buckets. unfold len.
    apply inj_le. etransitivity; [apply filter_length_le|]. now rewrite length_map.
  - unfold len. cbn [data]. intros Hlt. rewrite take_ge; [exact Hsum|].
    rewrite length_take in Hlt. lia.
Qed.




(** The page of a canonical table, field by field. *)
Lemma render_parts t w :
  canonical t = true ->
  exists d f m,
    render t w = Ok d
    /\ filtered t w = Ok f /\ canonical f = true
    /\ map_tab f = Ok m /\ tab_map d = m
    /\ kpi_rides d = len f
    /\ kpi_days d = nunique (map (fun row => at_label (columns f) row "date") (data f))
    /\ kpi_bases d = nunique (map (fun row => at_label (columns f) row BASE_COL) (data f))
    /\ data_table d
       = mkDF table_labels
           (map (fun row => map (at_label (columns f) row) table_labels) (data f)).
Proof.
  intros Hcan.
  destruct (filtered_canonical t w _ Hcan (filtered_passes t w Hcan)) as (Hf & Hcols & _).
  set (f := mkDF (columns t) (List.filter (passes (columns t) w) (data t))) in *.
  assert (Hin : forall c, c ∈ canonical_labels -> c ∈ columns t)
    by (intros c; now apply canonical_columns).
  assert (Hinf : forall c, c ∈ canonical_labels -> c ∈ columns f)
    by (intros c; now apply canonical_columns).
  destruct (map_tab_Ok f) as (m & Hm & _); [apply Hinf; in_labels | apply Hinf; in_labels |].
  unfold render, min_date, max_date.
  rewrite (getitem_Ok t "datetime") by (apply Hin; in_labels).
  cbn [mbind result_bind]. rewrite (filtered_passes t w Hcan). fold f.
  cbn [mbind result_bind].
  rewrite (getitem_Ok f "date") by (apply Hinf; in_labels). cbn [mbind result_bind].
  rewrite (getitem_Ok f BASE_COL) by (apply Hinf; in_labels). cbn [mbind result_bind].
  rewrite (hour_counts_Ok f) by (apply Hinf; in_labels). cbn [mbind result_bind].
  rewrite (quantized_Ok f Hf). cbn [mbind result_bind].
  rewrite Hm. cbn [mbind result_bind].
  rewrite getitems_Ok.
  2:{ intros c Hc. apply Hinf. revert Hc. unfold canonical_labels.
      rewrite !elem_of_cons. tauto. }
  cbn [mbind result_bind].
  eexists _, f, m. split; [reflexivity|].
  cbn [tab_map kpi_rides kpi_days kpi_bases data_table].
  repeat split; try assumption; try reflexivity.
Qed.

(** X14: when the filters leave at least one row of a canonical table,
    the map tab shows a deck centred on the average latitude and longitude
    of the filtered rows, with a heat-map layer and then a scatter layer
    over the same table of points: the lat and lon of each filtered row,
    in row order, every one a number. *)
Theorem map_tab_points t w f :
  canonical t = true ->
  filtered t w = Ok f ->
  data f <> [] ->
  exists d,
    render t w = Ok d
    /\ tab_map d
       = Deck (np_average (map (fun row => at_label (columns f) row LAT_COL) (data f)))
           (np_average (map (fun row => at_label (columns f) row LON_COL) (data f)))
           [("HeatmapLayer", map_points f); ("ScatterplotLayer", map_points f)]
    /\ len (map_points f) = len f
    /\ (forall p, p ∈ data (map_points f) -> Forall (fun v => is_number v = true) p).
Proof.
  intros Hcan Hf Hne.
  destruct (render_parts t w Hcan)
    as (d & f' & m & Hd & Hf' & Hcanf & Hm & Htab & _).
  rewrite Hf in Hf'. injection Hf' as <-.
  assert (HLa : LAT_COL ∈ columns f) by (apply canonical_columns; [exact Hcanf | in_labels]).
  assert (HLo : LON_COL ∈ columns f) by (apply canonical_columns; [exact Hcanf | in_labels]).
  exists d. split; [exact Hd|]. split; [|split].
  - rewrite Htab. unfold map_tab, get_map_layers in Hm.
    assert (E : empty f = false).
    { unfold empty. destruct (data f) as [|row rows]; [congruence|].
      destruct (columns f); [now apply elem_of_nil in HLa | reflexivity]. }
    rewrite E, (getitem_Ok _ _ HLa), (getitem_Ok _ _ HLo) in Hm.
    cbn [mbind result_bind] in Hm. rewrite getitems_Ok in Hm.
    2:{ intros c Hc. apply elem_of_cons in Hc as [->|Hc]; [exact HLa|].
        now apply list_elem_of_singleton in Hc as ->. }
    cbn [mbind result_bind fst snd] in Hm. injection Hm as <-. reflexivity.
  - unfold len, map_points. cbn [data]. apply length_map.
  - intros p Hp. unfold map_points in Hp. cbn [data] in Hp.
    change (map ?g ?l) with (g <$> l) in Hp.
    apply list_elem_of_fmap in Hp as (row & -> & Hrow).
    destruct (canonical_row_inv _ _ (canonical_rows _ _ Hcanf Hrow))
      as (ns & b & _ & _ & _ & _ & _ & HnLa & HnLo).
    repeat constructor; assumption.
Qed.



Lemma series_extreme_attained (better : value -> value -> bool) col :
  (forall v, v ∈ col -> isna v = false) ->
  col <> [] ->
  series_extreme better col ∈ col.
Proof.
  unfold series_extreme.
  set (step := fun best v => if isna v then best
                             else if isna best then v
                             else if better v best then v else best).
  assert (Hkeep : forall col b,
             isna b = false ->
             (forall v, v ∈ col -> isna v = false) ->
             foldl step b col = b \/ foldl step b col ∈ col).
  { clear col. induction col as [|v col IH]; intros b Hb Hall; [now left|].
    cbn [foldl]. assert (Hv : isna v = false) by (apply Hall; left).
    assert (Hcol : forall u, u ∈ col -> isna u = false)
      by (intros u Hu; apply Hall; now right).
    assert (Hs : step b v = if better v b then v else b)
      by (unfold step; now rewrite Hv, Hb).
    rewrite Hs. destruct (better v b).
    - destruct (IH v Hv Hcol) as [->|Hin]; right; [left | now right].
    - destruct (IH b Hb Hcol) as [->|Hin]; [now left | right; now right]. }
  intros Hall Hne. destruct col as [|v col]; [congruence|].
  cbn [foldl]. assert (Hv : isna v = false) by (apply Hall; left).
  assert (Hs : step VNaT v = v) by (unfold step; now rewrite Hv).
  rewrite Hs.
  destruct (Hkeep col v Hv) as [->|Hin]; [|left | now right].
  intros u Hu. apply Hall. now right.
Qed.

(** X16: the defaults of the date widget.  For a canonical table with at
    least one row, the first and the last day are dates, each the date of
    some row, the first no later than the last, and every row's date lies
    between them; for a canonical table with no row both are NaT. *)
Theorem default_dates t :
  canonical t = true ->
  (data t = [] -> min_date t = Ok VNaT /\ max_date t = Ok VNaT)
  /\ (data t <> [] ->
      exists s e,
        min_date t = Ok (VDate s) /\ max_date t = Ok (VDate e)
        /\ s <= e
        /\ spans t s e
        /\ (exists row, row ∈ data t /\ at_label (columns t) row "date" = VDate s)
        /\ (exists row, row ∈ data t /\ at_label (columns t) row "date" = VDate e)).
Proof.
  intros Hcan.
  assert (Hc : "datetime" ∈ columns t) by (apply canonical_columns; [exact Hcan | in_labels]).
  split.
  - intros Hd. unfold min_date, max_date. rewrite (getitem_Ok _ _ Hc), Hd. now split.
  - intros Hne.
    set (col := map (fun row => at_label (columns t) row "datetime") (data t)).
    assert (Hall : forall v, v ∈ col -> isna v = false).
    { intros v Hv. subst col. change (map ?g ?l) with (g <$> l) in Hv.
      apply list_elem_of_fmap in Hv as (r & -> & Hr).
      now destruct (canonical_row_inv _ _ (canonical_rows _ _ Hcan Hr)) as (z & _ & -> & _). }
    assert (Hcol : col <> []).
    { subst col. destruct (data t); [congruence | discriminate]. }
    assert (Hpick : forall better,
               exists row ns, row ∈ data t
                 /\ series_extreme better col = VTimestamp ns
                 /\ at_label (columns t) row "date" = VDate (Calendar.date_of ns)).
    { intros better. pose proof (series_extreme_attained better col Hall Hcol) as Hin.
      unfold col in Hin at 2. change (map ?g ?l) with (g <$> l) in Hin.
      apply list_elem_of_fmap in Hin as (row & E & Hrow).
      destruct (canonical_row_inv _ _ (canonical_rows _ _ Hcan Hrow))
        as (ns & b & Hdt & Hdate & _).
      exists row, ns. split; [exact Hrow|]. split; [exact (eq_trans E Hdt) | exact Hdate]. }
    destruct (Hpick value_ltb) as (rmin & nmin & Hrmin & Emin & Hdmin).
    destruct (Hpick (fun a b => value_ltb b a)) as (rmax & nmax & Hrmax & Emax & Hdmax).
    assert (Hmin : min_date t = Ok (VDate (Calendar.date_of nmin))).
    { unfold min_date. rewrite (getitem_Ok _ _ Hc). cbn [mbind result_bind].
      fold col. unfold series_min. now rewrite Emin. }
    assert (Hmax : max_date t = Ok (VDate (Calendar.date_of nmax))).
    { unfold max_date. rewrite (getitem_Ok _ _ Hc). cbn [mbind result_bind].
      fold col. unfold series_max. now rewrite Emax. }
    pose proof (default_range_spans t _ _ Hcan Hmin Hmax) as Hspans.
    exists (Calendar.date_of nmin), (Calendar.date_of nmax).
    split; [exact Hmin|]. split; [exact Hmax|]. split; [|split; [exact Hspans|split]].
    + destruct (Hspans rmin Hrmin) as (d & Hd & Hle). rewrite Hdmin in Hd.
      injection Hd as <-. lia.
    + now exists rmin.
    + now exists rmax.
Qed.

End PageExtras.

(** ** The script as a whole *)

Section ScriptExtras.
Context `{PythonLaws}.

Lemma filter_none {A} (p : A -> bool) l :
  (forall x, x ∈ l -> p x = false) -> List.filter p l = [].
Proof.
  induction l as [|x l IH]; [reflexivity|]. intros Hall. simpl.
  rewrite (Hall x) by left. apply IH. intros y Hy. apply Hall. now right.
Qed.

Lemma unique_elem_of s v : v ∈ unique s -> v ∈ s.
Proof.
  induction s as [|u s IH]; [trivial|]. cbn [unique]. intros Hv.
  apply elem_of_cons in Hv as [->|Hv]; [left|].
  apply filter_elem_of in Hv as [Hv _]. right. now apply IH.
Qed.

(** The first and the last day of a canonical table with a row *)
Lemma first_last_day t :
  canonical t = true -> data t <> [] ->
  exists s e, min_date t = Ok (VDate s) /\ max_date t = Ok (VDate e) /\ s <= e.
Proof.
  intros Hcan Hne.
  assert (Hc : "datetime" ∈ columns t) by (apply canonical_columns; [exact Hcan | in_labels]).
  set (col := map (fun row => at_label (columns t) row "datetime") (data t)).
  assert (Hall : forall v, v ∈ col -> isna v = false).
  { intros v Hv. subst col. change (map ?g ?l) with (g <$> l) in Hv.
    apply list_elem_of_fmap in Hv as (r & -> & Hr).
    now destruct (canonical_row_inv _ _ (canonical_rows _ _ Hcan Hr)) as (z & _ & -> & _). }
  assert (Hcol : col <> []).
  { subst col. destruct (data t); [congruence | discriminate]. }
  assert (Hpick : forall better,
             exists row ns, row ∈ data t
               /\ series_extreme better col = VTimestamp ns
               /\ at_label (columns t) row "date" = VDate (Calendar.date_of ns)).
  { intros better. pose proof (series_extreme_attained better col Hall Hcol) as Hin.
    unfold col in Hin at 2. change (map ?g ?l) with (g <$> l) in Hin.
    apply list_elem_of_fmap in Hin as (row & E & Hrow).
    destruct (canonical_row_inv _ _ (canonical_rows _ _ Hcan Hrow))
      as (ns & b & Hdt & Hdate & _).
    exists row, ns. split; [exact Hrow|]. split; [exact (eq_trans E Hdt) | exact Hdate]. }
  destruct (Hpick value_ltb) as (rmin & nmin & Hrmin & Emin & Hdmin).
  destruct (Hpick (fun a b => value_ltb b a)) as (rmax & nmax & Hrmax & Emax & Hdmax).
  assert (Hmin : min_date t = Ok (VDate (Calendar.date_of nmin))).
  { unfold min_date. rewrite (getitem_Ok _ _ Hc). cbn [mbind result_bind].
    fold col. unfold series_min. now rewrite Emin. }
  assert (Hmax : max_date t = Ok (VDate (Calendar.date_of nmax))).
  { unfold max_date. rewrite (getitem_Ok _ _ Hc). cbn [mbind result_bind].
    fold col. unfold series_max. now rewrite Emax. }
  exists (Calendar.date_of nmin), (Calendar.date_of nmax).
  split; [exact Hmin|]. split; [exact Hmax|].
  destruct (default_range_spans t _ _ Hcan Hmin Hmax rmin Hrmin) as (d & Hd & Hle).
  rewrite Hdmin in Hd. injection Hd as <-. lia.
Qed.

(** X3: what a valid input makes of the script.  If no row of the input
    is kept, the table is loaded with no row, the date widget is given NaT
    for its defaults and raises: the run ends there with that exception,
    which nothing catches, and no page.  If a row is kept and every base
    comes out as text, the sidebar opens and the page is shown, for any
    widget values: it shows as many rides as the filters keep, never more
    than were loaded, and never more loaded than read. *)
Theorem script_valid_input source max_rows w raw :
  read_csv source (Some max_rows) = Ok raw ->
  valid_input raw = true ->
  ((forall r, r ∈ data raw -> kept (columns (normalized raw)) r = false) ->
   exists t e,
     load_data source (Some max_rows) = Ok t /\ data t = []
     /\ min_date t = Ok VNaT /\ max_date t = Ok VNaT
     /\ script source max_rows w = Raise e)
  /\ ((exists r, r ∈ data raw /\ kept (columns (normalized raw)) r = true) ->
      bases_are_text raw = true ->
      exists t f d,
        load_data source (Some max_rows) = Ok t
        /\ filtered t w = Ok f
        /\ script source max_rows w = Ok (Page d)
        /\ kpi_rides d = len f
        /\ (len f <= len t)%nat /\ (len t <= len raw)%nat).
Proof.
  intros Hread Hv. pose proof (load_data_valid _ _ _ Hread Hv) as Hload.
  destruct (valid_input_inv _ Hv) as (Hwf & _).
  pose proof (load_data_shaped _ _ _ _ Hread Hwf Hload) as Hshape.
  pose proof Hwf as Hwf'.
  apply andb_true_iff in Hwf' as [_ Hdt]. apply negb_true_iff, has_column_false in Hdt.
  destruct (loaded_rows _ Hdt) as (ff & Hrows & _).
  set (t := loaded (normalized raw)) in *.
  assert (Hc : "datetime" ∈ columns t) by (apply shaped_columns; [exact Hshape | in_labels]).
  split.
  - intros Hnone.
    assert (Hempty : data t = []).
    { rewrite Hrows. cbn [data normalized]. now rewrite (filter_none _ _ Hnone). }
    assert (Hmin : min_date t = Ok VNaT).
    { unfold min_date. rewrite (getitem_Ok _ _ Hc), Hempty. reflexivity. }
    assert (Hmax : max_date t = Ok VNaT).
    { unfold max_date. rewrite (getitem_Ok _ _ Hc), Hempty. reflexivity. }
    destruct date_input_NaT as [e He].
    exists t, e. split; [exact Hload|]. split; [exact Hempty|].
    split; [exact Hmin|]. split; [exact Hmax|].
    unfold script. rewrite Hload, Hmin, Hmax. cbn [mbind result_bind].
    now rewrite He.
  - intros (r & Hr & Hk) Hbases.
    pose proof (load_data_canonical _ _ _ _ Hread Hwf Hbases Hload) as Hcan.
    fold t in Hcan.
    assert (Hne : data t <> []).
    { rewrite Hrows. cbn [data normalized].
      assert (Hin : r ∈ List.filter (kept (columns (normalized raw))) (data raw))
        by (apply filter_elem_of; now split).
      destruct (List.filter _ (data raw)); [now apply elem_of_nil in Hin | discriminate]. }
    destruct (first_last_day t Hcan Hne) as (s & e & Hmin & Hmax & Hle).
    destruct (render_Ok t w Hcan)
      as (d & f & lo & hi & Hd & Hf & _ & _ & _ & _ & Hn & _).
    assert (Hb : BASE_COL ∈ columns t) by (apply canonical_columns; [exact Hcan | in_labels]).
    destruct (py_sorted_text
                (unique (map (fun row => at_label (columns t) row BASE_COL) (data t))))
      as [sorted Hsorted].
    { apply forallb_elem_of. intros v Hin. apply unique_elem_of in Hin.
      change (map ?g ?l) with (g <$> l) in Hin.
      apply list_elem_of_fmap in Hin as (row & -> & Hrow).
      now destruct (canonical_row_inv _ _ (canonical_rows _ _ Hcan Hrow))
        as (ns & b & _ & _ & _ & _ & -> & _). }
    exists t, f, d.
    split; [exact Hload|]. split; [exact Hf|]. split.
    { unfold script. rewrite Hload, Hmin, Hmax. cbn [mbind result_bind].
      rewrite (date_input_dates _ _ Hle). cbn [mbind result_bind].
      rewrite (getitem_Ok _ _ Hb). cbn [mbind result_bind].
      rewrite Hsorted. cbn [mbind result_bind]. now rewrite Hd. }
    split; [exact Hn|].
    destruct (filtered_canonical _ _ _ Hcan Hf) as (_ & _ & Hdata).
    unfold len. split; [rewrite Hdata; apply filter_length_le|].
    rewrite Hrows, length_map. apply filter_length_le.
Qed.

End ScriptExtras.

(** ** Runs of the further properties on the sample inputs *)

Section MoreRuns.
#[local] Existing Instance Samples.library.
#[local] Existing Instance samples_laws.

Example no_lon_error :
  load_data "no_lon.csv" None = Raise (KeyError "['lon']").
Proof. vm_compute. reflexivity. Qed.

Example shouted_loaded : load_data "SHOUTED.csv" None = Ok Demo.pickups_table.
Proof. vm_compute. reflexivity. Qed.

Example fares_loaded : load_data "fares.csv" None = Ok Samples.fares_table.
Proof. vm_compute. reflexivity. Qed.

Example fares_rows : len Samples.fares = 3%nat /\ len Samples.fares_table = 2%nat.
Proof. split; reflexivity. Qed.

Example midnight_rides_rows :
  len Samples.midnight_rides = 2%nat /\ len Samples.midnight_one_base = 1%nat.
Proof. split; reflexivity. Qed.

(** *** X1 *)


(** *** X3 *)

Lemma script_valid_input_witness :
  read_csv "fares.csv" (Some 100) = Ok Samples.fares
  /\ valid_input Samples.fares = true
  /\ ((forall r, r ∈ data Samples.fares ->
                 kept (columns (normalized Samples.fares)) r = false) ->
      exists t e,
        load_data "fares.csv" (Some 100) = Ok t /\ data t = []
        /\ min_date t = Ok VNaT /\ max_date t = Ok VNaT
        /\ script "fares.csv" 100 Demo.five_o_clock = Raise e)
  /\ ((exists r, r ∈ data Samples.fares
                 /\ kept (columns (normalized Samples.fares)) r = true) ->
      bases_are_text Samples.fares = true ->
      exists t f d,
        load_data "fares.csv" (Some 100) = Ok t
        /\ filtered t Demo.five_o_clock = Ok f
        /\ script "fares.csv" 100 Demo.five_o_clock = Ok (Page d)
        /\ kpi_rides d = len f
        /\ (len f <= len t)%nat /\ (len t <= len Samples.fares)%nat).
Proof.
  assert (Hr : read_csv "fares.csv" (Some 100) = Ok Samples.fares) by reflexivity.
  assert (Hv : valid_input Samples.fares = true) by (vm_compute; reflexivity).
  exact (conj Hr (conj Hv
           (script_valid_input "fares.csv" 100 Demo.five_o_clock Samples.fares Hr Hv))).
Defined.

(** The fares are shown: two rows are kept, every base is text, and one
    of the two rows lies in the chosen range of dates. *)
Example fares_page :
  exists d, script "fares.csv" 100 Demo.no_filter = Ok (Page d) /\ kpi_rides d = 1%nat.
Proof. eexists. split; [vm_compute; reflexivity | reflexivity]. Qed.

(** No row of [all_bad] is kept: the table loads empty and the run ends at
    the date widget. *)
Example all_bad_stops :
  valid_input Samples.all_bad = true
  /\ (exists t, load_data "all_bad.csv" (Some 100) = Ok t /\ data t = [])
  /\ exists e, script "all_bad.csv" 100 Demo.no_filter = Raise e.
Proof.
  split; [vm_compute; reflexivity|]. split; eexists; [split|]; vm_compute; reflexivity.
Qed.

(** *** X4 *)

Lemma load_data_row_count_witness :
  read_csv "fares.csv" None = Ok Samples.fares
  /\ valid_input Samples.fares = true
  /\ exists t,
       load_data "fares.csv" None = Ok t
       /\ len t = length (List.filter (kept (columns (normalized Samples.fares)))
                            (data Samples.fares))
       /\ (len t <= len Samples.fares)%nat
       /\ (len t = len Samples.fares
           <-> forall r, r ∈ data Samples.fares ->
                         kept (columns (normalized Samples.fares)) r = true)
       /\ (forall r,
             to_datetime_elem (at_label (columns (normalized Samples.fares)) r DATE_COL_RAW)
             = None
             \/ isna (at_label (columns (normalized Samples.fares)) r LAT_COL) = true
             \/ isna (at_label (columns (normalized Samples.fares)) r LON_COL) = true ->
             kept (columns (normalized Samples.fares)) r = false).
Proof.
  assert (Hr : read_csv "fares.csv" None = Ok Samples.fares) by reflexivity.
  assert (Hv : valid_input Samples.fares = true) by (vm_compute; reflexivity).
  exact (conj Hr (conj Hv (load_data_row_count "fares.csv" None Samples.fares Hr Hv))).
Defined.

(** *** X5 *)

Lemma load_data_derived_columns_witness :
  read_csv "fares.csv" None = Ok Samples.fares
  /\ valid_input Samples.fares = true
  /\ exists t,
       load_data "fares.csv" None = Ok t
       /\ forall row, row ∈ data t ->
            exists ns wd,
              at_label (columns t) row "datetime" = VTimestamp ns
              /\ at_label (columns t) row "date" = VDate (ns / Calendar.ns_per_day)
              /\ at_label (columns t) row "hour" = VInt ((ns / Calendar.ns_per_hour) mod 24)
              /\ at_label (columns t) row "weekday" = VStr wd
              /\ wd = Calendar.day_name ns /\ wd ∈ weekday_names.
Proof.
  assert (Hr : read_csv "fares.csv" None = Ok Samples.fares) by reflexivity.
  assert (Hv : valid_input Samples.fares = true) by (vm_compute; reflexivity).
  exact (conj Hr (conj Hv (load_data_derived_columns "fares.csv" None Samples.fares Hr Hv))).
Defined.

(** *** X6 *)


(** In the fares one latitude does not read as a number, so the column
    comes back as floats and 40 and 41 are loaded as 40.0 and 41.0; every
    longitude reads as an integer and stays one. *)
Example fares_coordinates :
  reads_as_ints (normalized Samples.fares) LAT_COL = false
  /\ reads_as_ints (normalized Samples.fares) LON_COL = true
  /\ map (fun row => at_label (columns Samples.fares_table) row LAT_COL)
       (data Samples.fares_table)
     = [VFloat (float_of_Z 40); VFloat (float_of_Z 41)]
  /\ map (fun row => at_label (columns Samples.fares_table) row LON_COL)
       (data Samples.fares_table)
     = [VInt (-74); VInt (-73)].
Proof. repeat split; vm_compute; reflexivity. Qed.

(** *** X7 *)

Lemma load_data_columns_distinct_witness :
  read_csv "fares.csv" None = Ok Samples.fares
  /\ valid_input Samples.fares = true
  /\ exists t added,
       load_data "fares.csv" None = Ok t
       /\ columns t
          = map (fun c => if String.eqb c DATE_COL_RAW then "datetime" else c)
              (columns (normalized Samples.fares)) ++ added
       /\ added ⊆ ["date"; "hour"; "weekday"; BASE_COL]
       /\ NoDup (columns t)
       /\ DATE_COL_RAW ∉ columns t.
Proof.
  assert (Hr : read_csv "fares.csv" None = Ok Samples.fares) by reflexivity.
  assert (Hv : valid_input Samples.fares = true) by (vm_compute; reflexivity).
  exact (conj Hr (conj Hv (load_data_columns_distinct "fares.csv" None Samples.fares Hr Hv))).
Defined.

(** *** X8 *)

Lemma load_data_label_insensitive_witness :
  read_csv "pickups.csv" None = Ok Demo.pickups
  /\ blank " " = true /\ blank "  " = true
  /\ read_csv "SHOUTED.csv" None
     = Ok (mkDF (map (fun c => " " +:+ PyStr.upper c +:+ "  ") (columns Demo.pickups))
             (data Demo.pickups))
  /\ load_data "SHOUTED.csv" None = load_data "pickups.csv" None.
Proof.
  assert (Hr : read_csv "pickups.csv" None = Ok Demo.pickups) by reflexivity.
  assert (Hp : blank " " = true) by reflexivity.
  assert (Hp' : blank "  " = true) by reflexivity.
  assert (Hr' : read_csv "SHOUTED.csv" None
                = Ok (mkDF (map (fun c => " " +:+ PyStr.upper c +:+ "  ")
                              (columns Demo.pickups))
                        (data Demo.pickups))) by reflexivity.
  exact (conj Hr (conj Hp (conj Hp' (conj Hr'
           (load_data_label_insensitive "pickups.csv" None "SHOUTED.csv" None
              Demo.pickups " " "  " Hr Hp Hp' Hr'))))).
Defined.

(** *** X9 *)

Lemma filtered_rows_witness :
  canonical Demo.pickups_table = true
  /\ exists f,
       filtered Demo.pickups_table Samples.one_base = Ok f
       /\ columns f = columns Demo.pickups_table
       /\ data f = List.filter (passes (columns Demo.pickups_table) Samples.one_base)
                     (data Demo.pickups_table)
       /\ forall row,
            row ∈ data Demo.pickups_table ->
            (passes (columns Demo.pickups_table) Samples.one_base row = true
             <-> exists d h b,
                   at_label (columns Demo.pickups_table) row "date" = VDate d
                   /\ at_label (columns Demo.pickups_table) row "hour" = VInt h
                   /\ at_label (columns Demo.pickups_table) row BASE_COL = VStr b
                   /\ in_date_range (chosen_dates Samples.one_base) d
                   /\ (hours Samples.one_base = [] \/ h ∈ hours Samples.one_base)
                   /\ (base_sel Samples.one_base = [] \/ b ∈ base_sel Samples.one_base)).
Proof.
  assert (Hc : canonical Demo.pickups_table = true) by (vm_compute; reflexivity).
  exact (conj Hc (filtered_rows Demo.pickups_table Samples.one_base Hc)).
Defined.

(** A row that occurs twice and passes is kept twice. *)
Example twin_rows_kept :
  filtered (mkDF (columns Demo.pickups_table)
              (take 1 (data Demo.pickups_table) ++ take 1 (data Demo.pickups_table)))
    Demo.midnight_hour
  = Ok (mkDF (columns Demo.pickups_table)
          (take 1 (data Demo.pickups_table) ++ take 1 (data Demo.pickups_table))).
Proof. vm_compute. reflexivity. Qed.

(** *** X10 *)

Lemma filtered_idempotent_witness :
  canonical Demo.pickups_table = true
  /\ filtered Demo.pickups_table Demo.midnight_hour = Ok Samples.midnight_rides
  /\ filtered Samples.midnight_rides Demo.midnight_hour = Ok Samples.midnight_rides.
Proof.
  assert (Hc : canonical Demo.pickups_table = true) by (vm_compute; reflexivity).
  assert (Hf : filtered Demo.pickups_table Demo.midnight_hour = Ok Samples.midnight_rides)
    by (vm_compute; reflexivity).
  exact (conj Hc (conj Hf
           (filtered_idempotent Demo.pickups_table Demo.midnight_hour
              Samples.midnight_rides Hc Hf))).
Defined.

(** *** X11 *)

Lemma filtered_commutes_witness :
  canonical Demo.pickups_table = true
  /\ filtered Demo.pickups_table Demo.midnight_hour = Ok Samples.midnight_rides
  /\ filtered Samples.midnight_rides Samples.one_base = Ok Samples.midnight_one_base
  /\ exists f2,
       filtered Demo.pickups_table Samples.one_base = Ok f2
       /\ filtered f2 Demo.midnight_hour = Ok Samples.midnight_one_base
       /\ forall row, row ∈ data Samples.midnight_one_base
                      <-> row ∈ data Samples.midnight_rides /\ row ∈ data f2.
Proof.
  assert (Hc : canonical Demo.pickups_table = true) by (vm_compute; reflexivity).
  assert (Hf : filtered Demo.pickups_table Demo.midnight_hour = Ok Samples.midnight_rides)
    by (vm_compute; reflexivity).
  assert (Hg : filtered Samples.midnight_rides Samples.one_base
               = Ok Samples.midnight_one_base) by (vm_compute; reflexivity).
  exact (conj Hc (conj Hf (conj Hg
           (filtered_commutes Demo.pickups_table Demo.midnight_hour Samples.one_base
              Samples.midnight_rides Samples.midnight_one_base Hc Hf Hg)))).
Defined.

(** *** X12 *)

Lemma hour_counts_rows_witness :
  canonical Demo.pickups_table = true
  /\ exists f hc (groups : list (Z * Z)),
       filtered Demo.pickups_table Demo.no_filter = Ok f
       /\ hour_counts f = Ok hc
       /\ columns hc = ["hour"; "pickups"]
       /\ data hc = map (fun g => [VInt (fst g); VInt (snd g)]) groups
       /\ StronglySorted Z.lt (map fst groups)
       /\ (forall h n, (h, n) ∈ groups -> n = rows_with f "hour" (VInt h) /\ 0 < n)
       /\ (forall h, 0 < rows_with f "hour" (VInt h) -> exists n, (h, n) ∈ groups).
Proof.
  assert (Hc : canonical Demo.pickups_table = true) by (vm_compute; reflexivity).
  exact (conj Hc (hour_counts_rows Demo.pickups_table Demo.no_filter Hc)).
Defined.

(** *** X13 *)

Lemma quantized_top_rows_witness :
  canonical Demo.pickups_table = true
  /\ exists f q,
       filtered Demo.pickups_table Demo.no_filter = Ok f
       /\ quantized f = Ok q
       /\ columns q = ["lat_q"; "lon_q"; "size"]
       /\ (forall row, row ∈ data q ->
             exists r n, r ∈ data f /\ row = bucket (columns f) r ++ [VInt n] /\ 1 <= n)
       /\ sum_Z (map count_of (data q)) <= Z.of_nat (len f)
       /\ ((len q < 10)%nat ->
           sum_Z (map count_of (data q)) = Z.of_nat (length (quantized_keys f))).
Proof.
  assert (Hc : canonical Demo.pickups_table = true) by (vm_compute; reflexivity).
  exact (conj Hc (quantized_top_rows Demo.pickups_table Demo.no_filter Hc)).
Defined.

(** *** X14 *)

Lemma map_tab_points_witness :
  canonical Demo.pickups_table = true
  /\ filtered Demo.pickups_table Demo.midnight_hour = Ok Samples.midnight_rides
  /\ data Samples.midnight_rides <> []
  /\ exists d,
       render Demo.pickups_table Demo.midnight_hour = Ok d
       /\ tab_map d
          = Deck (np_average (map (fun row => at_label (columns Samples.midnight_rides)
                                                row LAT_COL)
                                (data Samples.midnight_rides)))
              (np_average (map (fun row => at_label (columns Samples.midnight_rides)
                                             row LON_COL)
                             (data Samples.midnight_rides)))
              [("HeatmapLayer", map_points Samples.midnight_rides);
               ("ScatterplotLayer", map_points Samples.midnight_rides)]
       /\ len (map_points Samples.midnight_rides) = len Samples.midnight_rides
       /\ (forall p, p ∈ data (map_points Samples.midnight_rides) ->
                     Forall (fun v => is_number v = true) p).
Proof.
  assert (Hc : canonical Demo.pickups_table = true) by (vm_compute; reflexivity).
  assert (Hf : filtered Demo.pickups_table Demo.midnight_hour = Ok Samples.midnight_rides)
    by (vm_compute; reflexivity).
  assert (Hn : data Samples.midnight_rides <> []) by (vm_compute; discriminate).
  exact (conj Hc (conj Hf (conj Hn
           (map_tab_points Demo.pickups_table Demo.midnight_hour Samples.midnight_rides
              Hc Hf Hn)))).
Defined.

(** *** X15 *)


(** *** X16 *)

Lemma default_dates_witness :
  canonical Demo.pickups_table = true
  /\ (data Demo.pickups_table = [] ->
      min_date Demo.pickups_table = Ok VNaT /\ max_date Demo.pickups_table = Ok VNaT)
  /\ (data Demo.pickups_table <> [] ->
      exists s e,
        min_date Demo.pickups_table = Ok (VDate s)
        /\ max_date Demo.pickups_table = Ok (VDate e)
        /\ s <= e
        /\ spans Demo.pickups_table s e
        /\ (exists row, row ∈ data Demo.pickups_table
                        /\ at_label (columns Demo.pickups_table) row "date" = VDate s)
        /\ (exists row, row ∈ data Demo.pickups_table
                        /\ at_label (columns Demo.pickups_table) row "date" = VDate e)).
Proof.
  assert (Hc : canonical Demo.pickups_table = true) by (vm_compute; reflexivity).
  exact (conj Hc (default_dates Demo.pickups_table Hc)).
Defined.

(** The first and the last day of the loaded pickups *)
Example pickups_default_dates :
  min_date Demo.pickups_table = Ok (VDate 16314)
  /\ max_date Demo.pickups_table = Ok (VDate 16315).
Proof. split; vm_compute; reflexivity. Qed.

End MoreRuns.
